(** * NEMS dashboard: the analytics core (cost, demand, sustainability)

    A shallow embedding of [lib/cost/costAnalyzer.ts],
    [lib/demand/demandAnalyzer.ts] and
    [lib/sustainability/sustainabilityAnalyzer.ts].

    - A JavaScript [number] is an IEEE-754 binary64 value: Rocq's primitive
      [float], whose [+ - * /], [sqrt] and comparisons round and compare as
      the JavaScript operators do (one [nan], signed zeros, infinities).
    - An [EnergyData.timestamp] is an ISO-8601 string; the analyzers only
      ever look at it through [new Date(timestamp)], so a reading carries
      the time value (milliseconds since the epoch, UTC) of that date.
      Strings that do not parse are outside the embedding.  Dates the code
      prints ([toISOString], [setHours(..).toString()]) are kept as their
      time value as well.
    - The host's local zone is a [Zone]: its offset from UTC at each time
      value and for each local time value, so hosts with daylight saving
      time are covered; [fixed_offset] gives the zones of one offset.
    - [new Date()], [Date.now()], [crypto.randomUUID()] and
      [Math.random()] read the host: a [World] of three oracle streams,
      threaded through the code by the [Eff] monad. *)

From Stdlib Require Import String Ascii DecimalString ZArith List Bool Lia.
From Stdlib Require Import Floats Sorted Permutation.
Import ListNotations.
Set Warnings "-inexact-float".

(** ** JavaScript numbers *)

Module Num.
Local Open Scope float_scope.

(** [Math.max(a, b)]: [NaN] if either is, and [+0] above [-0]. *)
Definition Math_max (a b : float) : float :=
  if is_nan a || is_nan b then nan
  else if a <? b then b
  else if b <? a then a
  else if get_sign a then b else a.

(** [Math.min(a, b)]: [NaN] if either is, and [-0] below [+0]. *)
Definition Math_min (a b : float) : float :=
  if is_nan a || is_nan b then nan
  else if a <? b then a
  else if b <? a then b
  else if get_sign a then a else b.

Definition Math_abs (a : float) : float := abs a.
Definition Math_sqrt (a : float) : float := sqrt a.

(** [Math.pow(x, 2)]: the square. *)
Definition Math_pow2 (a : float) : float := a * a.

(** An array length or a small integer as a number (exact below 2^53). *)
Definition of_Z (z : Z) : float :=
  if (z <? 0)%Z then - of_uint63 (Uint63.of_Z (- z))
  else of_uint63 (Uint63.of_Z z).

Definition of_nat (n : nat) : float := of_Z (Z.of_nat n).

(** [Math.round(x)]: the integer nearest to [x], ties towards
    [+Infinity], that is [floor(x + 1/2)] computed exactly; [-0] for
    [-0.5 <= x <= -0]. *)
Definition Math_round (x : float) : float :=
  match Prim2SF x with
  | S754_finite s m e =>
      if (0 <=? e)%Z then x
      else
        let r := ((if s then Z.neg m else Z.pos m) + 2 ^ (- e - 1))
                   / 2 ^ (- e) in
        if (r =? 0)%Z then (if s then neg_zero else zero) else of_Z r
  | _ => x
  end%Z.

(** Left-to-right sum from [0], as [reduce((s, x) => s + x, 0)]. *)
Definition sum (l : list float) : float := fold_left add l 0.
End Num.
Import Num.

(** ** Dates in the zone of the host *)

Module JSDate.
Local Open Scope Z_scope.

Definition msPerMinute : Z := 60000.
Definition msPerHour : Z := 3600000.
Definition msPerDay : Z := 86400000.

(** Days since the epoch to (year, month 0..11, day of month 1..31) in the
    proleptic Gregorian calendar. *)
Definition civil_from_days (days : Z) : Z * Z * Z :=
  let z := days + 719468 in
  let era := z / 146097 in
  let doe := z - era * 146097 in
  let yoe := (doe - doe / 1460 + doe / 36524 - doe / 146096) / 365 in
  let doy := doe - (365 * yoe + yoe / 4 - yoe / 100) in
  let mp := (5 * doy + 2) / 153 in
  let d := doy - (153 * mp + 2) / 5 + 1 in
  let m := if mp <? 10 then mp + 2 else mp - 10 in
  let y := yoe + era * 400 + (if m <=? 1 then 1 else 0) in
  (y, m, d).

(** [MakeDay(year, month, 1)]: the day number of the first of a month;
    [month] is any integer and is normalised into the year. *)
Definition days_from_civil (year month : Z) : Z :=
  let y0 := year + month / 12 in
  let m0 := month mod 12 in
  let y := if m0 <=? 1 then y0 - 1 else y0 in
  let era := y / 400 in
  let yoe := y - era * 400 in
  let mp := if m0 <=? 1 then m0 + 10 else m0 - 2 in
  let doy := (153 * mp + 2) / 5 in
  let doe := yoe * 365 + yoe / 4 - yoe / 100 + doy in
  era * 146097 + doe - 719468.

(** The zone of the host: the offset of local time from UTC in
    milliseconds, at a time value ([LocalTZA(t, true)]) and for a local
    time value ([LocalTZA(t, false)]).  With daylight saving time both
    change over the year. *)
Record Zone := mkZone {
  offsetAt : Z -> Z;
  offsetOfLocal : Z -> Z
}.

(** A zone that keeps one offset, in minutes east of UTC. *)
Definition fixed_offset (minutes : Z) : Zone :=
  mkZone (fun _ => minutes * msPerMinute) (fun _ => minutes * msPerMinute).

Definition UTC : Zone := fixed_offset 0.

Section Zone.
Variable tz : Zone.

(** [LocalTime(t)] and [UTC(t)]. *)
Definition localTime (t : Z) : Z := t + offsetAt tz t.
Definition utcTime (l : Z) : Z := l - offsetOfLocal tz l.

Definition getHours (t : Z) : Z := (localTime t / msPerHour) mod 24.
Definition getDay (t : Z) : Z := (localTime t / msPerDay + 4) mod 7.
Definition getMonth (t : Z) : Z :=
  let '(_, m, _) := civil_from_days (localTime t / msPerDay) in m.

(** [d.setHours(h, 0, 0, 0)]: hour [h] of [d]'s local day. *)
Definition setHours000 (t h : Z) : Z :=
  let l := localTime t in
  utcTime (l - l mod msPerDay + h * msPerHour).

(** [d.setHours(d.getHours() + i)]: the local time [i] hours on, minutes
    and below kept. *)
Definition addHours (t i : Z) : Z := utcTime (localTime t + i * msPerHour).

(** [d.setDate(d.getDate() + n)]: the same local time of day [n] calendar
    days on. *)
Definition addDays (t n : Z) : Z := utcTime (localTime t + n * msPerDay).

(** [d.setMonth(d.getMonth() + n)]: the day of month and the time of
    day are kept; a day past the end of the new month runs over. *)
Definition addMonths (t n : Z) : Z :=
  let l := localTime t in
  let '(y, m, d) := civil_from_days (l / msPerDay) in
  utcTime ((days_from_civil y (m + n) + d - 1) * msPerDay
           + l mod msPerDay).
End Zone.
End JSDate.
Import JSDate.

(** ** The host: clock, UUID source, random source *)

Record World := mkWorld {
  clock : nat -> Z;
  uuids : nat -> string;
  randoms : nat -> float;
  clock_reads : nat;
  uuid_reads : nat;
  random_reads : nat
}.

Definition Eff (A : Type) : Type := World -> A * World.

Definition ret {A} (a : A) : Eff A := fun w => (a, w).

Definition bind {A B} (m : Eff A) (k : A -> Eff B) : Eff B :=
  fun w => let r := m w in k (fst r) (snd r).

Declare Scope eff_scope.
Delimit Scope eff_scope with eff.
Notation "x <- m ;; k" := (bind m (fun x => k))
  (at level 61, m at next level, right associativity) : eff_scope.
Local Open Scope eff_scope.

(** [new Date().getTime()] and [Date.now()]. *)
Definition Date_now : Eff Z := fun w =>
  (clock w (clock_reads w),
   mkWorld (clock w) (uuids w) (randoms w)
           (S (clock_reads w)) (uuid_reads w) (random_reads w)).

(** [crypto.randomUUID()]. *)
Definition randomUUID : Eff string := fun w =>
  (uuids w (uuid_reads w),
   mkWorld (clock w) (uuids w) (randoms w)
           (clock_reads w) (S (uuid_reads w)) (random_reads w)).

(** [Math.random()]. *)
Definition Math_random : Eff float := fun w =>
  (randoms w (random_reads w),
   mkWorld (clock w) (uuids w) (randoms w)
           (clock_reads w) (uuid_reads w) (S (random_reads w))).

(** [xs.map(f)] and [Array.from({length}, f)] with an effectful callback,
    called on the elements in order. *)
Fixpoint mapM {A B} (f : A -> Eff B) (l : list A) : Eff (list B) :=
  match l with
  | [] => ret []
  | x :: l' => y <- f x ;; ys <- mapM f l' ;; ret (y :: ys)
  end.

(** The integers [0 .. n-1]. *)
Definition range (n : nat) : list Z := map Z.of_nat (seq 0 n).

(** [if (cond) list.push(make(crypto.randomUUID()))] *)
Definition push_if {A} (cond : bool) (make : string -> A) (l : list A)
  : Eff (list A) :=
  if cond then uuid <- randomUUID ;; ret (l ++ [make uuid]) else ret l.

(** An integer in decimal, as a template literal prints it. *)
Definition decimal (z : Z) : string :=
  NilZero.string_of_int (Z.to_int z).

(** ** Readings *)

Record EnergyData := mkReading {
  timestamp : Z;
  value : float
}.

(** The union type ['low' | 'medium' | 'high'] of severities, priorities
    and risk levels. *)
Inductive Level := low | medium | high.

(** ** Objects shared by reference

    [new Array(n).fill({ sum: 0, count: 0 })] evaluates the object literal
    once and stores the same reference in every slot.  The store maps an
    address to the object it holds; the array holds addresses. *)

Module Heap.
Local Open Scope float_scope.

Record Bucket := mkBucket { sum : float; count : float }.

Definition Store := list Bucket.
Definition addr := nat.

Definition alloc (b : Bucket) (s : Store) : addr * Store :=
  (length s, s ++ [b]).

Definition load (s : Store) (a : addr) : Bucket :=
  nth a s (mkBucket nan nan).

Fixpoint modify (s : Store) (a : addr) (f : Bucket -> Bucket) : Store :=
  match s, a with
  | [], _ => []
  | b :: s', O => f b :: s'
  | b :: s', S a' => b :: modify s' a' f
  end.

(** [new Array(n).fill(obj)]: one allocation, [n] copies of its address. *)
Definition Array_fill (n : nat) (b : Bucket) (s : Store)
  : list addr * Store :=
  let (a, s') := alloc b s in (repeat a n, s').

(** [arr[i].sum += x; arr[i].count++] *)
Definition accumulate (arr : list addr) (i : Z) (x : float) (s : Store)
  : Store :=
  let a := nth (Z.to_nat i) arr O in
  let s1 := modify s a (fun b => mkBucket (sum b + x) (count b)) in
  modify s1 a (fun b => mkBucket (sum b) (count b + 1)).

(** [b.count > 0 ? b.sum / b.count : 0] *)
Definition average (b : Bucket) : float :=
  if 0 <? count b then sum b / count b else 0.
End Heap.

(** ** Cost analyzer *)

Module CostAnalyzer.
Local Open Scope float_scope.

Record CostBreakdown := mkCostBreakdown {
  id : string;
  energy_data_id : string;
  peak_cost : float;
  off_peak_cost : float;
  demand_charges : float;
  fixed_charges : float;
  taxes : float;
  other_charges : float;
  created_at : Z
}.

Record CostMetrics := mkCostMetrics {
  averageCostPerKwh : float;
  peakCostPerKwh : float;
  offPeakCostPerKwh : float;
  demandCostPerKw : float
}.

Record PeriodCosts := mkPeriodCosts {
  totalCost : float;
  averageCost : float;
  peakCosts : float;
  offPeakCosts : float
}.

Record CostComparison := mkCostComparison {
  currentPeriod : PeriodCosts;
  previousPeriod : PeriodCosts;
  percentageChange : PeriodCosts
}.

Record CostForecast := mkCostForecast {
  date : Z;
  predictedCost : float;
  lower : float;
  upper : float
}.

Record CostAnomaly := mkCostAnomaly {
  anomaly_date : Z;
  actualCost : float;
  expectedCost : float;
  deviation : float;
  severity : Level;
  anomaly_confidence : float;
  impact_cost : float;
  impact_efficiency : float;
  timeOfDay : string;
  dayOfWeek : string;
  seasonality : string;
  rootCause : string
}.

Record TimeOfUseCost := mkTimeOfUseCost {
  hour : Z;
  weekday : Z;
  cost : float
}.

Inductive Category :=
  peak_reduction | efficiency | rate_optimization | demand_response.

Record OpportunityInsights := mkOpportunityInsights {
  keyFactors : list string;
  sensitivityAnalysis : list (string * float);
  riskLevel : Level;
  riskFactors : list string
}.

Record CostSavingOpportunity := mkCostSavingOpportunity {
  opportunity_id : string;
  description : string;
  potentialSavings : float;
  implementationCost : float;
  paybackPeriod : float;
  category : Category;
  priority : Level;
  confidence : float;
  implementationSteps : list string;
  roi : float;
  mlInsights : OpportunityInsights
}.

(** One entry of [MLUsagePattern]: the hour, day or month, then
    [avgUsage] and [confidence]. *)
Record UsagePattern := mkUsagePattern {
  key : Z;
  avgUsage : float;
  pattern_confidence : float
}.

Record MLInsights := mkMLInsights {
  daily : list UsagePattern;
  weekly : list UsagePattern;
  seasonal : list UsagePattern;
  costDrivers : list (string * float * float);
  optimizationTotal : float;
  optimizationBreakdown : list (string * float * float)
}.

Record CostAnalysis := mkCostAnalysis {
  breakdown : CostBreakdown;
  metrics : CostMetrics;
  comparison : CostComparison;
  forecast : list CostForecast;
  anomalies : list CostAnomaly;
  timeOfUse : list TimeOfUseCost;
  savingOpportunities : list CostSavingOpportunity;
  analysis_mlInsights : MLInsights;
  isLoading : bool;
  isError : bool;
  error : option string
}.

Definition PEAK_RATE : float := 0.15.
Definition OFF_PEAK_RATE : float := 0.08.
Definition DEMAND_CHARGE_RATE : float := 10.
Definition FIXED_CHARGE : float := 50.
Definition TAX_RATE : float := 0.08.

Definition isPeakHour (hour : Z) : bool :=
  ((9 <=? hour) && (hour <=? 17))%Z.

Definition rate (hour : Z) : float :=
  if isPeakHour hour then PEAK_RATE else OFF_PEAK_RATE.

Section Zone.
Variable tz : Zone.

(** The three locals [peakCost], [offPeakCost], [peakDemand] of
    [calculateBreakdown], after one more reading. *)
Definition breakdown_step (acc : float * float * float)
           (reading : EnergyData) : float * float * float :=
  let '(peakCost, offPeakCost, peakDemand) := acc in
  if isPeakHour (getHours tz (timestamp reading)) then
    (peakCost + value reading * PEAK_RATE, offPeakCost,
     Math_max peakDemand (value reading))
  else
    (peakCost, offPeakCost + value reading * OFF_PEAK_RATE, peakDemand).

Definition calculateBreakdown (data : list EnergyData)
  : Eff CostBreakdown :=
  let '(peakCost, offPeakCost, peakDemand) :=
    fold_left breakdown_step data (0, 0, 0) in
  let demandCharges := peakDemand * DEMAND_CHARGE_RATE in
  let subtotal := peakCost + offPeakCost + demandCharges + FIXED_CHARGE in
  let taxes := subtotal * TAX_RATE in
  uuid <- randomUUID ;;
  now <- Date_now ;;
  ret (mkCostBreakdown uuid EmptyString peakCost offPeakCost
         demandCharges FIXED_CHARGE taxes 0 now).

Definition calculateMetrics (breakdown : CostBreakdown)
           (totalKwh peakKwh : float) : CostMetrics :=
  mkCostMetrics
    ((peak_cost breakdown + off_peak_cost breakdown) / totalKwh)
    (peak_cost breakdown / peakKwh)
    (off_peak_cost breakdown / (totalKwh - peakKwh))
    (demand_charges breakdown / (peakKwh / PEAK_RATE)).

Definition calculateComparison (currentData previousData : list EnergyData)
  : Eff CostComparison :=
  currentBreakdown <- calculateBreakdown currentData ;;
  previousBreakdown <- calculateBreakdown previousData ;;
  let currentTotal :=
    peak_cost currentBreakdown + off_peak_cost currentBreakdown in
  let previousTotal :=
    peak_cost previousBreakdown + off_peak_cost previousBreakdown in
  let currentAvg := currentTotal / of_nat (length currentData) in
  let previousAvg := previousTotal / of_nat (length previousData) in
  ret (mkCostComparison
         (mkPeriodCosts currentTotal currentAvg
            (peak_cost currentBreakdown) (off_peak_cost currentBreakdown))
         (mkPeriodCosts previousTotal previousAvg
            (peak_cost previousBreakdown)
            (off_peak_cost previousBreakdown))
         (mkPeriodCosts
            ((currentTotal - previousTotal) / previousTotal * 100)
            ((currentAvg - previousAvg) / previousAvg * 100)
            ((peak_cost currentBreakdown - peak_cost previousBreakdown)
               / peak_cost previousBreakdown * 100)
            ((off_peak_cost currentBreakdown
                - off_peak_cost previousBreakdown)
               / off_peak_cost previousBreakdown * 100))).

Definition determineSeasonality (t : Z) : string :=
  let month := getMonth tz t in
  if ((5 <=? month) && (month <=? 8))%Z then "Summer"%string
  else if ((9 <=? month) && (month <=? 11))%Z then "Fall"%string
  else if ((2 <=? month) && (month <=? 4))%Z then "Spring"%string
  else "Winter"%string.

Definition determineRootCause (hour dayOfWeek : Z) (deviation : float)
  : string :=
  if isPeakHour hour && (2 <? deviation)
  then "Significant peak hour usage spike"%string
  else if ((dayOfWeek =? 0) || (dayOfWeek =? 6))%Z
  then "Unusual weekend activity"%string
  else if ((22 <=? hour) || (hour <=? 5))%Z
  then "Unexpected nighttime consumption"%string
  else "Normal operational variation"%string.

Definition dayNames : list string :=
  ["Sunday"; "Monday"; "Tuesday"; "Wednesday"; "Thursday"; "Friday";
   "Saturday"]%string.

(** The cost of one reading at the rate of its hour. *)
Definition reading_cost (reading : EnergyData) : float :=
  value reading * rate (getHours tz (timestamp reading)).

Definition severity_of (deviation : float) : Level :=
  if 2 <? deviation then high
  else if 1 <? deviation then medium
  else low.

Definition detectAnomalies (data : list EnergyData) : list CostAnomaly :=
  let costs :=
    map (fun reading => (timestamp reading, reading_cost reading)) data in
  let avgCost :=
    fold_left (fun sum record => sum + snd record) costs 0
      / of_nat (length costs) in
  let stdDev :=
    Math_sqrt
      (fold_left (fun sum record => sum + Math_pow2 (snd record - avgCost))
                 costs 0
         / of_nat (length costs)) in
  map (fun record =>
         let deviation := Math_abs (snd record - avgCost) / stdDev in
         let hour := getHours tz (fst record) in
         let dayOfWeek := getDay tz (fst record) in
         mkCostAnomaly
           (fst record)
           (snd record)
           avgCost
           deviation
           (severity_of deviation)
           (Math_max 0.7 (1 - deviation / 4))
           (Math_abs (snd record - avgCost))
           (if 1 <? deviation then 0.8 else 0.4)
           (decimal hour ++ ":00")%string
           (nth (Z.to_nat dayOfWeek) dayNames EmptyString)
           (determineSeasonality (fst record))
           (determineRootCause hour dayOfWeek deviation))
      costs.

(** The store after the [forEach] of [generateForecast]. *)
Definition forecast_store (hourlyAverages : list Heap.addr)
           (data : list EnergyData) (s : Heap.Store) : Heap.Store :=
  fold_left
    (fun s reading =>
       let hour := getHours tz (timestamp reading) in
       let cost := value reading * rate hour in
       Heap.accumulate hourlyAverages hour cost s)
    data s.

Definition generateForecast (data : list EnergyData)
  : Eff (list CostForecast) :=
  let (hourlyAverages, s0) :=
    Heap.Array_fill 24 (Heap.mkBucket 0 0) [] in
  let s := forecast_store hourlyAverages data s0 in
  mapM (fun '(ref, hour) =>
          let avg := Heap.load s ref in
          let baselineCost := Heap.average avg in
          let variance := baselineCost * 0.2 in
          now <- Date_now ;;
          ret (mkCostForecast
                 (setHours000 tz now hour)
                 baselineCost
                 (Math_max 0 (baselineCost - variance))
                 (baselineCost + variance)))
       (combine hourlyAverages (range 24)).

Definition readings_at (data : list EnergyData) (weekday hour : Z)
  : list EnergyData :=
  filter (fun reading =>
            ((getDay tz (timestamp reading) =? weekday)
             && (getHours tz (timestamp reading) =? hour))%Z)
         data.

(** [relevantData.length || 1] *)
Definition length_or_1 {A} (l : list A) : float :=
  match length l with
  | O => 1
  | n => of_nat n
  end.

Definition timeOfUse_cell (data : list EnergyData) (weekday hour : Z)
  : TimeOfUseCost :=
  let relevantData := readings_at data weekday hour in
  let avgUsage :=
    fold_left (fun sum reading => sum + value reading) relevantData 0
      / length_or_1 relevantData in
  mkTimeOfUseCost hour weekday (avgUsage * rate hour).

Definition generateTimeOfUseCosts (data : list EnergyData)
  : list TimeOfUseCost :=
  flat_map (fun weekday =>
              map (fun hour => timeOfUse_cell data weekday hour)
                  (range 24))
           (range 7).

Definition peakReductionOpportunity (breakdown : CostBreakdown)
           (uuid : string) : CostSavingOpportunity :=
  mkCostSavingOpportunity
    uuid
    "Shift peak usage to off-peak hours"
    (peak_cost breakdown * 0.2)
    5000
    12
    peak_reduction
    high
    0.85
    ["Identify peak usage equipment";
     "Create load shifting schedule";
     "Install automated controls";
     "Train staff on new procedures"]%string
    (peak_cost breakdown * 0.2 * 12 / 5000)
    (mkOpportunityInsights
       ["peak demand"; "operational schedule";
        "equipment efficiency"]%string
       [("peak hour reduction"%string, 0.6);
        ("equipment upgrades"%string, 0.4)]
       low
       ["proven technology"; "minimal disruption"]%string).

Definition rateOptimizationOpportunity (totalCost : float)
           (uuid : string) : CostSavingOpportunity :=
  mkCostSavingOpportunity
    uuid
    "Optimize rate structure"
    (totalCost * 0.15)
    2000
    6
    rate_optimization
    medium
    0.9
    ["Analyze current rate structure";
     "Compare available rate plans";
     "Calculate savings potential";
     "Submit rate change request"]%string
    (totalCost * 0.15 * 12 / 2000)
    (mkOpportunityInsights
       ["rate structure"; "usage patterns"; "peak demand"]%string
       [("rate differential"%string, 0.7);
        ("usage timing"%string, 0.3)]
       low
       ["no operational changes"; "guaranteed savings"]%string).

Definition demandResponseOpportunity (breakdown : CostBreakdown)
           (uuid : string) : CostSavingOpportunity :=
  mkCostSavingOpportunity
    uuid
    "Implement demand response program"
    (demand_charges breakdown * 0.25)
    10000
    18
    demand_response
    high
    0.8
    ["Evaluate demand response programs";
     "Install monitoring equipment";
     "Develop response strategies";
     "Train staff on procedures"]%string
    (demand_charges breakdown * 0.25 * 12 / 10000)
    (mkOpportunityInsights
       ["peak demand"; "response capability";
        "program incentives"]%string
       [("demand reduction"%string, 0.5);
        ("response time"%string, 0.5)]
       medium
       ["operational changes"; "staff training needed"]%string).

Definition generateSavingOpportunities (breakdown : CostBreakdown)
           (timeOfUse : list TimeOfUseCost)
  : Eff (list CostSavingOpportunity) :=
  let totalCost := peak_cost breakdown + off_peak_cost breakdown in
  o1 <- push_if (off_peak_cost breakdown * 1.5 <? peak_cost breakdown)
                (peakReductionOpportunity breakdown) [] ;;
  let avgPeakCost :=
    fold_left (fun sum tou => sum + cost tou)
              (filter (fun tou => isPeakHour (hour tou)) timeOfUse) 0
      / 9 in
  o2 <- push_if (PEAK_RATE * 1.2 <? avgPeakCost)
                (rateOptimizationOpportunity totalCost) o1 ;;
  push_if (totalCost * 0.3 <? demand_charges breakdown)
          (demandResponseOpportunity breakdown) o2.

(** The store after the [forEach] of [generateMLInsights]. *)
Definition patterns_store
           (hourlyPatterns weeklyPatterns monthlyPatterns : list Heap.addr)
           (data : list EnergyData) (s : Heap.Store) : Heap.Store :=
  fold_left
    (fun s reading =>
       let t := timestamp reading in
       let s1 :=
         Heap.accumulate hourlyPatterns (getHours tz t)
                         (value reading) s in
       let s2 :=
         Heap.accumulate weeklyPatterns (getDay tz t)
                         (value reading) s1 in
       Heap.accumulate monthlyPatterns (getMonth tz t)
                       (value reading) s2)
    data s.

Definition usage_patterns (s : Heap.Store) (arr : list Heap.addr)
           (n : float) : list UsagePattern :=
  map (fun '(ref, i) =>
         let pattern := Heap.load s ref in
         mkUsagePattern i (Heap.average pattern)
                        (Math_min 1 (Heap.count pattern / n)))
      (combine arr (range (length arr))).

Definition generateMLInsights (data : list EnergyData) : MLInsights :=
  let (hourlyPatterns, s0) :=
    Heap.Array_fill 24 (Heap.mkBucket 0 0) [] in
  let (weeklyPatterns, s1) :=
    Heap.Array_fill 7 (Heap.mkBucket 0 0) s0 in
  let (monthlyPatterns, s2) :=
    Heap.Array_fill 12 (Heap.mkBucket 0 0) s1 in
  let s :=
    patterns_store hourlyPatterns weeklyPatterns monthlyPatterns data s2 in
  mkMLInsights
    (usage_patterns s hourlyPatterns 30)
    (usage_patterns s weeklyPatterns 4)
    (usage_patterns s monthlyPatterns 30)
    [("Peak Demand"%string, 0.4, 0.9);
     ("Time of Use"%string, 0.3, 0.85);
     ("Weather"%string, 0.2, 0.75);
     ("Day Type"%string, 0.1, 0.95)]
    0.25
    [("Peak Reduction"%string, 0.15, 0.85);
     ("Load Shifting"%string, 0.05, 0.9);
     ("Efficiency"%string, 0.05, 0.8)].

(** [analyzeCosts(currentData, previousData = [])] *)
Definition analyzeCosts (currentData previousData : list EnergyData)
  : Eff CostAnalysis :=
  let totalKwh :=
    fold_left (fun sum reading => sum + value reading) currentData 0 in
  let peakKwh :=
    fold_left (fun sum reading => sum + value reading)
              (filter (fun reading =>
                         isPeakHour (getHours tz (timestamp reading)))
                      currentData) 0 in
  breakdown <- calculateBreakdown currentData ;;
  let metrics := calculateMetrics breakdown totalKwh peakKwh in
  comparison <-
    calculateComparison currentData
      (match previousData with [] => currentData | _ => previousData end) ;;
  let anomalies := detectAnomalies currentData in
  forecast <- generateForecast currentData ;;
  let timeOfUse := generateTimeOfUseCosts currentData in
  savingOpportunities <-
    generateSavingOpportunities breakdown timeOfUse ;;
  let mlInsights := generateMLInsights currentData in
  ret (mkCostAnalysis breakdown metrics comparison forecast anomalies
         timeOfUse savingOpportunities mlInsights false false None).
End Zone.
End CostAnalyzer.

(** ** Demand analyzer: the retained history *)

Module DemandAnalyzer.
Local Open Scope Z_scope.

(** The analyzer's only field that changes. *)
Record State := mkState { historicalData : list EnergyData }.

(** [private historicalData: EnergyData[] = []] *)
Definition initial : State := mkState [].

(** [Array.prototype.sort] with the comparator
    [(a, b) => time(a) - time(b)]: a stable sort, ascending in the time
    value. *)
Fixpoint insert_by_time (r : EnergyData) (l : list EnergyData)
  : list EnergyData :=
  match l with
  | [] => [r]
  | x :: l' =>
      if timestamp r <=? timestamp x then r :: l
      else x :: insert_by_time r l'
  end.

Definition sort_by_time (l : list EnergyData) : list EnergyData :=
  fold_right insert_by_time [] l.

Section Zone.
Variable tz : Zone.

(** [d = new Date(); d.setDate(d.getDate() - 30)] with [d] read at
    [now]: the same local time of day thirty calendar days earlier, in the
    zone of the host. *)
Definition thirtyDaysAgo (now : Z) : Z := addDays tz now (-30).

Definition updateHistoricalData (data : list EnergyData) (self : State)
  : Eff State :=
  let merged := sort_by_time (historicalData self ++ data) in
  now <- Date_now ;;
  ret (mkState
         (filter (fun reading => thirtyDaysAgo now <=? timestamp reading)
                 merged)).
End Zone.
End DemandAnalyzer.

(** ** Sustainability analyzer *)

Module SustainabilityAnalyzer.
Local Open Scope float_scope.

Inductive Trend := increasing | decreasing | stable.
Inductive ScoreTrend := improving | steady | declining.
Inductive Status := good | warning | critical.
Inductive Category := carbon | renewable | efficiency_cat | waste.

Record EmissionSource := mkEmissionSource {
  source : string;
  emissions : float;
  source_percentage : float;
  source_trend : Trend
}.

Record EmissionForecast := mkEmissionForecast {
  ef_timestamp : Z;
  predictedEmissions : float;
  ef_confidence : float
}.

Record CarbonFootprint := mkCarbonFootprint {
  totalEmissions : float;
  emissionsPerKwh : float;
  carbonIntensity : float;
  reductionFromBaseline : float;
  sources : list EmissionSource;
  carbon_forecast : list EmissionForecast
}.

Record Generation := mkGeneration {
  gen_source : string;
  amount : float;
  gen_efficiency : float;
  availability : float
}.

Record RenewableEnergy := mkRenewableEnergy {
  percentage : float;
  solarContribution : float;
  windContribution : float;
  gridUsage : float;
  peakRenewableHours : list Z;
  generation : list Generation;
  potential_solar : float;
  potential_wind : float;
  potential_storage : float;
  savings_cost : float;
  savings_carbon : float
}.

Record EquipmentScore := mkEquipmentScore {
  score : float;
  usage : float;
  potential : float;
  maintenance_status : Status;
  nextService : Z;
  maintenance_efficiency : float
}.

Record EfficiencyMetrics := mkEfficiencyMetrics {
  energyPerSquareFoot : float;
  peakEfficiency : float;
  offPeakEfficiency : float;
  equipmentScores : list (string * EquipmentScore);
  wasteEnergy : float;
  optimization_current : float;
  optimization_potential : float;
  optimization_steps : list (string * float * float)
}.

Record Risk := mkRisk {
  risk_description : string;
  risk_severity : Level;
  mitigation : string
}.

Record SustainabilityRecommendation := mkRecommendation {
  id : string;
  category : Category;
  title : string;
  description : string;
  impact_metric : string;
  impact_value : float;
  impact_unit : string;
  priority : Level;
  estimatedCost : float;
  paybackPeriod : float;
  steps : list string;
  timeline : string;
  requirements : list string;
  risks : list Risk;
  rec_confidence : float;
  factors : list string;
  sensitivity : list (string * float)
}.

Record Progress := mkProgress {
  progress_timestamp : Z;
  progress_score : float;
  majorChanges : list string
}.

Record ScoreForecast := mkScoreForecast {
  sf_timestamp : Z;
  predictedScore : float;
  sf_confidence : float
}.

Record SustainabilityScore := mkSustainabilityScore {
  overall : float;
  carbonScore : float;
  renewableScore : float;
  efficiencyScore : float;
  wasteScore : float;
  industryComparison : float;
  trend : ScoreTrend;
  recommendations : list SustainabilityRecommendation;
  historicalProgress : list Progress;
  score_forecast : list ScoreForecast
}.

Record UsageAnomaly := mkUsageAnomaly {
  ua_timestamp : Z;
  metric : string;
  expected : float;
  actual : float;
  ua_impact : float;
  ua_confidence : float
}.

Record MLSustainabilityInsights := mkInsights {
  seasonal : list (string * float * float);
  daily : list (string * float * float);
  weather : list (string * float * float);
  anomalies : list UsageAnomaly;
  correlations : list (string * float * float * float);
  shortTerm : list (string * float * float * string);
  longTerm : list (string * string * float * list string)
}.

Record SustainabilityMetrics := mkSustainabilityMetrics {
  carbonFootprint : CarbonFootprint;
  renewableEnergy : RenewableEnergy;
  efficiency : EfficiencyMetrics;
  sustainabilityScore : SustainabilityScore;
  mlInsights : MLSustainabilityInsights
}.

Definition BASELINE_EMISSIONS : float := 0.5.
Definition INDUSTRY_BENCHMARK : float := 75.
Definition SQUARE_FOOTAGE : float := 10000.
Definition SOLAR_FACTOR : float := 0.20.
Definition WIND_FACTOR : float := 0.35.

(** [data.reduce((sum, reading) => sum + reading.value, 0)] *)
Definition totalUsage (data : list EnergyData) : float :=
  fold_left (fun sum reading => sum + value reading) data 0.

Section Zone.
Variable tz : Zone.

Definition calculateCarbonFootprint (data : list EnergyData)
  : Eff CarbonFootprint :=
  let totalUsage := totalUsage data in
  let emissions := totalUsage * 0.4 in
  let sources :=
    [mkEmissionSource "Grid Power" (emissions * 0.6) 60 decreasing;
     mkEmissionSource "On-site Generation" (emissions * 0.3) 30 stable;
     mkEmissionSource "Backup Systems" (emissions * 0.1) 10 increasing] in
  forecast <-
    mapM (fun i =>
            now <- Date_now ;;
            random <- Math_random ;;
            ret (mkEmissionForecast
                   (addHours tz now i)
                   (emissions / 24 * (1 + random * 0.2 - 0.1))
                   (0.9 - of_Z i * 0.02)))
         (range 24) ;;
  ret (mkCarbonFootprint
         emissions
         (emissions / totalUsage)
         (emissions / totalUsage * 1000)
         ((BASELINE_EMISSIONS - emissions / totalUsage)
            / BASELINE_EMISSIONS * 100)
         sources
         forecast).

(** [data.filter((_, index) => index % 4 === 0)] *)
Fixpoint every_fourth (data : list EnergyData) (index : nat)
  : list EnergyData :=
  match data with
  | [] => []
  | reading :: rest =>
      if (index mod 4 =? 0)%nat
      then reading :: every_fourth rest (S index)
      else every_fourth rest (S index)
  end.

Definition identifyPeakRenewableHours (data : list EnergyData) : list Z :=
  map timestamp (firstn 5 (every_fourth data 0)).

Definition calculateRenewableMetrics (data : list EnergyData)
  : RenewableEnergy :=
  let totalUsage := totalUsage data in
  let solarContribution := totalUsage * 0.15 in
  let windContribution := totalUsage * 0.25 in
  mkRenewableEnergy
    ((solarContribution + windContribution) / totalUsage * 100)
    solarContribution
    windContribution
    (totalUsage - (solarContribution + windContribution))
    (identifyPeakRenewableHours data)
    [mkGeneration "Solar" solarContribution SOLAR_FACTOR 0.98;
     mkGeneration "Wind" windContribution WIND_FACTOR 0.95]
    (solarContribution * 1.5)
    (windContribution * 1.3)
    (totalUsage * 0.2)
    ((solarContribution + windContribution) * 0.12)
    ((solarContribution + windContribution) * 0.4).

Definition calculateWasteEnergy (data : list EnergyData)
           (avgUsage : float) : float :=
  fold_left (fun waste reading =>
               let expectedUsage := avgUsage * 1.1 in
               waste + Math_max 0 (value reading - expectedUsage))
            data 0.

Definition calculateEfficiencyMetrics (data : list EnergyData)
  : Eff EfficiencyMetrics :=
  let totalUsage := totalUsage data in
  let avgUsage := totalUsage / of_nat (length data) in
  now1 <- Date_now ;;
  now2 <- Date_now ;;
  now3 <- Date_now ;;
  let equipmentScores :=
    [("hvac"%string,
      mkEquipmentScore 82 (totalUsage * 0.4) (totalUsage * 0.35)
        good (now1 + 30 * 24 * 60 * 60 * 1000)%Z 0.88);
     ("lighting"%string,
      mkEquipmentScore 88 (totalUsage * 0.2) (totalUsage * 0.15)
        warning (now2 + 15 * 24 * 60 * 60 * 1000)%Z 0.92);
     ("equipment"%string,
      mkEquipmentScore 75 (totalUsage * 0.4) (totalUsage * 0.3)
        critical (now3 + 5 * 24 * 60 * 60 * 1000)%Z 0.78)] in
  let wasteEnergy := calculateWasteEnergy data avgUsage in
  ret (mkEfficiencyMetrics
         (totalUsage / SQUARE_FOOTAGE)
         85
         90
         equipmentScores
         wasteEnergy
         0.82
         0.90
         [("Optimize HVAC schedules"%string, 0.05, 5000);
          ("Upgrade lighting controls"%string, 0.03, 8000)]).

(** [data.slice(-5)]: the last five readings. *)
Definition last_five (data : list EnergyData) : list EnergyData :=
  skipn (length data - 5) data.

Definition calculateMLInsights (data : list EnergyData)
  : Eff MLSustainabilityInsights :=
  daily <-
    mapM (fun hour =>
            random <- Math_random ;;
            ret ((decimal hour ++ ":00")%string,
                 0.8 + random * 0.2,
                 0.9 - of_Z (hour mod 12) * 0.02))
         (range 24) ;;
  ret (mkInsights
         [("Summer"%string, 0.3, 0.85);
          ("Winter"%string, 0.25, 0.82);
          ("Spring"%string, 0.2, 0.88);
          ("Fall"%string, 0.15, 0.87)]
         daily
         [("Temperature"%string, 0.4, 0.9);
          ("Humidity"%string, 0.2, 0.85);
          ("Cloud Cover"%string, 0.15, 0.8)]
         (map (fun reading =>
                 mkUsageAnomaly (timestamp reading) "Energy Usage"
                   (value reading * 0.9) (value reading) 0.1 0.85)
              (last_five data))
         [("Occupancy"%string, 0.8, 0.95, 0.9);
          ("Temperature"%string, 0.7, 0.9, 0.85);
          ("Time of Day"%string, 0.6, 0.85, 0.8)]
         [("Energy Usage"%string, 150, 0.9, "1h"%string);
          ("Efficiency"%string, 0.85, 0.85, "4h"%string);
          ("Carbon Intensity"%string, 0.4, 0.8, "24h"%string)]
         [("Sustainability Score"%string, "improving"%string, 0.75,
           ["Equipment Upgrades"; "Renewable Integration"]%string);
          ("Carbon Emissions"%string, "decreasing"%string, 0.8,
           ["Grid Decarbonization";
            "Efficiency Improvements"]%string)]).

Definition calculateTrend (currentScore : float) : ScoreTrend :=
  if INDUSTRY_BENCHMARK + 5 <? currentScore then improving
  else if currentScore <? INDUSTRY_BENCHMARK - 5 then declining
  else steady.

Definition carbonRecommendation (uuid : string)
  : SustainabilityRecommendation :=
  mkRecommendation
    uuid
    carbon
    "Implement Carbon Reduction Measures"
    "Switch to energy-efficient equipment and optimize HVAC schedules"
    "CO2 Reduction" 25 "tons/year"
    high
    50000
    24
    ["Audit current equipment";
     "Identify replacement options";
     "Schedule installations";
     "Monitor performance"]%string
    "6 months"
    ["Capital budget"; "Technical expertise"]%string
    [mkRisk "Equipment compatibility" medium
            "Conduct thorough assessment"]
    0.85
    ["Equipment age"; "Usage patterns"]%string
    [("Implementation speed"%string, 0.7);
     ("Staff training"%string, 0.3)].

Definition renewableRecommendation (uuid : string)
  : SustainabilityRecommendation :=
  mkRecommendation
    uuid
    renewable
    "Increase Renewable Energy Usage"
    "Install solar panels or purchase renewable energy credits"
    "Renewable Percentage" 30 "%"
    medium
    75000
    36
    ["Site assessment";
     "System design";
     "Installation";
     "Grid integration"]%string
    "4 months"
    ["Roof space"; "Structural assessment"]%string
    [mkRisk "Weather variability" low "Include battery storage"]
    0.9
    ["Solar exposure"; "Energy demand"]%string
    [("Installation timing"%string, 0.4);
     ("System size"%string, 0.6)].

(** Only [carbonScore] and [renewableScore] of the scores are read. *)
Definition generateRecommendations (carbonScore renewableScore : float)
  : Eff (list SustainabilityRecommendation) :=
  r1 <- push_if (carbonScore <? 70)
                             carbonRecommendation [] ;;
  push_if (renewableScore <? 50)
                       renewableRecommendation r1.

Definition calculateSustainabilityScore (carbon : CarbonFootprint)
           (renewable : RenewableEnergy) (efficiency : EfficiencyMetrics)
  : Eff SustainabilityScore :=
  let carbonScore :=
    Math_min 100
      ((1 - emissionsPerKwh carbon / BASELINE_EMISSIONS) * 100) in
  let renewableScore := percentage renewable in
  let efficiencyScore :=
    (peakEfficiency efficiency + offPeakEfficiency efficiency) / 2 in
  let wasteScore := Math_max 0 (100 - wasteEnergy efficiency / 10) in
  let overall :=
    Math_round (carbonScore * 0.3 + renewableScore * 0.3
                + efficiencyScore * 0.2 + wasteScore * 0.2) in
  historicalProgress <-
    mapM (fun i =>
            now <- Date_now ;;
            random <- Math_random ;;
            ret (mkProgress
                   (addMonths tz now (- i))
                   (Math_max 50 (overall - of_Z i * (random * 2 - 1)))
                   (if (i mod 3 =? 0)%Z
                    then ["Equipment Upgrade";
                          "Solar Installation"]%string
                    else [])))
         (range 12) ;;
  forecast <-
    mapM (fun i =>
            now <- Date_now ;;
            random <- Math_random ;;
            ret (mkScoreForecast
                   (addMonths tz now i)
                   (Math_min 100 (overall + of_Z i * (random * 2)))
                   (0.9 - of_Z i * 0.05)))
         (range 12) ;;
  recommendations <- generateRecommendations carbonScore renewableScore ;;
  ret (mkSustainabilityScore
         overall carbonScore renewableScore efficiencyScore wasteScore
         ((overall - INDUSTRY_BENCHMARK) / INDUSTRY_BENCHMARK * 100)
         (calculateTrend overall)
         recommendations
         historicalProgress
         forecast).

Definition analyzeSustainability (data : list EnergyData)
  : Eff SustainabilityMetrics :=
  carbonFootprint <- calculateCarbonFootprint data ;;
  let renewableEnergy := calculateRenewableMetrics data in
  efficiency <- calculateEfficiencyMetrics data ;;
  sustainabilityScore <-
    calculateSustainabilityScore carbonFootprint renewableEnergy
                                 efficiency ;;
  mlInsights <- calculateMLInsights data ;;
  ret (mkSustainabilityMetrics carbonFootprint renewableEnergy efficiency
         sustainabilityScore mlInsights).
End Zone.
End SustainabilityAnalyzer.

(** ** Demand analyzer: the profile *)

Module DemandProfile.
Import DemandAnalyzer.
Local Open Scope float_scope.

Inductive Trend := increasing | decreasing | stable.
Inductive RecommendationType := immediate | scheduled | strategic.
Inductive AlertType := warning | critical.

Record Risk := mkRisk {
  risk_description : string;
  risk_severity : Level;
  mitigation : string
}.

Record PeakPrediction := mkPeakPrediction {
  peak_timestamp : Z;
  predictedDemand : float;
  confidence : float;
  factors : list string;
  weatherImpact : float;
  seasonalityImpact : float;
  operationalImpact : float;
  range_low : float;
  range_high : float;
  contributors : list (string * float * float)
}.

Record DemandRecommendation := mkDemandRecommendation {
  id : string;
  rec_type : RecommendationType;
  action : string;
  impact : float;
  priority : Level;
  window_start : Z;
  window_end : Z;
  description : string;
  steps : list string;
  estimatedSavings : float;
  implementationCost : option float;
  paybackPeriod : option float;
  requirements : list string;
  risks : list Risk;
  ml_confidence : float;
  ml_factors : list string;
  impactProbability : float;
  sensitivityAnalysis : list (string * float)
}.

Record Alert := mkAlert {
  alert_type : AlertType;
  message : string;
  threshold : float;
  currentValue : float
}.

(** A demand factor: name, contribution and trend; the trend is the string
    the code stores. *)
Record RealTimeMetrics := mkRealTimeMetrics {
  loadFactor : float;
  powerFactor : float;
  demandFactors : list (string * float * string);
  alerts : list Alert
}.

(** The [peakTime] of a weekly pattern is the string of a number followed by
    [:00]; the number is kept. *)
Record DemandPredictions := mkDemandPredictions {
  nextPeak : PeakPrediction;
  dailyForecast : list (Z * float * float);
  weeklyPattern : list (string * float * float * float);
  seasonalTrends : list (string * float * float * float)
}.

Record Pattern (K : Type) := mkPattern {
  pattern_key : K;
  avgDemand : float;
  peakProbability : float
}.
Arguments mkPattern {K}.
Arguments pattern_key {K}.
Arguments avgDemand {K}.
Arguments peakProbability {K}.

Record DemandPatterns := mkDemandPatterns {
  daily : list (Pattern Z);
  weekly : list (Pattern string);
  monthly : list (Pattern string);
  correlations : list (string * float * float)
}.

Record Profile := mkProfile {
  currentDemand : float;
  peakDemand : float;
  predictedPeak : float;
  demandTrend : Trend;
  timeToNextPeak : float;
  recommendations : list DemandRecommendation;
  realTimeMetrics : RealTimeMetrics;
  predictions : DemandPredictions;
  patterns : DemandPatterns
}.

Definition PEAK_THRESHOLD : float := 0.8.
Definition LOAD_FACTOR_THRESHOLD : float := 0.7.
Definition POWER_FACTOR_THRESHOLD : float := 0.9.

(** [Math.floor(x)]: the greatest integer not above [x]. *)
Definition Math_floor (x : float) : float :=
  match Prim2SF x with
  | S754_finite s m e =>
      if (0 <=? e)%Z then x
      else
        let r := ((if s then Z.neg m else Z.pos m) / 2 ^ (- e))%Z in
        if (r =? 0)%Z then (if s then neg_zero else zero) else of_Z r
  | _ => x
  end.

(** [n || 1] on a number: [1] for [0] and [NaN]. *)
Definition or_one (n : float) : float :=
  if is_zero n || is_nan n then 1 else n.

(** [data.slice(-n)]: the last [n] elements. *)
Definition last_n {A} (n : nat) (l : list A) : list A :=
  skipn (length l - n) l.

(** [arr[i] = f(arr[i])] on an array of numbers. *)
Fixpoint update_at (l : list float) (i : nat) (f : float -> float)
  : list float :=
  match l, i with
  | [], _ => []
  | x :: l', O => f x :: l'
  | x :: l', S i' => x :: update_at l' i' f
  end.

Definition calculateCurrentDemand (recentData : list EnergyData) : float :=
  match recentData with
  | [] => 0
  | _ => value (last recentData (mkReading 0 0))
  end.

(** [Math.max(...values)]: the greatest, from [-Infinity]. *)
Definition calculatePeakDemand (self : State) : float :=
  match historicalData self with
  | [] => 0
  | readings => fold_left Math_max (map value readings) neg_infinity
  end.

(** [values.slice(1).map((value, index) => value - values[index])] *)
Fixpoint deltas (values : list float) : list float :=
  match values with
  | x :: (y :: _) as rest => (y - x) :: deltas rest
  | _ => []
  end.

Definition analyzeTrend (recentData : list EnergyData) : Trend :=
  if (length recentData <? 2)%nat then stable
  else
    let values := map value recentData in
    let deltas := deltas values in
    let averageDelta :=
      fold_left (fun sum delta => sum + delta) deltas 0
        / of_nat (length deltas) in
    if 1 <? averageDelta then increasing
    else if averageDelta <? -1 then decreasing
    else stable.

Definition trend_name (t : Trend) : string :=
  match t with
  | increasing => "increasing"
  | decreasing => "decreasing"
  | stable => "stable"
  end.

Definition insufficient : list string :=
  ["Insufficient data for prediction"]%string.

Section Zone.
Variable tz : Zone.

(** The totals and counts per hour of [predictNextPeak]. *)
Definition hourly_totals (recentData : list EnergyData)
  : list float * list float :=
  fold_left
    (fun acc reading =>
       let hour := Z.to_nat (getHours tz (timestamp reading)) in
       (update_at (fst acc) hour (fun total => total + value reading),
        update_at (snd acc) hour (fun count => count + 1)))
    recentData (repeat 0 24, repeat 0 24).

(** [normalizedAverages]: hour and average per hour. *)
Definition normalizedAverages (recentData : list EnergyData)
  : list (Z * float) :=
  let (hourlyAverages, hourCounts) := hourly_totals recentData in
  map (fun p => (snd p, fst (fst p) / or_one (snd (fst p))))
      (combine (combine hourlyAverages hourCounts) (range 24)).

(** The first hour of the greatest average. *)
Definition peakHour (recentData : list EnergyData) : Z * float :=
  let averages := normalizedAverages recentData in
  fold_left (fun max current =>
               if snd max <? snd current then current else max)
            averages (hd (0%Z, 0) averages).

Definition predictNextPeak (recentData : list EnergyData)
  : Eff PeakPrediction :=
  if (length recentData <? 24)%nat then
    now <- Date_now ;;
    ret (mkPeakPrediction now 0 0 insufficient 0 0 0 0 0 [])
  else
    let peak := peakHour recentData in
    now <- Date_now ;;
    let day :=
      if (fst peak <=? getHours tz now)%Z then addDays tz now 1 else now in
    let nextPeakDate := setHours000 tz day (fst peak) in
    let weatherImpact := 0.15 in
    let seasonalityImpact := 0.1 in
    let operationalImpact := 0.2 in
    let baselinePrediction := snd peak in
    let adjustedPrediction :=
      baselinePrediction
      * (1 + weatherImpact + seasonalityImpact + operationalImpact) in
    ret (mkPeakPrediction
           nextPeakDate
           adjustedPrediction
           0.85
           ["Historical usage patterns"; "Weather forecast";
            "Seasonal trends"; "Operational schedule"]%string
           weatherImpact seasonalityImpact operationalImpact
           (adjustedPrediction * 0.9)
           (adjustedPrediction * 1.1)
           [("Base Load"%string, 0.6, 0.9);
            ("Weather"%string, 0.25, 0.8);
            ("Special Events"%string, 0.15, 0.7)]).

Definition calculateRealTimeMetrics (recentData : list EnergyData)
  : RealTimeMetrics :=
  let currentDemand := calculateCurrentDemand recentData in
  let avgDemand :=
    fold_left (fun sum reading => sum + value reading) recentData 0
      / of_nat (length recentData) in
  let loadFactor := avgDemand / currentDemand in
  let powerFactor := 0.92 in
  let demandFactors :=
    [("HVAC"%string, 0.4, trend_name (analyzeTrend (last_n 6 recentData)));
     ("Lighting"%string, 0.2, "stable"%string);
     ("Equipment"%string, 0.4, "up"%string)] in
  let alerts1 :=
    if loadFactor <? LOAD_FACTOR_THRESHOLD
    then [mkAlert warning
                  "Low load factor indicates poor demand management"
                  LOAD_FACTOR_THRESHOLD loadFactor]
    else [] in
  let alerts2 :=
    if powerFactor <? POWER_FACTOR_THRESHOLD
    then alerts1 ++ [mkAlert critical
                             "Low power factor may result in penalties"
                             POWER_FACTOR_THRESHOLD powerFactor]
    else alerts1 in
  mkRealTimeMetrics loadFactor powerFactor demandFactors alerts2.

(** The objects that [generateDemandPatterns] fills its arrays with. *)
Record PeakBucket := mkPeakBucket {
  sum : float;
  count : float;
  peaks : float
}.

(** [arr[i].sum += x; arr[i].count++; if (x > threshold) arr[i].peaks++],
    where the array holds the address of its object in every slot. *)
Definition tally (arr : list nat) (i : Z) (x peakThreshold : float)
           (s : list PeakBucket) : list PeakBucket :=
  let a := nth (Z.to_nat i) arr O in
  map (fun p : nat * PeakBucket =>
         if (fst p =? a)%nat then
           mkPeakBucket (sum (snd p) + x) (count (snd p) + 1)
                        (if peakThreshold <? x then peaks (snd p) + 1
                         else peaks (snd p))
         else snd p)
      (combine (seq 0 (length s)) s).

Definition dayNames : list string :=
  ["Sunday"; "Monday"; "Tuesday"; "Wednesday"; "Thursday"; "Friday";
   "Saturday"]%string.

Definition monthNames : list string :=
  ["Jan"; "Feb"; "Mar"; "Apr"; "May"; "Jun"; "Jul"; "Aug"; "Sep"; "Oct";
   "Nov"; "Dec"]%string.

Definition pattern_of {K} (s : list PeakBucket) (key : K) (a : nat)
  : Pattern K :=
  let data := nth a s (mkPeakBucket nan nan nan) in
  mkPattern key
            (if 0 <? count data then sum data / count data else 0)
            (if 0 <? count data then peaks data / count data else 0).

(** The three arrays are filled with one object each: the objects are at
    the addresses 0, 1 and 2. *)
Definition generateDemandPatterns (self : State)
           (recentData : list EnergyData) : DemandPatterns :=
  let hourlyData := repeat 0%nat 24 in
  let weeklyData := repeat 1%nat 7 in
  let monthlyData := repeat 2%nat 12 in
  let s0 := repeat (mkPeakBucket 0 0 0) 3 in
  let peakThreshold := calculatePeakDemand self * 0.9 in
  let s :=
    fold_left
      (fun s reading =>
         let t := timestamp reading in
         let s1 := tally hourlyData (getHours tz t) (value reading)
                         peakThreshold s in
         let s2 := tally weeklyData (getDay tz t) (value reading)
                         peakThreshold s1 in
         tally monthlyData (getMonth tz t) (value reading) peakThreshold s2)
      recentData s0 in
  mkDemandPatterns
    (map (fun p => pattern_of s (snd p) (fst p))
         (combine hourlyData (range 24)))
    (map (fun p => pattern_of s (snd p) (fst p))
         (combine weeklyData dayNames))
    (map (fun p => pattern_of s (snd p) (fst p))
         (combine monthlyData monthNames))
    [("Temperature"%string, 0.85, 0.95);
     ("Time of Day"%string, 0.75, 0.9);
     ("Day of Week"%string, 0.6, 0.85)].

Definition immediateRecommendation (currentDemand peakDemand : float)
           (uuid : string) (start finish : Z) : DemandRecommendation :=
  mkDemandRecommendation
    uuid
    immediate
    "Reduce non-essential equipment usage"
    (Math_round ((currentDemand - peakDemand * 0.7) * 10) / 10)
    high
    start
    (finish + 30 * 60000)%Z
    "Immediate reduction of non-critical loads to avoid peak demand charges"
    ["Identify non-essential equipment";
     "Gradually reduce HVAC load";
     "Dim non-critical lighting";
     "Postpone high-power operations"]%string
    (currentDemand * 0.2 * 0.15 * 100)
    None
    None
    ["Load monitoring system"; "Staff availability"]%string
    [mkRisk "Temporary comfort impact" low
            "Maintain minimum comfort levels"]
    0.9
    ["Current demand trend"; "Historical response effectiveness"]%string
    0.85
    [("Staff response time"%string, 0.4);
     ("Equipment flexibility"%string, 0.6)].

Definition scheduledRecommendation (prediction : PeakPrediction)
           (uuid : string) : DemandRecommendation :=
  mkDemandRecommendation
    uuid
    scheduled
    "Pre-cool facility before predicted peak"
    (Math_round (predictedDemand prediction * 0.15 * 10) / 10)
    medium
    (peak_timestamp prediction - 2 * 60 * 60000)%Z
    (peak_timestamp prediction)
    "Proactive thermal management to reduce peak load"
    ["Adjust temperature setpoints";
     "Enable thermal storage";
     "Optimize equipment scheduling";
     "Monitor building response"]%string
    (predictedDemand prediction * 0.15 * 0.15 * 100)
    (Some 0)
    None
    ["BMS control"; "Temperature sensors"]%string
    [mkRisk "System response lag" medium "Start adjustments earlier"]
    0.85
    ["Weather forecast"; "Building thermal mass"]%string
    0.8
    [("Outside temperature"%string, 0.7);
     ("Occupancy level"%string, 0.3)].

Definition strategicRecommendation (peakDemand : float)
           (uuid : string) (start finish : Z) : DemandRecommendation :=
  mkDemandRecommendation
    uuid
    strategic
    "Implement automated load shifting"
    (Math_round (peakDemand * 0.2 * 10) / 10)
    low
    start
    (finish + 7 * 24 * 60 * 60000)%Z
    "Long-term demand management through automation"
    ["Assess current capabilities";
     "Design control strategy";
     "Install automation system";
     "Configure alerts and reporting"]%string
    (peakDemand * 0.2 * 0.15 * 1000)
    (Some 50000)
    (Some 24)
    ["Capital budget"; "Technical expertise"]%string
    [mkRisk "Integration complexity" medium "Phased implementation"]
    0.75
    ["Historical peak patterns"; "Equipment compatibility"]%string
    0.7
    [("System reliability"%string, 0.5);
     ("User adoption"%string, 0.5)].

Definition generateRecommendations (currentDemand peakDemand : float)
           (prediction : PeakPrediction) : Eff (list DemandRecommendation) :=
  r1 <- (if peakDemand * PEAK_THRESHOLD <? currentDemand then
           uuid <- randomUUID ;;
           start <- Date_now ;;
           finish <- Date_now ;;
           ret [immediateRecommendation currentDemand peakDemand uuid
                                        start finish]
         else ret []) ;;
  now <- Date_now ;;
  let hoursUntilPeak :=
    of_Z (peak_timestamp prediction - now) / (1000 * 60 * 60) in
  r2 <- (if hoursUntilPeak <? 2 then
           uuid <- randomUUID ;;
           ret (r1 ++ [scheduledRecommendation prediction uuid])
         else ret r1) ;;
  uuid <- randomUUID ;;
  start <- Date_now ;;
  finish <- Date_now ;;
  ret (r2 ++ [strategicRecommendation peakDemand uuid start finish]).

Definition generateDemandPredictions (self : State)
           (recentData : list EnergyData) : Eff DemandPredictions :=
  nextPeak <- predictNextPeak recentData ;;
  dailyForecast <-
    mapM (fun hour =>
            now <- Date_now ;;
            let t := addHours tz now hour in
            let historicalData :=
              filter (fun reading =>
                        (getHours tz (timestamp reading) =? getHours tz t)%Z)
                     (historicalData self) in
            let avgDemand :=
              fold_left (fun sum reading => sum + value reading)
                        historicalData 0
                / of_nat (length historicalData) in
            random <- Math_random ;;
            ret (t, avgDemand * (1 + random * 0.2 - 0.1),
                 0.9 - of_Z hour * 0.02))
         (range 24) ;;
  weeklyPattern <-
    mapM (fun day =>
            r1 <- Math_random ;;
            r2 <- Math_random ;;
            ret (day, r1 * 100 + 200, Math_floor (r2 * 4 + 12), 0.85))
         dayNames ;;
  seasonalTrends <-
    mapM (fun season =>
            r1 <- Math_random ;;
            r2 <- Math_random ;;
            ret (season, r1 * 150 + 180, r2 * 100 + 250, 0.8))
         ["Winter"; "Spring"; "Summer"; "Fall"]%string ;;
  ret (mkDemandPredictions nextPeak dailyForecast weeklyPattern
                           seasonalTrends).

(** [analyzeDemand(recentData)]: the profile and the analyzer after the
    call. *)
Definition analyzeDemand (recentData : list EnergyData) (self : State)
  : Eff (Profile * State) :=
  self' <- updateHistoricalData tz recentData self ;;
  let currentDemand := calculateCurrentDemand recentData in
  let peakDemand := calculatePeakDemand self' in
  let demandTrend := analyzeTrend recentData in
  predictions <- generateDemandPredictions self' recentData ;;
  let patterns := generateDemandPatterns self' recentData in
  let realTimeMetrics := calculateRealTimeMetrics recentData in
  recommendations <-
    generateRecommendations currentDemand peakDemand (nextPeak predictions) ;;
  now <- Date_now ;;
  ret (mkProfile
         currentDemand
         peakDemand
         (predictedDemand (nextPeak predictions))
         demandTrend
         (Math_max 0
            (of_Z (peak_timestamp (nextPeak predictions) - now)
               / (1000 * 60)))
         recommendations
         realTimeMetrics
         predictions
         patterns,
       self').
End Zone.
End DemandProfile.

(** * Properties *)

(** ** Sample inputs *)

(** A host in UTC whose clock starts at 2024-03-01T10:00:00Z and moves one
    millisecond per reading, whose UUIDs are numbered and whose random
    source is constant. *)
Definition sample_host : World :=
  mkWorld (fun n => 1709287200000 + Z.of_nat n)%Z
          (fun n => ("uuid-" ++ decimal (Z.of_nat n))%string)
          (fun _ => 0.5%float)
          0 0 0.


(** 2024-03-01 (a Friday) at 06:00, 10:00, 14:00, 20:00 and 23:00 UTC. *)
Definition t_06 : Z := 1709272800000.
Definition t_10 : Z := 1709287200000.
Definition t_14 : Z := 1709301600000.
Definition t_20 : Z := 1709323200000.
Definition t_23 : Z := 1709334000000.

(** [mockData] of the cost analyzer's tests. *)
Definition mockData : list EnergyData :=
  [mkReading t_10 100; mkReading t_14 150; mkReading t_06 50;
   mkReading t_20 75; mkReading t_23 25].

(** One reading per hour of 2024-03-01 UTC, rising to 14:00 and falling
    after it. *)
Definition day_readings : list EnergyData :=
  map (fun h => mkReading (1709251200000 + h * msPerHour)%Z
                          (of_Z (100 - Z.abs (h - 14))))
      (range 24).

(** A host whose clock shows 2024-06-01T00:00:00Z, more than thirty days
    after the readings of the tests. *)
Definition later_host : World :=
  mkWorld (fun n => 1717200000000 + Z.of_nat n)%Z
          (fun n => ("uuid-" ++ decimal (Z.of_nat n))%string)
          (fun _ => 0.5%float)
          0 0 0.

(** Eastern Time around the end of daylight saving time in 2026: four
    hours behind UTC until 2026-11-01T06:00:00Z, five hours from then on.
    A local time that occurs twice is taken before the change. *)
Definition new_york_2026 : Zone :=
  mkZone (fun t => if (t <? 1793512800000)%Z
                   then (-4 * msPerHour)%Z else (-5 * msPerHour)%Z)
         (fun l => if (l <? 1793512800000 - 4 * msPerHour)%Z
                   then (-4 * msPerHour)%Z else (-5 * msPerHour)%Z).

(** A host whose clock shows 2026-11-02T17:00:00Z. *)
Definition new_york_host : World :=
  mkWorld (fun n => 1793638800000 + Z.of_nat n)%Z
          (fun n => ("uuid-" ++ decimal (Z.of_nat n))%string)
          (fun _ => 0.5%float)
          0 0 0.

(** ** Notions used in the statements *)




(** The average of a non-empty list of readings, as the code computes
    it: the values summed from 0 in order, divided by their number. *)
Definition average_value (readings : list EnergyData) : float :=
  (fold_left (fun sum reading => sum + value reading) readings 0
     / of_nat (length readings))%float.

(** The one bucket of [generateForecast] after all readings: every
    reading's cost is added to it, whatever the reading's hour. *)
Definition shared_bucket (tz : Zone) (data : list EnergyData) : Heap.Bucket :=
  fold_left (fun b reading =>
               Heap.mkBucket
                 (Heap.sum b + CostAnalyzer.reading_cost tz reading)%float
                 (Heap.count b + 1)%float)
            data (Heap.mkBucket 0 0).

(** A buffer in ascending order of time: no reading is later than one
    that follows it. *)
Definition time_ordered (l : list EnergyData) : Prop :=
  StronglySorted (fun a b => (timestamp a <= timestamp b)%Z) l.

(** The states a [DemandAnalyzer] can be in on a host of zone [tz], each
    with the clock reading of the last [updateHistoricalData] ([None]
    before the first): the initial state, and the state after one more
    call with any batch and any state of the host.  [analyzeDemand] changes
    the state through [updateHistoricalData] only. *)
Inductive reachable (tz : Zone) : DemandAnalyzer.State -> option Z -> Prop :=
| reachable_initial : reachable tz DemandAnalyzer.initial None
| reachable_update (self : DemandAnalyzer.State) (last : option Z)
                   (data : list EnergyData) (w : World) :
    reachable tz self last ->
    reachable tz (fst (DemandAnalyzer.updateHistoricalData tz data self w))
              (Some (clock w (clock_reads w))).
Arguments reachable_initial {tz}.
Arguments reachable_update {tz}.

(** A cost analysis without what it read from the host: the UUIDs
    ([id] of the breakdown and of each saving opportunity) and the clock
    readings ([created_at], the [date] of each forecast entry). *)
Definition cost_analysis_of_input (r : CostAnalyzer.CostAnalysis)
  : CostAnalyzer.CostAnalysis :=
  let b := CostAnalyzer.breakdown r in
  CostAnalyzer.mkCostAnalysis
    (CostAnalyzer.mkCostBreakdown
       EmptyString (CostAnalyzer.energy_data_id b)
       (CostAnalyzer.peak_cost b) (CostAnalyzer.off_peak_cost b)
       (CostAnalyzer.demand_charges b) (CostAnalyzer.fixed_charges b)
       (CostAnalyzer.taxes b) (CostAnalyzer.other_charges b) 0)
    (CostAnalyzer.metrics r)
    (CostAnalyzer.comparison r)
    (map (fun f => CostAnalyzer.mkCostForecast
                     0 (CostAnalyzer.predictedCost f)
                     (CostAnalyzer.lower f) (CostAnalyzer.upper f))
         (CostAnalyzer.forecast r))
    (CostAnalyzer.anomalies r)
    (CostAnalyzer.timeOfUse r)
    (map (fun o => CostAnalyzer.mkCostSavingOpportunity
                     EmptyString (CostAnalyzer.description o)
                     (CostAnalyzer.potentialSavings o)
                     (CostAnalyzer.implementationCost o)
                     (CostAnalyzer.paybackPeriod o)
                     (CostAnalyzer.category o) (CostAnalyzer.priority o)
                     (CostAnalyzer.confidence o)
                     (CostAnalyzer.implementationSteps o)
                     (CostAnalyzer.roi o) (CostAnalyzer.mlInsights o))
         (CostAnalyzer.savingOpportunities r))
    (CostAnalyzer.analysis_mlInsights r)
    (CostAnalyzer.isLoading r)
    (CostAnalyzer.isError r)
    (CostAnalyzer.error r).

(** A sustainability analysis without what it read from the host: the
    clock readings (the timestamps of the emission forecast, of the
    historical progress and of the score forecast, each [nextService]),
    the values computed from [Math.random()] ([predictedEmissions], the
    scores of the historical progress, [predictedScore], the [efficiency] of
    the daily patterns) and the UUIDs (the [id] of each recommendation). *)
Definition carbon_of_input (c : SustainabilityAnalyzer.CarbonFootprint)
  : SustainabilityAnalyzer.CarbonFootprint :=
  SustainabilityAnalyzer.mkCarbonFootprint
    (SustainabilityAnalyzer.totalEmissions c)
    (SustainabilityAnalyzer.emissionsPerKwh c)
    (SustainabilityAnalyzer.carbonIntensity c)
    (SustainabilityAnalyzer.reductionFromBaseline c)
    (SustainabilityAnalyzer.sources c)
    (map (fun f => SustainabilityAnalyzer.mkEmissionForecast
                     0 0 (SustainabilityAnalyzer.ef_confidence f))
         (SustainabilityAnalyzer.carbon_forecast c)).

Definition efficiency_of_input (e : SustainabilityAnalyzer.EfficiencyMetrics)
  : SustainabilityAnalyzer.EfficiencyMetrics :=
  SustainabilityAnalyzer.mkEfficiencyMetrics
    (SustainabilityAnalyzer.energyPerSquareFoot e)
    (SustainabilityAnalyzer.peakEfficiency e)
    (SustainabilityAnalyzer.offPeakEfficiency e)
    (map (fun p =>
            (fst p,
             SustainabilityAnalyzer.mkEquipmentScore
               (SustainabilityAnalyzer.score (snd p))
               (SustainabilityAnalyzer.usage (snd p))
               (SustainabilityAnalyzer.potential (snd p))
               (SustainabilityAnalyzer.maintenance_status (snd p))
               0
               (SustainabilityAnalyzer.maintenance_efficiency (snd p))))
         (SustainabilityAnalyzer.equipmentScores e))
    (SustainabilityAnalyzer.wasteEnergy e)
    (SustainabilityAnalyzer.optimization_current e)
    (SustainabilityAnalyzer.optimization_potential e)
    (SustainabilityAnalyzer.optimization_steps e).

Definition recommendation_of_input
           (rec : SustainabilityAnalyzer.SustainabilityRecommendation)
  : SustainabilityAnalyzer.SustainabilityRecommendation :=
  SustainabilityAnalyzer.mkRecommendation
    EmptyString
    (SustainabilityAnalyzer.category rec)
    (SustainabilityAnalyzer.title rec)
    (SustainabilityAnalyzer.description rec)
    (SustainabilityAnalyzer.impact_metric rec)
    (SustainabilityAnalyzer.impact_value rec)
    (SustainabilityAnalyzer.impact_unit rec)
    (SustainabilityAnalyzer.priority rec)
    (SustainabilityAnalyzer.estimatedCost rec)
    (SustainabilityAnalyzer.paybackPeriod rec)
    (SustainabilityAnalyzer.steps rec)
    (SustainabilityAnalyzer.timeline rec)
    (SustainabilityAnalyzer.requirements rec)
    (SustainabilityAnalyzer.risks rec)
    (SustainabilityAnalyzer.rec_confidence rec)
    (SustainabilityAnalyzer.factors rec)
    (SustainabilityAnalyzer.sensitivity rec).

Definition score_of_input (s : SustainabilityAnalyzer.SustainabilityScore)
  : SustainabilityAnalyzer.SustainabilityScore :=
  SustainabilityAnalyzer.mkSustainabilityScore
    (SustainabilityAnalyzer.overall s)
    (SustainabilityAnalyzer.carbonScore s)
    (SustainabilityAnalyzer.renewableScore s)
    (SustainabilityAnalyzer.efficiencyScore s)
    (SustainabilityAnalyzer.wasteScore s)
    (SustainabilityAnalyzer.industryComparison s)
    (SustainabilityAnalyzer.trend s)
    (map recommendation_of_input (SustainabilityAnalyzer.recommendations s))
    (map (fun p => SustainabilityAnalyzer.mkProgress
                     0 0 (SustainabilityAnalyzer.majorChanges p))
         (SustainabilityAnalyzer.historicalProgress s))
    (map (fun f => SustainabilityAnalyzer.mkScoreForecast
                     0 0 (SustainabilityAnalyzer.sf_confidence f))
         (SustainabilityAnalyzer.score_forecast s)).

Definition insights_of_input
           (m : SustainabilityAnalyzer.MLSustainabilityInsights)
  : SustainabilityAnalyzer.MLSustainabilityInsights :=
  SustainabilityAnalyzer.mkInsights
    (SustainabilityAnalyzer.seasonal m)
    (map (fun p => (fst (fst p), 0%float, snd p))
         (SustainabilityAnalyzer.daily m))
    (SustainabilityAnalyzer.weather m)
    (SustainabilityAnalyzer.anomalies m)
    (SustainabilityAnalyzer.correlations m)
    (SustainabilityAnalyzer.shortTerm m)
    (SustainabilityAnalyzer.longTerm m).

Definition sustainability_of_input
           (r : SustainabilityAnalyzer.SustainabilityMetrics)
  : SustainabilityAnalyzer.SustainabilityMetrics :=
  SustainabilityAnalyzer.mkSustainabilityMetrics
    (carbon_of_input (SustainabilityAnalyzer.carbonFootprint r))
    (SustainabilityAnalyzer.renewableEnergy r)
    (efficiency_of_input (SustainabilityAnalyzer.efficiency r))
    (score_of_input (SustainabilityAnalyzer.sustainabilityScore r))
    (insights_of_input (SustainabilityAnalyzer.mlInsights r)).

(** The three sums of [calculateBreakdown]: peak cost, off-peak cost and
    peak demand. *)
Definition breakdown_sums (tz : Zone) (data : list EnergyData)
  : float * float * float :=
  fold_left (CostAnalyzer.breakdown_step tz) data (0, 0, 0)%float.

(** A positive normal number not below 1e-300: its decoding has sign [+],
    a mantissa of 53 digits and an exponent of -1049 at least. *)
Definition normal_pos (x : float) (m : positive) (e : Z) : Prop :=
  Prim2SF x = S754_finite false m e
  /\ (2 ^ 52 <= Zpos m < 2 ^ 53)%Z
  /\ (-1049 <= e <= 971)%Z.


(** The one bucket of each array of [generateMLInsights] after all
    readings: every reading's value is added to it. *)
Definition usage_bucket (data : list EnergyData) : Heap.Bucket :=
  fold_left (fun b reading =>
               Heap.mkBucket (Heap.sum b + value reading)%float
                             (Heap.count b + 1)%float)
            data (Heap.mkBucket 0 0).

(** The one object of each array of [generateDemandPatterns] after all
    readings: every reading is added to it, and counted as a peak when
    its value is above the threshold. *)
Definition demand_bucket (peakThreshold : float) (data : list EnergyData)
  : DemandProfile.PeakBucket :=
  fold_left (fun b reading =>
               DemandProfile.mkPeakBucket
                 (DemandProfile.sum b + value reading)%float
                 (DemandProfile.count b + 1)%float
                 (if (peakThreshold <? value reading)%float
                  then (DemandProfile.peaks b + 1)%float
                  else DemandProfile.peaks b))
            data (DemandProfile.mkPeakBucket 0 0 0).

(** The average of the readings of a batch that fall into hour [h] of the
    host's day: their values summed in order from 0, over their number
    (counted by adding 1 for each); with no such reading, 0 over 1. *)
Definition hourly_average (tz : Zone) (data : list EnergyData) (h : Z)
  : float :=
  let readings :=
    filter (fun reading => (getHours tz (timestamp reading) =? h)%Z) data in
  let total :=
    fold_left (fun sum reading => (sum + value reading)%float) readings
              0%float in
  let count := fold_left (fun count _ => (count + 1)%float) readings 0%float in
  (total / (if is_zero count || is_nan count then 1 else count))%float.

(** ** Proof automation *)

(** Powers of two with a closed exponent, as numerals. *)
Ltac pow2 :=
  repeat match goal with
         | |- context [(2 ^ ?k)%Z] =>
             let v := eval vm_compute in (2 ^ k)%Z in
             change (2 ^ k)%Z with v
         | H : context [(2 ^ ?k)%Z] |- _ =>
             let v := eval vm_compute in (2 ^ k)%Z in
             change (2 ^ k)%Z with v in H
         end.

(** Each quotient by a positive number, named, with its remainder. *)
Ltac div_facts :=
  repeat match goal with
         | H : context [(?a / ?c)%Z] |- _ =>
             let q := fresh "q" in
             let r := fresh "r" in
             pose proof (Z.div_mod a c ltac:(lia));
             pose proof (Z.mod_pos_bound a c ltac:(lia));
             set (q := (a / c)%Z) in *; set (r := (a mod c)%Z) in *;
             clearbody q r
         end.

Ltac arith := pow2; div_facts; lia.

(** The comparisons of exponents and mantissas, case by case. *)
Ltac cmp_cases :=
  repeat match goal with
         | H : context [Z.compare ?a ?b] |- _ =>
             destruct (Z.compare_spec a b)
         | |- context [Z.compare ?a ?b] =>
             destruct (Z.compare_spec a b)
         | H : context [Pos.compare_cont Eq ?a ?b] |- _ =>
             change (Pos.compare_cont Eq a b) with (Pos.compare a b) in *;
             destruct (Pos.compare_spec a b)
         | |- context [Pos.compare_cont Eq ?a ?b] =>
             change (Pos.compare_cont Eq a b) with (Pos.compare a b) in *;
             destruct (Pos.compare_spec a b)
         end.

(** Two numbers are different when their IEEE-754 decodings are. *)
Lemma float_neq (x y : float) : Prim2SF x <> Prim2SF y -> x <> y.
Proof. intros H E. apply H. now rewrite E. Qed.

Ltac float_discr := apply float_neq; vm_compute; discriminate.

(** ** The effect monad *)

Lemma mapM_length {A B} (f : A -> Eff B) (l : list A) (w : World) :
  length (fst (mapM f l w)) = length l.
Proof.
  revert w. induction l as [|x l IH]; intros w; [reflexivity|].
  cbn. unfold bind. cbn. now rewrite IH.
Qed.

(** ** Cost analyzer: divisions *)

Section CostDivisions.
Import CostAnalyzer.
Local Open Scope float_scope.

(** The breakdown of [analyzeCosts] is the one [calculateBreakdown] gives
    for the current readings, whatever the previous set. *)
Lemma analyzeCosts_breakdown (tz : Zone) (data prev : list EnergyData)
      (w : World) :
  breakdown (fst (analyzeCosts tz data prev w))
  = fst (calculateBreakdown tz data w).
Proof. reflexivity. Qed.

(** C1 (the code divides unguarded): on the empty reading set the totals
    [totalKwh] and [peakKwh] are both [0] and each of the four ratios of
    [calculateMetrics] is [0 / 0], that is [NaN]; on a reading set with
    usage only outside the peak hours, [peakCostPerKwh] and
    [demandCostPerKw] are [NaN]. *)
Theorem calculateMetrics_zero_denominators :
  (forall (tz : Zone) (prev : list EnergyData) (w : World),
      metrics (fst (analyzeCosts tz [] prev w))
      = mkCostMetrics nan nan nan nan)
  /\ metrics (fst (analyzeCosts UTC [mkReading t_06 50] [] sample_host))
     = mkCostMetrics 0.08 nan 0.08 nan.
Proof. split; [intros tz prev w|]; reflexivity. Qed.

(** C3, as stated, fails: the fixed charge of the empty reading set is
    50, not 0. *)
Lemma calculateBreakdown_empty_not_all_zero :
  ~ (let b := fst (calculateBreakdown UTC [] sample_host) in
     peak_cost b = 0 /\ off_peak_cost b = 0 /\ demand_charges b = 0
     /\ fixed_charges b = 0 /\ taxes b = 0 /\ other_charges b = 0).
Proof.
  cbn. intros (_ & _ & _ & H & _). revert H. float_discr.
Qed.

(** C3, amended: for the empty reading array [calculateBreakdown], and
    with it the breakdown of [analyzeCosts], has [peak_cost],
    [off_peak_cost], [demand_charges] and [other_charges] equal to 0,
    [fixed_charges] equal to the constant 50 and [taxes] equal to 4, the
    tax on the fixed charge. *)
Theorem calculateBreakdown_empty (tz : Zone) (prev : list EnergyData)
        (w : World) :
  let b := fst (calculateBreakdown tz [] w) in
  peak_cost b = 0 /\ off_peak_cost b = 0 /\ demand_charges b = 0
  /\ other_charges b = 0 /\ fixed_charges b = 50 /\ taxes b = 4
  /\ breakdown (fst (analyzeCosts tz [] prev w)) = b.
Proof. repeat split. Qed.

(** C6 (the code divides unguarded): with usage only outside the peak
    hours and no previous set, the current set is compared with itself
    and the change of the peak costs is [(0 - 0) / 0 * 100], that is
    [NaN]; against a previous set without peak usage the change of the
    peak costs is [Infinity]; on the empty set all four changes are
    [NaN]. *)
Theorem calculateComparison_zero_previous :
  peakCosts (percentageChange
               (comparison (fst (analyzeCosts UTC [mkReading t_06 50] []
                                              sample_host)))) = nan
  /\ peakCosts (percentageChange
                  (fst (calculateComparison UTC [mkReading t_10 100]
                                            [mkReading t_06 50]
                                            sample_host))) = infinity
  /\ (forall (tz : Zone) (w : World),
         percentageChange (comparison (fst (analyzeCosts tz [] [] w)))
         = mkPeriodCosts nan nan nan nan).
Proof. repeat split. Qed.
End CostDivisions.

(** ** Cost analyzer: anomalies, time of use, forecast *)

Section CostLists.
Import CostAnalyzer.
Local Open Scope float_scope.

(** C9: [detectAnomalies] returns one anomaly per reading, in the order
    of the readings: the dates are the readings' timestamps and the
    actual costs the readings' costs, so the lengths agree and nothing is
    filtered out; every severity is low, medium or high; the empty input
    gives the empty list. *)
Theorem detectAnomalies_one_per_reading (tz : Zone) (data : list EnergyData) :
  length (detectAnomalies tz data) = length data
  /\ map anomaly_date (detectAnomalies tz data) = map timestamp data
  /\ map actualCost (detectAnomalies tz data) = map (reading_cost tz) data
  /\ (forall a, In a (detectAnomalies tz data) ->
                severity a = low \/ severity a = medium
                \/ severity a = high)
  /\ detectAnomalies tz [] = [].
Proof.
  unfold detectAnomalies.
  repeat split.
  - now rewrite !length_map.
  - rewrite !map_map. reflexivity.
  - rewrite !map_map. reflexivity.
  - intros a _. destruct (severity a); auto.
Qed.

Lemma timeOfUse_cell_cost (tz : Zone) (data : list EnergyData)
      (weekday hour : Z) :
  timeOfUse_cell tz data weekday hour
  = mkTimeOfUseCost hour weekday
      (match readings_at tz data weekday hour with
       | [] => 0
       | relevant => average_value relevant * rate hour
       end).
Proof.
  unfold timeOfUse_cell, average_value, length_or_1.
  destruct (readings_at tz data weekday hour) as [|r rel].
  - cbn. unfold rate. now destruct (isPeakHour hour).
  - reflexivity.
Qed.

Lemma generateTimeOfUseCosts_nth (tz : Zone) (data : list EnergyData)
      (weekday hour : Z) :
  (0 <= weekday < 7)%Z -> (0 <= hour < 24)%Z ->
  nth_error (generateTimeOfUseCosts tz data)
            (Z.to_nat (weekday * 24 + hour))
  = Some (timeOfUse_cell tz data weekday hour).
Proof.
  intros Hw Hh.
  assert (Ew : In weekday (range 7)).
  { unfold range. apply in_map_iff. exists (Z.to_nat weekday).
    split; [lia | apply in_seq; lia]. }
  assert (Eh : In hour (range 24)).
  { unfold range. apply in_map_iff. exists (Z.to_nat hour).
    split; [lia | apply in_seq; lia]. }
  cbn in Ew, Eh.
  repeat (destruct Ew as [<- | Ew]; [ | ]); try contradiction;
    repeat (destruct Eh as [<- | Eh]; [ | ]); try contradiction;
    reflexivity.
Qed.

(** C8: [generateTimeOfUseCosts] returns 168 entries; the entry at
    position [weekday * 24 + hour] is the one of that weekday (0..6) and
    hour (0..23).  Its cost is 0 when no reading falls on that weekday and
    hour of the host's calendar, and otherwise the average value of the
    readings that do, times the rate of the hour: 0.15 for the hours 9 to
    17, 0.08 for the others. *)
Theorem generateTimeOfUseCosts_grid (tz : Zone) (data : list EnergyData) :
  length (generateTimeOfUseCosts tz data) = 168%nat
  /\ (forall weekday hour : Z,
         (0 <= weekday < 7)%Z -> (0 <= hour < 24)%Z ->
         let matching :=
           filter (fun reading =>
                     ((getDay tz (timestamp reading) =? weekday)
                      && (getHours tz (timestamp reading) =? hour))%Z)
                  data in
         nth_error (generateTimeOfUseCosts tz data)
                   (Z.to_nat (weekday * 24 + hour))
         = Some (mkTimeOfUseCost hour weekday
                   (match matching with
                    | [] => 0
                    | _ =>
                        average_value matching
                        * (if ((9 <=? hour) && (hour <=? 17))%Z
                           then 0.15 else 0.08)
                    end))).
Proof.
  split; [reflexivity|].
  intros weekday hour Hw Hh. cbv zeta.
  rewrite generateTimeOfUseCosts_nth by assumption.
  rewrite timeOfUse_cell_cost. unfold readings_at.
  destruct (filter _ data); reflexivity.
Qed.

(** At Friday 10:00 of the sample day the cell holds the one reading of
    [mockData] made then; the cell of Saturday 10:00 is empty. *)
Lemma generateTimeOfUseCosts_grid_friday_10 :
  nth_error (generateTimeOfUseCosts UTC mockData) (Z.to_nat (5 * 24 + 10))
  = Some (mkTimeOfUseCost 10 5 15)
  /\ nth_error (generateTimeOfUseCosts UTC mockData)
               (Z.to_nat (6 * 24 + 10))
     = Some (mkTimeOfUseCost 10 6 0).
Proof.
  split.
  - exact (proj2 (generateTimeOfUseCosts_grid UTC mockData) 5%Z 10%Z
                 ltac:(lia) ltac:(lia)).
  - exact (proj2 (generateTimeOfUseCosts_grid UTC mockData) 6%Z 10%Z
                 ltac:(lia) ltac:(lia)).
Defined.
End CostLists.

Lemma mapM_map_fst {A B C} (f : A -> Eff B) (g : B -> C) (h : A -> C)
      (l : list A) (w : World) :
  (forall x w', In x l -> g (fst (f x w')) = h x) ->
  map g (fst (mapM f l w)) = map h l.
Proof.
  revert w. induction l as [|x l IH]; intros w H; [reflexivity|].
  cbn. unfold bind. cbn. rewrite H by now left.
  rewrite IH; [reflexivity|]. intros y w' Hy. apply H. now right.
Qed.

Section CostForecasts.
Import CostAnalyzer.
Local Open Scope float_scope.

Lemma forecast_store_shared (tz : Zone) (data : list EnergyData)
      (b : Heap.Bucket) (n : nat) :
  forecast_store tz (repeat 0%nat n) data [b]
  = [fold_left (fun b reading =>
                  Heap.mkBucket (Heap.sum b + reading_cost tz reading)
                                (Heap.count b + 1))
               data b].
Proof.
  revert b. induction data as [|r data IH]; intros b; [reflexivity|].
  unfold forecast_store in *. cbn [fold_left].
  unfold Heap.accumulate at 2. rewrite nth_repeat. cbn [Heap.modify].
  now rewrite IH.
Qed.

(** The forecast has 24 entries and all of them predict the same cost:
    the average cost of all readings, of whatever hour. *)
Lemma generateForecast_shared (tz : Zone) (data : list EnergyData)
      (w : World) :
  map predictedCost (fst (generateForecast tz data w))
  = repeat (Heap.average (shared_bucket tz data)) 24.
Proof.
  unfold generateForecast, Heap.Array_fill, Heap.alloc.
  cbn [length app].
  rewrite forecast_store_shared.
  erewrite mapM_map_fst
    with (h := fun _ => Heap.average (shared_bucket tz data)).
  - reflexivity.
  - intros [ref hour] w' Hin. apply in_combine_l in Hin.
    apply repeat_spec in Hin. subst ref. reflexivity.
Qed.

(** C2 (one bucket for all hours): for the single reading of value 100
    at 10:00, a peak hour, each of the 24 entries predicts the cost 15 of
    that reading, with the band 12 to 18, the entries of the hours
    without a reading too. *)
Theorem generateForecast_single_reading :
  map (fun f => (predictedCost f, lower f, upper f))
      (fst (generateForecast UTC [mkReading t_10 100] sample_host))
  = repeat (15, 12, 18) 24.
Proof. vm_compute. reflexivity. Qed.
End CostForecasts.

(** ** Sustainability analyzer: empty and zero usage *)

Section SustainabilityDivisions.
Import SustainabilityAnalyzer.
Local Open Scope float_scope.

(** C7 (the code divides unguarded): for the empty reading array the
    total emissions are 0, the waste energy is 0 and no recommendation is
    returned, and the renewable percentage is [(0 + 0) / 0 * 100], that is
    [NaN], as are [emissionsPerKwh], [carbonIntensity], the carbon and
    renewable scores and the overall score. *)
Theorem analyzeSustainability_empty (tz : Zone) (w : World) :
  let r := fst (analyzeSustainability tz [] w) in
  totalEmissions (carbonFootprint r) = 0
  /\ wasteEnergy (efficiency r) = 0
  /\ recommendations (sustainabilityScore r) = []
  /\ percentage (renewableEnergy r) = nan
  /\ emissionsPerKwh (carbonFootprint r) = nan
  /\ carbonIntensity (carbonFootprint r) = nan
  /\ carbonScore (sustainabilityScore r) = nan
  /\ renewableScore (sustainabilityScore r) = nan
  /\ overall (sustainabilityScore r) = nan.
Proof. repeat split. Qed.

End SustainabilityDivisions.

(** ** Demand analyzer: the retained history *)

Section DemandHistory.
Import DemandAnalyzer.
Local Open Scope Z_scope.

Lemma insert_by_time_In (r x : EnergyData) (l : list EnergyData) :
  In x (insert_by_time r l) <-> x = r \/ In x l.
Proof.
  induction l as [|y l IH]; cbn.
  - intuition.
  - destruct (timestamp r <=? timestamp y); cbn; [intuition|].
    rewrite IH. intuition.
Qed.

Lemma insert_by_time_ordered (r : EnergyData) (l : list EnergyData) :
  time_ordered l -> time_ordered (insert_by_time r l).
Proof.
  unfold time_ordered.
  induction 1 as [|y l Hl IH Hy]; cbn.
  - repeat constructor.
  - destruct (timestamp r <=? timestamp y) eqn:E.
    + apply Z.leb_le in E. constructor; [now constructor|].
      constructor; [exact E|].
      rewrite Forall_forall in Hy |- *. intros x Hx.
      specialize (Hy x Hx). lia.
    + apply Z.leb_gt in E. constructor; [exact IH|].
      rewrite Forall_forall in Hy |- *. intros x Hx.
      apply insert_by_time_In in Hx. destruct Hx as [-> | Hx];
        [lia | now apply Hy].
Qed.

Lemma sort_by_time_ordered (l : list EnergyData) :
  time_ordered (sort_by_time l).
Proof.
  induction l as [|r l IH]; cbn.
  - constructor.
  - now apply insert_by_time_ordered.
Qed.

Lemma filter_time_ordered (f : EnergyData -> bool) (l : list EnergyData) :
  time_ordered l -> time_ordered (filter f l).
Proof.
  unfold time_ordered.
  induction 1 as [|y l Hl IH Hy]; cbn; [constructor|].
  destruct (f y); [|exact IH].
  constructor; [exact IH|].
  rewrite Forall_forall in Hy |- *. intros x Hx.
  apply filter_In in Hx. now apply Hy.
Qed.



End DemandHistory.

(** ** Cost analyzer: what depends on the host *)

Section CostHost.
Import CostAnalyzer.
Local Open Scope float_scope.

(** [calculateBreakdown] draws one UUID and reads the clock once; the
    costs come from the readings. *)
Lemma calculateBreakdown_eq (tz : Zone) (data : list EnergyData) (w : World) :
  fst (calculateBreakdown tz data w)
  = let '(peakCost, offPeakCost, peakDemand) := breakdown_sums tz data in
    mkCostBreakdown (uuids w (uuid_reads w)) EmptyString
      peakCost offPeakCost (peakDemand * DEMAND_CHARGE_RATE) FIXED_CHARGE
      ((peakCost + offPeakCost + peakDemand * DEMAND_CHARGE_RATE
        + FIXED_CHARGE) * TAX_RATE)
      0 (clock w (clock_reads w)).
Proof.
  unfold calculateBreakdown, breakdown_sums.
  destruct (fold_left (breakdown_step tz) data (0, 0, 0)) as [[pc oc] pd].
  reflexivity.
Qed.

Lemma analyzeCosts_metrics (tz : Zone) (data prev : list EnergyData)
      (w : World) :
  metrics (fst (analyzeCosts tz data prev w))
  = calculateMetrics
      (fst (calculateBreakdown tz data w))
      (fold_left (fun sum reading => sum + value reading) data 0)
      (fold_left (fun sum reading => sum + value reading)
                 (filter (fun reading =>
                            isPeakHour (getHours tz (timestamp reading)))
                         data) 0).
Proof. reflexivity. Qed.

Lemma calculateMetrics_host (tz : Zone) (data : list EnergyData)
      (totalKwh peakKwh : float) (w1 w2 : World) :
  calculateMetrics (fst (calculateBreakdown tz data w1)) totalKwh peakKwh
  = calculateMetrics (fst (calculateBreakdown tz data w2)) totalKwh peakKwh.
Proof.
  rewrite !calculateBreakdown_eq.
  destruct (breakdown_sums tz data) as [[pc oc] pd]. reflexivity.
Qed.

Lemma calculateComparison_host (tz : Zone) (current previous : list EnergyData)
      (w1 w2 : World) :
  fst (calculateComparison tz current previous w1)
  = fst (calculateComparison tz current previous w2).
Proof.
  unfold calculateComparison, bind. cbn [fst snd ret].
  rewrite !calculateBreakdown_eq.
  destruct (breakdown_sums tz current) as [[pc oc] pd].
  destruct (breakdown_sums tz previous) as [[pc' oc'] pd'].
  reflexivity.
Qed.

Lemma generateForecast_host (tz : Zone) (data : list EnergyData)
      (w1 w2 : World) :
  map (fun f => mkCostForecast 0 (predictedCost f) (lower f) (upper f))
      (fst (generateForecast tz data w1))
  = map (fun f => mkCostForecast 0 (predictedCost f) (lower f) (upper f))
        (fst (generateForecast tz data w2)).
Proof.
  unfold generateForecast.
  destruct (Heap.Array_fill 24 (Heap.mkBucket 0 0) []) as [arr s0].
  set (s := forecast_store tz arr data s0).
  set (h := fun p : Heap.addr * Z =>
              let base := Heap.average (Heap.load s (fst p)) in
              mkCostForecast 0 base (Math_max 0 (base - base * 0.2))
                             (base + base * 0.2)).
  rewrite !(mapM_map_fst _ _ h); [reflexivity | |];
    intros [ref hour] w' _; reflexivity.
Qed.

(** A pushed element without its UUID does not depend on the host. *)
Lemma push_if_host {A B} (cond : bool) (make : string -> A) (g : A -> B)
      (l : list A) (w : World) :
  (forall uuid, g (make uuid) = g (make EmptyString)) ->
  map g (fst (push_if cond make l w))
  = map g l ++ (if cond then [g (make EmptyString)] else []).
Proof.
  intros H. unfold push_if. destruct cond; cbn.
  - rewrite map_app. cbn. now rewrite H.
  - now rewrite app_nil_r.
Qed.

Lemma generateSavingOpportunities_host (tz : Zone) (data : list EnergyData)
      (tou : list TimeOfUseCost) (u1 u2 w1 w2 : World) :
  let scrub o :=
    mkCostSavingOpportunity
      EmptyString (description o) (potentialSavings o)
      (implementationCost o) (paybackPeriod o) (category o) (priority o)
      (confidence o) (implementationSteps o) (roi o) (mlInsights o) in
  map scrub (fst (generateSavingOpportunities
                    (fst (calculateBreakdown tz data u1)) tou w1))
  = map scrub (fst (generateSavingOpportunities
                      (fst (calculateBreakdown tz data u2)) tou w2)).
Proof.
  intros scrub.
  unfold generateSavingOpportunities, bind. cbn zeta.
  rewrite !(push_if_host _ _ scrub) by reflexivity.
  rewrite !calculateBreakdown_eq.
  destruct (breakdown_sums tz data) as [[pc oc] pd]. reflexivity.
Qed.

(** C4, as stated, fails: two calls in a row with the same readings differ,
    [analyzeCosts] already in the [id] of the breakdown and
    [analyzeSustainability] in the [id] of the first recommendation. *)
Lemma analyses_not_repeatable :
  (let first := analyzeCosts UTC mockData [] sample_host in
   let second := analyzeCosts UTC mockData [] (snd first) in
   fst first <> fst second)
  /\ (let first :=
        SustainabilityAnalyzer.analyzeSustainability UTC mockData sample_host in
      let second :=
        SustainabilityAnalyzer.analyzeSustainability UTC mockData (snd first) in
      fst first <> fst second).
Proof.
  split; intros first second E.
  - apply (f_equal (fun r => id (breakdown r))) in E.
    vm_compute in E. discriminate.
  - apply (f_equal
             (fun r => map SustainabilityAnalyzer.id
                         (SustainabilityAnalyzer.recommendations
                            (SustainabilityAnalyzer.sustainabilityScore r))))
      in E.
    vm_compute in E. discriminate.
Qed.

Lemma analyzeCosts_host (tz : Zone) (data prev : list EnergyData)
      (w1 w2 : World) :
  cost_analysis_of_input (fst (analyzeCosts tz data prev w1))
  = cost_analysis_of_input (fst (analyzeCosts tz data prev w2)).
Proof.
  unfold cost_analysis_of_input.
  rewrite !analyzeCosts_metrics, !analyzeCosts_breakdown.
  rewrite (calculateMetrics_host tz data _ _ w1 w2).
  rewrite !calculateBreakdown_eq.
  unfold analyzeCosts, bind. cbn zeta.
  cbn [fst snd ret comparison forecast anomalies timeOfUse
       savingOpportunities analysis_mlInsights isLoading isError error].
  f_equal;
    first [ apply calculateComparison_host
          | apply generateForecast_host
          | apply generateSavingOpportunities_host
          | now destruct (breakdown_sums tz data) as [[pc oc] pd] ].
Qed.
End CostHost.

(** ** Sustainability analyzer: what depends on the host *)

Section SustainabilityHost.
Import SustainabilityAnalyzer.
Local Open Scope float_scope.

Lemma calculateCarbonFootprint_host (tz : Zone) (data : list EnergyData)
      (w1 w2 : World) :
  carbon_of_input (fst (calculateCarbonFootprint tz data w1))
  = carbon_of_input (fst (calculateCarbonFootprint tz data w2)).
Proof. reflexivity. Qed.

Lemma calculateEfficiencyMetrics_host (data : list EnergyData)
      (w1 w2 : World) :
  efficiency_of_input (fst (calculateEfficiencyMetrics data w1))
  = efficiency_of_input (fst (calculateEfficiencyMetrics data w2)).
Proof. reflexivity. Qed.

Lemma calculateMLInsights_host (data : list EnergyData) (w1 w2 : World) :
  insights_of_input (fst (calculateMLInsights data w1))
  = insights_of_input (fst (calculateMLInsights data w2)).
Proof. reflexivity. Qed.

Lemma generateRecommendations_host (carbonScore renewableScore : float)
      (w : World) :
  map recommendation_of_input
      (fst (generateRecommendations carbonScore renewableScore w))
  = (if carbonScore <? 70
     then [recommendation_of_input (carbonRecommendation EmptyString)]
     else [])
    ++ (if renewableScore <? 50
        then [recommendation_of_input (renewableRecommendation EmptyString)]
        else []).
Proof.
  unfold generateRecommendations, bind. cbn zeta.
  now rewrite !(push_if_host _ _ recommendation_of_input).
Qed.

Lemma calculateSustainabilityScore_host (tz : Zone)
      (c1 c2 : CarbonFootprint) (r : RenewableEnergy)
      (e1 e2 : EfficiencyMetrics) (w1 w2 : World) :
  emissionsPerKwh c1 = emissionsPerKwh c2 ->
  peakEfficiency e1 = peakEfficiency e2 ->
  offPeakEfficiency e1 = offPeakEfficiency e2 ->
  wasteEnergy e1 = wasteEnergy e2 ->
  score_of_input (fst (calculateSustainabilityScore tz c1 r e1 w1))
  = score_of_input (fst (calculateSustainabilityScore tz c2 r e2 w2)).
Proof.
  intros Hc Hp Ho Hw.
  unfold score_of_input, calculateSustainabilityScore, bind. cbn zeta.
  cbn [fst snd ret overall carbonScore renewableScore efficiencyScore
       wasteScore industryComparison trend recommendations
       historicalProgress score_forecast].
  rewrite !generateRecommendations_host, Hc, Hp, Ho, Hw.
  reflexivity.
Qed.


(** C4, amended: two calls of [analyzeCosts], or of
    [analyzeSustainability], with the same readings agree, on whatever
    hosts they run, in every field but those read from the host: the UUIDs,
    the clock readings and the values computed from [Math.random()]. *)
Theorem analyses_agree_but_for_host (tz : Zone) (data prev : list EnergyData)
        (w1 w2 : World) :
  cost_analysis_of_input (fst (CostAnalyzer.analyzeCosts tz data prev w1))
  = cost_analysis_of_input (fst (CostAnalyzer.analyzeCosts tz data prev w2))
  /\ sustainability_of_input (fst (analyzeSustainability tz data w1))
     = sustainability_of_input (fst (analyzeSustainability tz data w2)).
Proof.
  split; [apply analyzeCosts_host|].
  unfold sustainability_of_input, analyzeSustainability, bind. cbn zeta.
  cbn [fst snd ret carbonFootprint renewableEnergy efficiency
       sustainabilityScore mlInsights].
  f_equal;
    first [ apply calculateCarbonFootprint_host
          | apply calculateEfficiencyMetrics_host
          | apply calculateMLInsights_host
          | now apply calculateSustainabilityScore_host ].
Qed.
End SustainabilityHost.

(** ** Rounding of positive normal numbers

    What the IEEE-754 specification of [*], [+] and [/] gives for positive
    normal operands whose result is normal too: the mantissa of the result
    is the exact mantissa cut to 53 digits, or one more. *)

Section Rounding.
Local Open Scope Z_scope.

Lemma digits2_size (p : positive) : digits2_pos p = Pos.size p.
Proof. induction p; cbn; congruence. Qed.

Lemma digits2_bounds (p : positive) (d : Z) :
  Zpos (digits2_pos p) = d <-> 2 ^ (d - 1) <= Zpos p < 2 ^ d.
Proof.
  rewrite digits2_size.
  pose proof (Pos.size_gt p) as Hgt. pose proof (Pos.size_le p) as Hle.
  apply Pos2Z.pos_lt_pos in Hgt. apply Pos2Z.pos_le_pos in Hle.
  rewrite Pos2Z.inj_pow in Hgt, Hle.
  change (Z.pos p~0) with (2 * Z.pos p) in Hle.
  set (s := Z.pos (Pos.size p)) in *.
  assert (Hs : 0 < s) by (subst s; lia).
  replace s with (s - 1 + 1) in Hle at 1 by lia.
  rewrite Z.pow_add_r in Hle by lia. change (2 ^ 1) with 2 in Hle.
  split.
  - intros <-. lia.
  - intros [H1 H2].
    destruct (Z.lt_trichotomy s d) as [H | [H | H]]; [exfalso | exact H | exfalso].
    + assert (2 ^ s <= 2 ^ (d - 1)) by (apply Z.pow_le_mono_r; lia). lia.
    + assert (2 ^ d <= 2 ^ (s - 1)) by (apply Z.pow_le_mono_r; lia). lia.
Qed.

Lemma shr_1_m (mrs : shr_record) :
  0 <= shr_m mrs -> shr_m (shr_1 mrs) = shr_m mrs / 2.
Proof.
  destruct mrs as [m r s]. cbn [shr_m]. intros Hm.
  destruct m as [|p|p]; [reflexivity | | lia].
  destruct p as [p|p|]; cbn [shr_1 shr_m].
  - rewrite Pos2Z.inj_xI. apply Z.div_unique with (r := 1); lia.
  - rewrite Pos2Z.inj_xO. apply Z.div_unique with (r := 0); lia.
  - reflexivity.
Qed.

Lemma iter_pos_nat {A} (f : A -> A) (p : positive) (x : A) :
  iter_pos f p x = Nat.iter (Pos.to_nat p) f x.
Proof.
  revert x. induction p as [p IH|p IH|]; intros x; cbn [iter_pos].
  - rewrite !IH, Pos2Nat.inj_xI. cbn [Nat.iter].
    rewrite <- Nat.iter_succ_r, <- Nat.iter_add. f_equal. lia.
  - rewrite !IH, Pos2Nat.inj_xO. rewrite <- Nat.iter_add. f_equal. lia.
  - reflexivity.
Qed.

Lemma shr_iter_m (n : nat) (mrs : shr_record) :
  0 <= shr_m mrs ->
  shr_m (Nat.iter n shr_1 mrs) = shr_m mrs / 2 ^ Z.of_nat n.
Proof.
  intros Hm. induction n as [|n IH].
  - cbn. now rewrite Z.div_1_r.
  - rewrite Nat.iter_succ, shr_1_m.
    + rewrite IH, Nat2Z.inj_succ, Z.pow_succ_r by lia.
      rewrite Z.div_div by lia. f_equal. lia.
    + rewrite IH. apply Z.div_pos; lia.
Qed.

Lemma shr_m_shift (mrs : shr_record) (e n : Z) :
  0 <= shr_m mrs -> 0 <= n ->
  shr_m (fst (shr mrs e n)) = shr_m mrs / 2 ^ n
  /\ snd (shr mrs e n) = e + n.
Proof.
  intros Hm Hn. destruct n as [|p|p]; [| |lia]; cbn [shr fst snd].
  - rewrite Z.div_1_r. split; [reflexivity | lia].
  - rewrite iter_pos_nat, shr_iter_m by assumption.
    now rewrite positive_nat_Z.
Qed.

Lemma round_nearest_even_bounds (m : Z) (l : location) :
  m <= round_nearest_even m l <= m + 1.
Proof.
  destruct l as [|[]]; cbn; try lia. destruct (Z.even m); lia.
Qed.

Lemma shr_record_of_loc_m (m : Z) (l : location) :
  shr_m (shr_record_of_loc m l) = m.
Proof. now destruct l as [|[]]. Qed.

Lemma Zdigits2_bounds (M d : Z) :
  0 < M -> (Zdigits2 M = d <-> 2 ^ (d - 1) <= M < 2 ^ d).
Proof.
  intros HM. destruct M as [|p|p]; try lia. cbn [Zdigits2].
  apply digits2_bounds.
Qed.

Lemma fexp_normal (x : Z) : -1074 <= x - 53 -> fexp 53 1024 x = x - 53.
Proof. unfold fexp, emin. lia. Qed.

Lemma binary_round_aux_bounds (M E d : Z) (l : location) :
  0 < M -> Zdigits2 M = d -> 53 <= d ->
  -1074 <= E + d - 53 -> E + d <= 1023 ->
  exists m' e',
    binary_round_aux 53 1024 false M E l = S754_finite false m' e'
    /\ Zpos (digits2_pos m') = 53
    /\ ((e' = E + (d - 53)
         /\ M / 2 ^ (d - 53) <= Zpos m' <= M / 2 ^ (d - 53) + 1)
        \/ (e' = E + (d - 53) + 1 /\ Zpos m' = 2 ^ 52
            /\ M / 2 ^ (d - 53) = 2 ^ 53 - 1)).
Proof.
  intros HM Hd Hd53 Hlo Hhi.
  apply Zdigits2_bounds in Hd; [|exact HM].
  set (n := d - 53) in *.
  assert (Hp0 : 2 ^ 52 <= M / 2 ^ n < 2 ^ 53).
  { assert (Hpow : 2 ^ (d - 1) = 2 ^ 52 * 2 ^ n)
      by (rewrite <- Z.pow_add_r by lia; f_equal; lia).
    assert (Hpow' : 2 ^ d = 2 ^ 53 * 2 ^ n)
      by (rewrite <- Z.pow_add_r by lia; f_equal; lia).
    assert (0 < 2 ^ n) by (apply Z.pow_pos_nonneg; lia).
    split.
    - apply Z.div_le_lower_bound; lia.
    - apply Z.div_lt_upper_bound; lia. }
  unfold binary_round_aux, shr_fexp.
  apply Zdigits2_bounds in Hd; [|exact HM]. rewrite Hd.
  rewrite fexp_normal by lia.
  replace (d + E - 53 - E) with n by lia.
  destruct (shr_m_shift (shr_record_of_loc M l) E n) as [Hm1 He1];
    [rewrite shr_record_of_loc_m; lia | lia |].
  rewrite shr_record_of_loc_m in Hm1.
  destruct (shr (shr_record_of_loc M l) E n) as [mrs1 e1].
  cbn [fst snd] in Hm1, He1. subst e1.
  pose proof (round_nearest_even_bounds (shr_m mrs1) (loc_of_shr_record mrs1))
    as Hr.
  set (m1 := round_nearest_even (shr_m mrs1) (loc_of_shr_record mrs1)) in *.
  rewrite Hm1 in Hr.
  destruct (Z.eq_dec m1 (2 ^ 53)) as [Htop | Hnot].
  - assert (Hd1 : Zdigits2 m1 = 54)
      by (apply Zdigits2_bounds; rewrite Htop; cbn; lia).
    rewrite Hd1. rewrite fexp_normal by lia.
    replace (54 + (E + n) - 53 - (E + n)) with 1 by lia.
    rewrite Htop. cbn [shr_record_of_loc shr iter_pos].
    exists (4503599627370496%positive), (E + n + 1).
    cbn [shr_m shr_1].
    replace (E + n + 1 <=? 1024 - 53) with true by (symmetry; apply Z.leb_le; lia).
    split; [reflexivity|]. split; [reflexivity|]. right.
    repeat split; lia.
  - assert (H1 : 2 ^ 52 <= m1 < 2 ^ 53) by lia.
    assert (Hd1 : Zdigits2 m1 = 53) by (apply Zdigits2_bounds; lia).
    rewrite Hd1. rewrite fexp_normal by lia.
    replace (53 + (E + n) - 53 - (E + n)) with 0 by lia.
    cbn [shr_record_of_loc shr shr_m].
    destruct m1 as [|p1|p1]; try lia.
    exists p1, (E + n).
    replace (E + n <=? 1024 - 53) with true by (symmetry; apply Z.leb_le; lia).
    split; [reflexivity|]. split.
    + apply digits2_bounds. lia.
    + left. split; [reflexivity | lia].
Qed.

Lemma normal_pos_of_range (t : float) :
  (1e-300 <=? t)%float = true -> (t <? infinity)%float = true ->
  exists m e, normal_pos t m e.
Proof.
  rewrite leb_spec, ltb_spec. intros Hlo Hhi.
  pose proof (Prim2SF_valid t) as Hv.
  destruct (Prim2SF t) as [s|s| |s m e] eqn:Et.
  - destruct s; discriminate.
  - destruct s; discriminate.
  - discriminate.
  - destruct s; [discriminate|].
    exists m, e. split; [exact Et|].
    change (Prim2SF 1e-300)
      with (S754_finite false 6032057205060441 (-1049)) in Hlo.
    unfold SFleb, SFcompare in Hlo. cbn [valid_binary] in Hv.
    unfold bounded, canonical_mantissa in Hv.
    apply andb_prop in Hv. destruct Hv as [Hc He].
    apply Z.eqb_eq in Hc. apply Z.leb_le in He.
    assert (Hel : -1049 <= e).
    { destruct (-1049 ?= e)%Z eqn:C.
      - assert (-1049 = e) by (apply Z.compare_eq; exact C). lia.
      - assert (-1049 < e) by (apply Z.compare_lt_iff; exact C). lia.
      - discriminate. }
    unfold fexp, emin, prec, emax in Hc. unfold prec, emax in He.
    assert (Hd : Z.pos (digits2_pos m) = 53) by lia.
    apply digits2_bounds in Hd. cbn in He. split; [exact Hd | lia].
Qed.

(** The product of two positive normal numbers, away from overflow and
    underflow. *)
Lemma mul_normal (x y : float) (mx my : positive) (ex ey d : Z) :
  normal_pos x mx ex ->
  Prim2SF y = S754_finite false my ey ->
  2 ^ 52 <= Zpos my < 2 ^ 53 ->
  2 ^ (d - 1) <= Zpos mx * Zpos my < 2 ^ d ->
  -1074 <= ex + ey + d - 53 -> ex + ey + d <= 1023 ->
  exists m' e',
    Prim2SF (x * y) = S754_finite false m' e'
    /\ 2 ^ 52 <= Zpos m' < 2 ^ 53
    /\ ((e' = ex + ey + (d - 53)
         /\ Zpos mx * Zpos my / 2 ^ (d - 53) <= Zpos m'
            <= Zpos mx * Zpos my / 2 ^ (d - 53) + 1)
        \/ (e' = ex + ey + (d - 53) + 1 /\ Zpos m' = 2 ^ 52
            /\ Zpos mx * Zpos my / 2 ^ (d - 53) = 2 ^ 53 - 1)).
Proof.
  intros (Hx & Hmx & Hex) Hy Hmy Hd Hlo Hhi.
  rewrite mul_spec, Hx, Hy. unfold SF64mul, SFmul. cbn [xorb].
  assert (Hd53 : 53 <= d).
  { destruct (Z_lt_le_dec d 53) as [H|H]; [exfalso | exact H].
    assert (2 ^ d <= 2 ^ 52) by (apply Z.pow_le_mono_r; lia).
    assert (2 ^ 52 * 2 ^ 52 <= Zpos mx * Zpos my) by (apply Z.mul_le_mono_nonneg; lia).
    cbn in *. lia. }
  destruct (binary_round_aux_bounds (Zpos (mx * my)) (ex + ey) d loc_Exact)
    as (m' & e' & Hr & Hdig & Hcases); try lia.
  - apply Zdigits2_bounds; [lia|]. rewrite Pos2Z.inj_mul. exact Hd.
  - exists m', e'. split; [exact Hr|]. split.
    + apply digits2_bounds in Hdig. exact Hdig.
    + rewrite Pos2Z.inj_mul in Hcases. exact Hcases.
Qed.

(** The quotient of two positive normal numbers, away from overflow and
    underflow. *)
Lemma div_normal (x y : float) (mx my : positive) (ex ey d : Z) :
  Prim2SF x = S754_finite false mx ex ->
  2 ^ 52 <= Zpos mx < 2 ^ 53 ->
  Prim2SF y = S754_finite false my ey ->
  2 ^ 52 <= Zpos my < 2 ^ 53 ->
  2 ^ (d - 1) <= Zpos mx * 2 ^ 53 / Zpos my < 2 ^ d ->
  53 <= d ->
  -1074 <= ex - ey - 53 -> ex - ey + d - 53 <= 1023 ->
  exists m' e',
    Prim2SF (x / y) = S754_finite false m' e'
    /\ 2 ^ 52 <= Zpos m' < 2 ^ 53
    /\ ((e' = ex - ey - 53 + (d - 53)
         /\ Zpos mx * 2 ^ 53 / Zpos my / 2 ^ (d - 53) <= Zpos m'
            <= Zpos mx * 2 ^ 53 / Zpos my / 2 ^ (d - 53) + 1)
        \/ (e' = ex - ey - 53 + (d - 53) + 1 /\ Zpos m' = 2 ^ 52
            /\ Zpos mx * 2 ^ 53 / Zpos my / 2 ^ (d - 53) = 2 ^ 53 - 1)).
Proof.
  intros Hx Hmx Hy Hmy Hd Hd53 Hlo Hhi.
  rewrite div_spec, Hx, Hy. unfold SF64div, SFdiv, SFdiv_core_binary.
  cbn [xorb Zdigits2].
  assert (Hdx : Zpos (digits2_pos mx) = 53) by (apply digits2_bounds; lia).
  assert (Hdy : Zpos (digits2_pos my) = 53) by (apply digits2_bounds; lia).
  rewrite Hdx, Hdy.
  replace (53 + ex - (53 + ey)) with (ex - ey) by lia.
  rewrite fexp_normal by lia.
  replace (Z.min (ex - ey - 53) (ex - ey)) with (ex - ey - 53) by lia.
  replace (ex - ey - (ex - ey - 53)) with 53 by lia.
  rewrite Z.shiftl_mul_pow2 by lia.
  pose proof (Z.div_eucl_eq (Zpos mx * 2 ^ 53) (Zpos my)) as Heucl.
  assert (Hq : fst (Z.div_eucl (Z.pos mx * 2 ^ 53) (Z.pos my))
               = Zpos mx * 2 ^ 53 / Zpos my) by reflexivity.
  destruct (Z.div_eucl (Z.pos mx * 2 ^ 53) (Z.pos my)) as [q r].
  cbn [fst] in Hq. subst q.
  set (q := Zpos mx * 2 ^ 53 / Zpos my) in *.
  assert (Hqpos : 0 < q).
  { assert (0 < 2 ^ (d - 1)) by (apply Z.pow_pos_nonneg; lia). lia. }
  destruct (binary_round_aux_bounds q (ex - ey - 53) d
              (new_location (Zpos my) r))
    as (m' & e' & Hr & Hdig & Hcases); try lia.
  - apply Zdigits2_bounds; [lia | exact Hd].
  - exists m', e'. split; [exact Hr|]. split.
    + apply digits2_bounds in Hdig. exact Hdig.
    + exact Hcases.
Qed.

Lemma div_bounds (a m lo hi : Z) :
  0 < m -> lo * m <= a -> a < (hi + 1) * m -> lo <= a / m <= hi.
Proof.
  intros Hm Hlo Hhi. split.
  - apply Z.div_le_lower_bound; lia.
  - enough (a / m < hi + 1) by lia. apply Z.div_lt_upper_bound; lia.
Qed.

(** [t * 0.4 / t] is within a few units in the last place of [0.4]. *)
Lemma ratio_04 (t : float) (m : positive) (e : Z) :
  normal_pos t m e ->
  exists mq,
    Prim2SF (t * 0.4 / t) = S754_finite false mq (-54)
    /\ 7205759403792794 - 4 <= Zpos mq <= 7205759403792794 + 4.
Proof.
  intros Ht. pose proof Ht as (Hsf & Hm & He).
  assert (Hc : Prim2SF 0.4 = S754_finite false 7205759403792794 (-54))
    by reflexivity.
  destruct (Z_lt_le_dec (Zpos m * 7205759403792794) (2 ^ 105)) as [Hs | Hs].
  - (* the product has 105 digits *)
    destruct (mul_normal t 0.4 m 7205759403792794 e (-54) 105 Ht Hc)
      as (mp & ep & Hp & Hmp & Hcases); try (pow2; lia).
    destruct Hcases as [(Hep & Hlo & Hhi) | (Hep & Hmp' & Hp0)].
    + assert (Hq : 2 * 7205759403792794 - 2
                   <= Zpos mp * 2 ^ 53 / Zpos m
                   <= 2 * 7205759403792794 + 2)
        by (apply div_bounds; arith).
      destruct (div_normal (t * 0.4) t mp m ep e 54 Hp Hmp Hsf Hm)
        as (mq & eq & Hmq & Hmqb & Hqcases); try (pow2; lia).
      exists mq.
      destruct Hqcases as [(-> & Hl & Hh) | (_ & _ & Habs)].
      * split; [rewrite Hmq; f_equal; lia | arith].
      * exfalso. arith.
    + assert (Hq : 7205759403792794
                   <= Zpos mp * 2 ^ 53 / Zpos m
                   <= 7205759403792794 + 1)
        by (apply div_bounds; arith).
      destruct (div_normal (t * 0.4) t mp m ep e 53 Hp Hmp Hsf Hm)
        as (mq & eq & Hmq & Hmqb & Hqcases); try (pow2; lia).
      exists mq. pow2. rewrite Z.div_1_r in Hqcases.
      destruct Hqcases as [(-> & Hl & Hh) | (_ & _ & Habs)].
      * split; [rewrite Hmq; f_equal; lia | arith].
      * exfalso. arith.
  - (* the product has 106 digits *)
    destruct (mul_normal t 0.4 m 7205759403792794 e (-54) 106 Ht Hc)
      as (mp & ep & Hp & Hmp & Hcases); try (pow2; lia).
    destruct Hcases as [(Hep & Hlo & Hhi) | (Hep & Hmp' & Hp0)];
      [|exfalso; arith].
    assert (Hq : 7205759403792794 - 2
                 <= Zpos mp * 2 ^ 53 / Zpos m
                 <= 7205759403792794 + 2)
      by (apply div_bounds; arith).
    destruct (div_normal (t * 0.4) t mp m ep e 53 Hp Hmp Hsf Hm)
      as (mq & eq & Hmq & Hmqb & Hqcases); try (pow2; lia).
    exists mq. pow2. rewrite Z.div_1_r in Hqcases.
    destruct Hqcases as [(-> & Hl & Hh) | (_ & _ & Habs)].
    + split; [rewrite Hmq; f_equal; lia | arith].
    + exfalso. arith.
Qed.

Lemma shl_align_fst (mx : positive) (ex ez k : Z) :
  ex - ez = k -> 0 <= k ->
  Zpos (fst (shl_align mx ex ez)) = Zpos mx * 2 ^ k.
Proof.
  intros Hk Hk0. unfold shl_align.
  replace (ez - ex) with (- k) by lia.
  destruct k as [|p|p]; [| |lia]; cbn [Z.opp fst].
  - lia.
  - change (Pos.iter xO mx p) with (shift_pos p mx).
    rewrite shift_pos_correct. change (Z.pow_pos 2 p) with (2 ^ Zpos p). lia.
Qed.

(** The sum of two positive normal numbers, away from overflow. *)
Lemma add_normal (x y : float) (mx my : positive) (ex ey ez kx ky d : Z) :
  Prim2SF x = S754_finite false mx ex ->
  Prim2SF y = S754_finite false my ey ->
  ez = Z.min ex ey -> ex - ez = kx -> ey - ez = ky ->
  2 ^ (d - 1) <= Zpos mx * 2 ^ kx + Zpos my * 2 ^ ky < 2 ^ d ->
  53 <= d -> -1074 <= ez + d - 53 -> ez + d <= 1023 ->
  exists m' e',
    Prim2SF (x + y) = S754_finite false m' e'
    /\ 2 ^ 52 <= Zpos m' < 2 ^ 53
    /\ ((e' = ez + (d - 53)
         /\ (Zpos mx * 2 ^ kx + Zpos my * 2 ^ ky) / 2 ^ (d - 53) <= Zpos m'
            <= (Zpos mx * 2 ^ kx + Zpos my * 2 ^ ky) / 2 ^ (d - 53) + 1)
        \/ (e' = ez + (d - 53) + 1 /\ Zpos m' = 2 ^ 52
            /\ (Zpos mx * 2 ^ kx + Zpos my * 2 ^ ky) / 2 ^ (d - 53)
               = 2 ^ 53 - 1)).
Proof.
  intros Hx Hy Hez Hkx Hky Hd Hd53 Hlo Hhi.
  rewrite add_spec, Hx, Hy. unfold SF64add, SFadd. cbn [cond_Zopp].
  change (Z.min ex ey) with (Z.min ex ey). rewrite <- Hez.
  pose proof (shl_align_fst mx ex ez kx Hkx ltac:(lia)) as Hsx.
  pose proof (shl_align_fst my ey ez ky Hky ltac:(lia)) as Hsy.
  set (S := Zpos mx * 2 ^ kx + Zpos my * 2 ^ ky) in *.
  assert (HS : Zpos (fst (shl_align mx ex ez)) + Zpos (fst (shl_align my ey ez))
               = S) by (subst S; lia).
  rewrite HS.
  assert (HSpos : 0 < S).
  { assert (0 < 2 ^ (d - 1)) by (apply Z.pow_pos_nonneg; lia). lia. }
  destruct S as [|P|P] eqn:ES; try lia.
  cbn [binary_normalize]. unfold binary_round.
  assert (HdP : Zpos (digits2_pos P) = d) by (apply digits2_bounds; exact Hd).
  rewrite HdP, fexp_normal by lia.
  unfold shl_align.
  destruct (d + ez - 53 - ez) as [|p|p] eqn:Ediff; try lia.
  - destruct (binary_round_aux_bounds (Zpos P) ez d loc_Exact
                ltac:(lia) HdP Hd53 Hlo Hhi)
      as (m' & e' & Hr & Hdig & Hcases).
    exists m', e'. split; [exact Hr|]. split; [|exact Hcases].
    apply digits2_bounds in Hdig. exact Hdig.
  - destruct (binary_round_aux_bounds (Zpos P) ez d loc_Exact
                ltac:(lia) HdP Hd53 Hlo Hhi)
      as (m' & e' & Hr & Hdig & Hcases).
    exists m', e'. split; [exact Hr|]. split; [|exact Hcases].
    apply digits2_bounds in Hdig. exact Hdig.
Qed.

(** The last step of a ratio: a quotient by [t] whose exact value is
    bracketed. *)
Lemma div_finish (a t : float) (ma m : positive) (ea e dq qlo qhi : Z) :
  Prim2SF a = S754_finite false ma ea ->
  2 ^ 52 <= Zpos ma < 2 ^ 53 ->
  normal_pos t m e ->
  qlo * Zpos m <= Zpos ma * 2 ^ 53 ->
  Zpos ma * 2 ^ 53 < (qhi + 1) * Zpos m ->
  2 ^ (dq - 1) <= qlo -> qhi < 2 ^ dq - 2 ^ (dq - 53) ->
  53 <= dq <= 54 ->
  ea - e - 53 + (dq - 53) = -54 ->
  exists mq,
    Prim2SF (a / t) = S754_finite false mq (-54)
    /\ qlo / 2 ^ (dq - 53) <= Zpos mq <= qhi / 2 ^ (dq - 53) + 1.
Proof.
  intros Ha Hma (Ht & Hm & He) Hlo Hhi Hqlo Hqhi Hdq Hexp.
  assert (Hq : qlo <= Zpos ma * 2 ^ 53 / Zpos m <= qhi)
    by (apply div_bounds; lia).
  assert (0 < 2 ^ (dq - 53)) by (apply Z.pow_pos_nonneg; lia).
  destruct (div_normal a t ma m ea e dq Ha Hma Ht Hm)
    as (mq & eq & Hmq & Hmqb & Hcases); try lia.
  set (q := Zpos ma * 2 ^ 53 / Zpos m) in *.
  assert (Hmono1 : qlo / 2 ^ (dq - 53) <= q / 2 ^ (dq - 53))
    by (apply Z.div_le_mono; lia).
  assert (Hmono2 : q / 2 ^ (dq - 53) <= qhi / 2 ^ (dq - 53))
    by (apply Z.div_le_mono; lia).
  assert (Htop : qhi / 2 ^ (dq - 53) < 2 ^ 53 - 1).
  { apply Z.div_lt_upper_bound; [lia|].
    assert (E : 2 ^ dq = 2 ^ (dq - 53) * 2 ^ 53)
      by (rewrite <- Z.pow_add_r by lia; f_equal; lia).
    lia. }
  exists mq.
  destruct Hcases as [(-> & Hl & Hh) | (_ & _ & Habs)].
  - split; [rewrite Hmq; f_equal; lia | lia].
  - exfalso. lia.
Qed.

(** [(t * 0.15 + t * 0.25) / t] is within a few units in the last place of
    [0.4]. *)
Lemma ratio_renewable (t : float) (m : positive) (e : Z) :
  normal_pos t m e ->
  exists mq,
    Prim2SF ((t * 0.15 + t * 0.25) / t) = S754_finite false mq (-54)
    /\ 7205759403792794 - 16 <= Zpos mq <= 7205759403792794 + 16.
Proof.
  intros Ht. pose proof Ht as (Hsf & Hm & He).
  assert (Hc15 : Prim2SF 0.15 = S754_finite false 5404319552844595 (-55))
    by reflexivity.
  assert (Hc25 : Prim2SF 0.25 = S754_finite false 4503599627370496 (-54))
    by reflexivity.
  destruct (mul_normal t 0.25 m 4503599627370496 e (-54) 105 Ht Hc25)
    as (mw & ew & Hw & Hmw & Hwcases); try (pow2; lia).
  assert (Hfin53 :
            forall (a : float) (ma : positive) (ea : Z),
              Prim2SF a = S754_finite false ma ea ->
              2 ^ 52 <= Zpos ma < 2 ^ 53 ->
              ea = e - 1 ->
              7205759403792781 * Zpos m <= Zpos ma * 2 ^ 53 ->
              Zpos ma * 2 ^ 53 < (7205759403792806 + 1) * Zpos m ->
              exists mq,
                Prim2SF (a / t) = S754_finite false mq (-54)
                /\ 7205759403792794 - 16 <= Zpos mq
                   <= 7205759403792794 + 16).
  { intros a ma ea Ha Hma Hexp Hlo Hhi.
    destruct (div_finish a t ma m ea e 53 _ _ Ha Hma Ht Hlo Hhi)
      as (mq & Hq & Hb); try (pow2; lia).
    exists mq. split; [exact Hq|]. arith. }
  assert (Hfin54 :
            forall (a : float) (ma : positive) (ea : Z),
              Prim2SF a = S754_finite false ma ea ->
              2 ^ 52 <= Zpos ma < 2 ^ 53 ->
              ea = e - 2 ->
              14411518807585563 * Zpos m <= Zpos ma * 2 ^ 53 ->
              Zpos ma * 2 ^ 53 < (14411518807585611 + 1) * Zpos m ->
              exists mq,
                Prim2SF (a / t) = S754_finite false mq (-54)
                /\ 7205759403792794 - 16 <= Zpos mq
                   <= 7205759403792794 + 16).
  { intros a ma ea Ha Hma Hexp Hlo Hhi.
    destruct (div_finish a t ma m ea e 54 _ _ Ha Hma Ht Hlo Hhi)
      as (mq & Hq & Hb); try (pow2; lia).
    exists mq. split; [exact Hq|]. arith. }
  destruct (Z_lt_le_dec (Zpos m * 5404319552844595) (2 ^ 105)) as [Hs | Hs].
  - (* [t * 0.15] has a product of 105 digits *)
    destruct (mul_normal t 0.15 m 5404319552844595 e (-55) 105 Ht Hc15)
      as (ms & es & Hs' & Hms & Hscases); try (pow2; lia).
    destruct Hscases as [(Hes & Hsl & Hsh) | (Hes & Hms' & Hsp)];
      destruct Hwcases as [(Hew & Hwl & Hwh) | (Hew & Hmw' & Hwp)];
      try (exfalso; arith).
    (* both regular: the sum is [ms + 2 * mw] at [e - 3] *)
    destruct (Z_lt_le_dec (Zpos ms * 2 ^ 0 + Zpos mw * 2 ^ 1) (2 ^ 54))
      as [HS | HS].
    + destruct (add_normal (t * 0.15) (t * 0.25) ms mw es ew (e - 3) 0 1 54
                  Hs' Hw)
        as (ma & ea & Ha & Hma & Hacases); try (pow2; lia).
      destruct Hacases as [(Hea & Hal & Hah) | (Hea & Hma' & Hap)].
      * apply (Hfin54 _ ma ea Ha Hma); arith.
      * apply (Hfin53 _ ma ea Ha Hma); arith.
    + destruct (add_normal (t * 0.15) (t * 0.25) ms mw es ew (e - 3) 0 1 55
                  Hs' Hw)
        as (ma & ea & Ha & Hma & Hacases); try (pow2; lia).
      destruct Hacases as [(Hea & Hal & Hah) | (Hea & Hma' & Hap)];
        [|exfalso; arith].
      apply (Hfin53 _ ma ea Ha Hma); arith.
  - (* [t * 0.15] has a product of 106 digits *)
    destruct (mul_normal t 0.15 m 5404319552844595 e (-55) 106 Ht Hc15)
      as (ms & es & Hs' & Hms & Hscases); try (pow2; lia).
    destruct Hscases as [(Hes & Hsl & Hsh) | (Hes & Hms' & Hsp)];
      [|exfalso; arith].
    destruct Hwcases as [(Hew & Hwl & Hwh) | (Hew & Hmw' & Hwp)].
    + destruct (add_normal (t * 0.15) (t * 0.25) ms mw es ew (e - 2) 0 0 54
                  Hs' Hw)
        as (ma & ea & Ha & Hma & Hacases); try (pow2; lia).
      destruct Hacases as [(Hea & Hal & Hah) | (Hea & Hma' & Hap)];
        [|exfalso; arith].
      apply (Hfin53 _ ma ea Ha Hma); arith.
    + destruct (add_normal (t * 0.15) (t * 0.25) ms mw es ew (e - 2) 0 1 54
                  Hs' Hw)
        as (ma & ea & Ha & Hma & Hacases); try (pow2; lia).
      destruct Hacases as [(Hea & Hal & Hah) | (Hea & Hma' & Hap)];
        [|exfalso; arith].
      apply (Hfin53 _ ma ea Ha Hma); arith.
Qed.

(** Every mantissa between two bounds passes a test that all of them pass. *)
Lemma mantissa_range_check (f : positive -> bool) (lo : Z) (n : nat) :
  forallb (fun i => f (Z.to_pos (lo + Z.of_nat i))) (seq 0 n) = true ->
  forall p : positive, lo <= Zpos p < lo + Z.of_nat n -> f p = true.
Proof.
  intros Hall p Hp. rewrite forallb_forall in Hall.
  specialize (Hall (Z.to_nat (Zpos p - lo))).
  replace (lo + Z.of_nat (Z.to_nat (Zpos p - lo))) with (Zpos p) in Hall
    by lia.
  rewrite Pos2Z.id in Hall. apply Hall. apply in_seq. lia.
Qed.
End Rounding.


(** ** The order of numbers

    [<] and [<=] on numbers other than [NaN] are a strict and a total
    order; [Math.max] and [Math.min] return a bound of their arguments. *)

Section FloatOrder.
Local Open Scope float_scope.

Lemma SFltb_trans (x y z : spec_float) :
  SFltb x y = true -> SFltb y z = true -> SFltb x z = true.
Proof.
  unfold SFltb, SFcompare.
  destruct x as [[]|[]| |[] mx ex], y as [[]|[]| |[] my ey],
           z as [[]|[]| |[] mz ez];
    try discriminate; try reflexivity; intros H1 H2;
    cmp_cases; cbn in *; try discriminate; try reflexivity; try lia.
Qed.

Lemma SFltb_asym (x y : spec_float) :
  SFltb x y = true -> SFltb y x = false.
Proof.
  unfold SFltb, SFcompare.
  destruct x as [[]|[]| |[] mx ex], y as [[]|[]| |[] my ey];
    try discriminate; try reflexivity; intros H1;
    cmp_cases; cbn in *; try discriminate; try reflexivity; try lia.
Qed.


Lemma SFleb_trans (x y z : spec_float) :
  SFleb x y = true -> SFleb y z = true -> SFleb x z = true.
Proof.
  unfold SFleb, SFcompare.
  destruct x as [[]|[]| |[] mx ex], y as [[]|[]| |[] my ey],
           z as [[]|[]| |[] mz ez];
    try discriminate; try reflexivity; intros H1 H2;
    cmp_cases; cbn in *; try discriminate; try reflexivity; try lia.
Qed.

Lemma SFleb_total (x y : spec_float) :
  x <> S754_nan -> y <> S754_nan -> SFltb x y = false -> SFleb y x = true.
Proof.
  unfold SFltb, SFleb, SFcompare.
  destruct x as [[]|[]| |[] mx ex], y as [[]|[]| |[] my ey];
    try discriminate; try reflexivity; try congruence; intros _ _ H1;
    cmp_cases; cbn in *; try discriminate; try reflexivity; try lia.
Qed.

Lemma SFeqb_refl_nan (x : spec_float) :
  SFeqb x x = false <-> x = S754_nan.
Proof.
  unfold SFeqb, SFcompare.
  destruct x as [[]|[]| |[] mx ex]; cbn;
    try (split; [discriminate | discriminate]);
    try (split; [reflexivity | reflexivity]).
  - rewrite Z.compare_refl.
    change (Pos.compare_cont Eq mx mx) with (Pos.compare mx mx).
    rewrite Pos.compare_refl. cbn. split; discriminate.
  - rewrite Z.compare_refl.
    change (Pos.compare_cont Eq mx mx) with (Pos.compare mx mx).
    rewrite Pos.compare_refl. cbn. split; discriminate.
Qed.

Lemma is_nan_spec (x : float) : is_nan x = true <-> Prim2SF x = S754_nan.
Proof.
  unfold is_nan. rewrite eqb_spec, negb_true_iff. apply SFeqb_refl_nan.
Qed.

Lemma ltb_asym (x y : float) : (x <? y) = true -> (y <? x) = false.
Proof. rewrite !ltb_spec. apply SFltb_asym. Qed.

Lemma ltb_irrefl (x : float) : (x <? x) = false.
Proof.
  destruct (x <? x) eqn:E; [|reflexivity].
  pose proof (ltb_asym _ _ E). congruence.
Qed.

Lemma ltb_trans (x y z : float) :
  (x <? y) = true -> (y <? z) = true -> (x <? z) = true.
Proof. rewrite !ltb_spec. apply SFltb_trans. Qed.


Lemma leb_trans (x y z : float) :
  (x <=? y) = true -> (y <=? z) = true -> (x <=? z) = true.
Proof. rewrite !leb_spec. apply SFleb_trans. Qed.

Lemma leb_total (x y : float) :
  is_nan x = false -> is_nan y = false -> (x <? y) = false ->
  (y <=? x) = true.
Proof.
  intros Hx Hy. rewrite ltb_spec, leb_spec.
  apply SFleb_total; intros E; apply is_nan_spec in E; congruence.
Qed.

Lemma leb_refl (x : float) : is_nan x = false -> (x <=? x) = true.
Proof. intros Hx. apply leb_total; auto using ltb_irrefl. Qed.

Lemma ltb_leb (x y : float) : (x <? y) = true -> (x <=? y) = true.
Proof.
  rewrite ltb_spec, leb_spec. unfold SFltb, SFleb.
  destruct (SFcompare (Prim2SF x) (Prim2SF y)) as [[]|]; congruence.
Qed.

Lemma ltb_not_nan (x y : float) :
  (x <? y) = true -> is_nan x = false /\ is_nan y = false.
Proof.
  intros H. split.
  - destruct (is_nan x) eqn:E; [|reflexivity].
    apply is_nan_spec in E. rewrite ltb_spec, E in H. discriminate.
  - destruct (is_nan y) eqn:E; [|reflexivity].
    apply is_nan_spec in E. rewrite ltb_spec, E in H.
    unfold SFltb, SFcompare in H. destruct (Prim2SF x); discriminate.
Qed.

Lemma nan_ltb (x : float) : (nan <? x) = false /\ (x <? nan) = false.
Proof.
  split.
  - destruct (nan <? x) eqn:E; [|reflexivity].
    apply ltb_not_nan in E. destruct E as [E _]. discriminate.
  - destruct (x <? nan) eqn:E; [|reflexivity].
    apply ltb_not_nan in E. destruct E as [_ E]. discriminate.
Qed.

(** [Math.max(a, b)] is below neither argument. *)
Lemma Math_max_not_below (a b : float) :
  (Math_max a b <? a) = false /\ (Math_max a b <? b) = false.
Proof.
  unfold Math_max.
  destruct (is_nan a || is_nan b); [split; apply nan_ltb|].
  destruct (a <? b) eqn:Eab; [split; auto using ltb_asym, ltb_irrefl|].
  destruct (b <? a) eqn:Eba; [split; auto using ltb_asym, ltb_irrefl|].
  destruct (get_sign a); split; auto using ltb_irrefl.
Qed.

(** [Math.min(a, b)] is above neither argument. *)
Lemma Math_min_not_above (a b : float) :
  (a <? Math_min a b) = false /\ (b <? Math_min a b) = false.
Proof.
  unfold Math_min.
  destruct (is_nan a || is_nan b); [split; apply nan_ltb|].
  destruct (a <? b) eqn:Eab; [split; auto using ltb_asym, ltb_irrefl|].
  destruct (b <? a) eqn:Eba; [split; auto using ltb_asym, ltb_irrefl|].
  destruct (get_sign a); split; auto using ltb_irrefl.
Qed.

(** Without [NaN], [Math.max(a, b)] is one of its arguments and at least
    both. *)
Lemma Math_max_upper (a b : float) :
  is_nan a = false -> is_nan b = false ->
  is_nan (Math_max a b) = false
  /\ (a <=? Math_max a b) = true /\ (b <=? Math_max a b) = true.
Proof.
  intros Ha Hb. unfold Math_max. rewrite Ha, Hb. cbn [orb].
  destruct (a <? b) eqn:Eab.
  { repeat split; auto using ltb_leb, leb_refl. }
  destruct (b <? a) eqn:Eba.
  { repeat split; auto using ltb_leb, leb_refl. }
  destruct (get_sign a); repeat split; auto using leb_refl, leb_total.
Qed.
End FloatOrder.

(** ** Rounding down to the smallest numbers

    The same for operands and results of either sign that may be
    subnormal: the mantissa of the result is the exact mantissa cut at the
    exponent of the result, or one more. *)

Section RoundingAll.
Local Open Scope Z_scope.






























End RoundingAll.

(** ** Sustainability analyzer: the recommendations *)

Section SustainabilityRecommendations.
Import SustainabilityAnalyzer.
Local Open Scope float_scope.



End SustainabilityRecommendations.

(** ** Cost analyzer: further properties *)

Section CostFurther.
Import CostAnalyzer.
Local Open Scope float_scope.

Lemma mapM_Forall {A B} (f : A -> Eff B) (P : B -> Prop) (l : list A)
      (w : World) :
  (forall x w', In x l -> P (fst (f x w'))) ->
  Forall P (fst (mapM f l w)).
Proof.
  revert w. induction l as [|x l IH]; intros w H; cbn.
  - constructor.
  - unfold bind. cbn. constructor.
    + apply H. now left.
    + apply IH. intros y w' Hy. apply H. now right.
Qed.

(** X1: [generateForecast] returns 24 entries that all carry the same
    prediction, the average cost of all readings whatever their hour (0
    without readings), with the band from [max(0, p - 0.2 p)] to
    [p + 0.2 p]. *)
Theorem generateForecast_same_prediction (tz : Zone) (data : list EnergyData)
        (w : World) :
  let p := Heap.average (shared_bucket tz data) in
  length (fst (generateForecast tz data w)) = 24%nat
  /\ Forall (fun f => predictedCost f = p
                      /\ lower f = Math_max 0 (p - p * 0.2)
                      /\ upper f = p + p * 0.2)
            (fst (generateForecast tz data w)).
Proof.
  intros p. split.
  - unfold generateForecast, Heap.Array_fill, Heap.alloc.
    now rewrite mapM_length.
  - unfold generateForecast, Heap.Array_fill, Heap.alloc.
    cbn [length app].
    rewrite forecast_store_shared.
    apply mapM_Forall. intros [ref hour] w' Hin.
    apply in_combine_l in Hin. apply repeat_spec in Hin. subst ref.
    repeat split.
Qed.

Lemma breakdown_sums_partition (tz : Zone) (data : list EnergyData)
      (acc : float * float * float) :
  fold_left (breakdown_step tz) data acc
  = (fold_left (fun sum reading => sum + value reading * PEAK_RATE)
               (filter (fun reading =>
                          isPeakHour (getHours tz (timestamp reading)))
                       data)
               (fst (fst acc)),
     fold_left (fun sum reading => sum + value reading * OFF_PEAK_RATE)
               (filter (fun reading =>
                          negb (isPeakHour (getHours tz (timestamp reading))))
                       data)
               (snd (fst acc)),
     fold_left Math_max
               (map value
                    (filter (fun reading =>
                               isPeakHour (getHours tz (timestamp reading)))
                            data))
               (snd acc)).
Proof.
  revert acc. induction data as [|r data IH]; intros [[pc oc] pd].
  - reflexivity.
  - cbn [fold_left filter]. unfold breakdown_step at 2.
    destruct (isPeakHour (getHours tz (timestamp r))); cbn [negb];
      rewrite IH; reflexivity.
Qed.

(** X2: [calculateBreakdown] splits the readings by their hour: the peak
    cost is the sum over the readings of the hours 9 to 17 of value times
    0.15, the off-peak cost the sum over the other readings of value times
    0.08, the demand charges 10 times the greatest value among the peak
    readings (0 without one); the fixed charge is 50 and the taxes are 8%
    of the sum of the four. *)
Theorem calculateBreakdown_partition (tz : Zone) (data : list EnergyData)
        (w : World) :
  let peak reading := isPeakHour (getHours tz (timestamp reading)) in
  let b := fst (calculateBreakdown tz data w) in
  peak_cost b
  = fold_left (fun sum reading => sum + value reading * 0.15)
              (filter peak data) 0
  /\ off_peak_cost b
     = fold_left (fun sum reading => sum + value reading * 0.08)
                 (filter (fun reading => negb (peak reading)) data) 0
  /\ demand_charges b
     = fold_left Math_max (map value (filter peak data)) 0 * 10
  /\ fixed_charges b = 50
  /\ taxes b
     = (peak_cost b + off_peak_cost b + demand_charges b + 50) * 0.08
  /\ other_charges b = 0.
Proof.
  intros peak b. subst b. rewrite calculateBreakdown_eq.
  unfold breakdown_sums. rewrite breakdown_sums_partition.
  cbn [fst snd]. repeat split.
Qed.

(** X3: when no reading falls into the peak hours 9 to 17, the peak cost
    and the demand charges are 0. *)
Theorem calculateBreakdown_off_peak_only (tz : Zone) (data : list EnergyData)
        (w : World) :
  forallb (fun reading =>
             negb (isPeakHour (getHours tz (timestamp reading)))) data
  = true ->
  peak_cost (fst (calculateBreakdown tz data w)) = 0
  /\ demand_charges (fst (calculateBreakdown tz data w)) = 0.
Proof.
  intros Hoff.
  assert (E : filter (fun reading =>
                        isPeakHour (getHours tz (timestamp reading))) data
              = []).
  { rewrite forallb_forall in Hoff.
    induction data as [|r data IH]; [reflexivity|].
    cbn [filter]. pose proof (Hoff r (or_introl eq_refl)) as Hr.
    apply negb_true_iff in Hr. rewrite Hr. apply IH.
    intros x Hx. apply Hoff. now right. }
  rewrite calculateBreakdown_eq.
  unfold breakdown_sums. rewrite breakdown_sums_partition, E.
  split; reflexivity.
Qed.

(** Readings at 06:00, 20:00 and 23:00 only. *)
Lemma calculateBreakdown_off_peak_only_sample :
  peak_cost (fst (calculateBreakdown UTC
                    [mkReading t_06 50; mkReading t_20 75; mkReading t_23 25]
                    sample_host)) = 0
  /\ demand_charges
       (fst (calculateBreakdown UTC
               [mkReading t_06 50; mkReading t_20 75; mkReading t_23 25]
               sample_host)) = 0.
Proof.
  apply calculateBreakdown_off_peak_only. reflexivity.
Defined.

(** X4: without a previous reading set, [analyzeCosts] compares the
    current set with itself: the previous period of the comparison is the
    current one, field by field. *)
Theorem analyzeCosts_compares_with_itself (tz : Zone) (data : list EnergyData)
        (w : World) :
  let c := comparison (fst (analyzeCosts tz data [] w)) in
  previousPeriod c = currentPeriod c
  /\ totalCost (currentPeriod c)
     = peak_cost (breakdown (fst (analyzeCosts tz data [] w)))
       + off_peak_cost (breakdown (fst (analyzeCosts tz data [] w))).
Proof.
  cbn zeta. rewrite analyzeCosts_breakdown.
  unfold analyzeCosts, bind. cbn zeta. cbn [fst snd ret comparison].
  unfold calculateComparison, bind. cbn zeta.
  cbn [fst snd ret previousPeriod currentPeriod totalCost].
  rewrite !calculateBreakdown_eq.
  destruct data as [|r data];
    destruct (breakdown_sums tz _) as [[pc oc] pd]; split; reflexivity.
Qed.

(** X5: no forecast entry has a negative lower bound and no anomaly a
    confidence below 0.7, whatever the readings. *)
Theorem forecast_and_confidence_floors (tz : Zone) (data : list EnergyData)
        (w : World) :
  Forall (fun f => (lower f <? 0) = false) (fst (generateForecast tz data w))
  /\ Forall (fun a => (anomaly_confidence a <? 0.7) = false)
            (detectAnomalies tz data).
Proof.
  split.
  - unfold generateForecast. destruct (Heap.Array_fill _ _ _) as [arr s0].
    apply mapM_Forall. intros [ref hour] w' _.
    cbn [fst lower]. apply Math_max_not_below.
  - unfold detectAnomalies. apply Forall_forall. intros a Ha.
    apply in_map_iff in Ha. destruct Ha as (record & <- & _).
    cbn [anomaly_confidence]. apply Math_max_not_below.
Qed.




Lemma combine_repeat_range {A} (f : nat * Z -> A) (a : nat) (n : nat) :
  map f (combine (repeat a n) (range n)) = map (fun i => f (a, i)) (range n).
Proof.
  unfold range. generalize 0%nat. induction n as [|n IH]; intros k.
  - reflexivity.
  - cbn. f_equal. apply IH.
Qed.

Lemma civil_month_range (days : Z) :
  let '(_, m, _) := civil_from_days days in (0 <= m < 12)%Z.
Proof.
  unfold civil_from_days.
  set (z := (days + 719468)%Z).
  set (doe := (z - z / 146097 * 146097)%Z).
  assert (Hdoe : (0 <= doe < 146097)%Z).
  { subst doe. pose proof (Z.div_mod z 146097 ltac:(lia)).
    pose proof (Z.mod_pos_bound z 146097 ltac:(lia)). lia. }
  clearbody doe. clear z.
  set (yoe := ((doe - doe / 1460 + doe / 36524 - doe / 146096) / 365)%Z).
  set (doy := (doe - (365 * yoe + yoe / 4 - yoe / 100))%Z).
  assert (Hdoy : (0 <= doy < 366)%Z).
  { subst doy yoe.
    pose proof (Z.div_mod doe 1460 ltac:(lia)).
    pose proof (Z.mod_pos_bound doe 1460 ltac:(lia)).
    pose proof (Z.div_mod doe 36524 ltac:(lia)).
    pose proof (Z.mod_pos_bound doe 36524 ltac:(lia)).
    pose proof (Z.div_mod doe 146096 ltac:(lia)).
    pose proof (Z.mod_pos_bound doe 146096 ltac:(lia)).
    set (n := (doe - doe / 1460 + doe / 36524 - doe / 146096)%Z) in *.
    pose proof (Z.div_mod n 365 ltac:(lia)).
    pose proof (Z.mod_pos_bound n 365 ltac:(lia)).
    set (y := (n / 365)%Z) in *.
    pose proof (Z.div_mod y 4 ltac:(lia)).
    pose proof (Z.mod_pos_bound y 4 ltac:(lia)).
    pose proof (Z.div_mod y 100 ltac:(lia)).
    pose proof (Z.mod_pos_bound y 100 ltac:(lia)).
    lia. }
  clearbody doy.
  pose proof (Z.div_mod (5 * doy + 2) 153 ltac:(lia)).
  pose proof (Z.mod_pos_bound (5 * doy + 2) 153 ltac:(lia)).
  destruct ((5 * doy + 2) / 153 <? 10)%Z eqn:E.
  - apply Z.ltb_lt in E. lia.
  - apply Z.ltb_ge in E. lia.
Qed.

Lemma nth_repeat_below {A} (a d : A) (n i : nat) :
  (i < n)%nat -> nth i (repeat a n) d = a.
Proof.
  revert i. induction n as [|n IH]; intros i Hi; [lia|].
  destruct i as [|i]; [reflexivity|]. cbn. apply IH. lia.
Qed.

Lemma patterns_store_shared (tz : Zone) (data : list EnergyData)
      (b0 b1 b2 : Heap.Bucket) :
  let all b :=
    fold_left (fun b reading =>
                 Heap.mkBucket (Heap.sum b + value reading)
                               (Heap.count b + 1))
              data b in
  patterns_store tz (repeat 0%nat 24) (repeat 1%nat 7) (repeat 2%nat 12)
                 data [b0; b1; b2]
  = [all b0; all b1; all b2].
Proof.
  cbn zeta. unfold patterns_store.
  match goal with |- fold_left ?f _ _ = _ => set (step := f) end.
  revert b0 b1 b2.
  induction data as [|r data IH]; intros b0 b1 b2; [reflexivity|].
  cbn [fold_left].
  assert (Hs : step [b0; b1; b2] r
               = [Heap.mkBucket (Heap.sum b0 + value r) (Heap.count b0 + 1);
                  Heap.mkBucket (Heap.sum b1 + value r) (Heap.count b1 + 1);
                  Heap.mkBucket (Heap.sum b2 + value r) (Heap.count b2 + 1)]).
  { subst step. cbv beta zeta. unfold Heap.accumulate.
    rewrite (nth_repeat_below 0%nat), (nth_repeat_below 1%nat),
      (nth_repeat_below 2%nat).
    - reflexivity.
    - pose proof (civil_month_range
                    (localTime tz (timestamp r) / msPerDay)) as Hm.
      unfold getMonth.
      destruct (civil_from_days _) as [[y m] d]. lia.
    - unfold getDay.
      pose proof (Z.mod_pos_bound
                    (localTime tz (timestamp r) / msPerDay + 4) 7). lia.
    - unfold getHours.
      pose proof (Z.mod_pos_bound
                    (localTime tz (timestamp r) / msPerHour) 24). lia. }
  rewrite Hs. apply IH.
Qed.

(** X7: the three pattern arrays of [generateMLInsights] are each filled
    with one object, and every reading is added to each of the three.  So
    all 24 daily, all 7 weekly and all 12 seasonal patterns carry the same
    average usage, the average over all readings (0 without readings); the
    confidence is the number of all readings over 30, 4 and 30, capped at
    1. *)
Theorem generateMLInsights_one_bucket (tz : Zone) (data : list EnergyData) :
  let b := usage_bucket data in
  let average :=
    if 0 <? Heap.count b then Heap.sum b / Heap.count b else 0 in
  daily (generateMLInsights tz data)
  = map (fun i => mkUsagePattern i average
                                 (Math_min 1 (Heap.count b / 30)))
        (range 24)
  /\ weekly (generateMLInsights tz data)
     = map (fun i => mkUsagePattern i average
                                    (Math_min 1 (Heap.count b / 4)))
           (range 7)
  /\ seasonal (generateMLInsights tz data)
     = map (fun i => mkUsagePattern i average
                                    (Math_min 1 (Heap.count b / 30)))
           (range 12).
Proof.
  cbn zeta. unfold generateMLInsights, Heap.Array_fill, Heap.alloc.
  cbn [length app daily weekly seasonal].
  rewrite patterns_store_shared.
  unfold usage_patterns. rewrite !repeat_length.
  rewrite !combine_repeat_range. repeat split.
Qed.
End CostFurther.

(** ** Sustainability analyzer: further properties *)

Section SustainabilityFurther.
Import SustainabilityAnalyzer.
Local Open Scope float_scope.

(** X8: the peak renewable hours are the timestamps of the readings at
    the positions 0, 4, 8, 12 and 16 of the input, as far as they exist,
    whatever their values; there are at most five. *)
Theorem identifyPeakRenewableHours_positions (data : list EnergyData) :
  identifyPeakRenewableHours data
  = map timestamp
        (flat_map (fun i => match nth_error data i with
                            | Some reading => [reading]
                            | None => []
                            end)
                  [0; 4; 8; 12; 16]%nat)
  /\ (length (identifyPeakRenewableHours data) <= 5)%nat.
Proof.
  split.
  - unfold identifyPeakRenewableHours.
    do 17 (destruct data as [|? data]; [reflexivity|]).
    reflexivity.
  - unfold identifyPeakRenewableHours.
    rewrite length_map, length_firstn. apply Nat.le_min_l.
Qed.

(** X9: whatever the footprint, the renewable metrics and the efficiency
    metrics, the carbon score is not above 100 and the waste score not
    below 0; there are 12 entries of historical progress, none with a
    score below 50, and 12 forecast entries, none with a predicted score
    above 100, whatever the random source gives. *)
Theorem calculateSustainabilityScore_bounds (tz : Zone)
        (carbon : CarbonFootprint) (renewable : RenewableEnergy)
        (efficiency : EfficiencyMetrics) (w : World) :
  let r :=
    fst (calculateSustainabilityScore tz carbon renewable efficiency w) in
  (100 <? carbonScore r) = false
  /\ (wasteScore r <? 0) = false
  /\ length (historicalProgress r) = 12%nat
  /\ Forall (fun p => (progress_score p <? 50) = false)
            (historicalProgress r)
  /\ length (score_forecast r) = 12%nat
  /\ Forall (fun f => (100 <? predictedScore f) = false) (score_forecast r).
Proof.
  cbn zeta. unfold calculateSustainabilityScore, bind. cbn zeta.
  cbn [fst snd ret carbonScore wasteScore historicalProgress score_forecast].
  repeat apply conj.
  - apply Math_min_not_above.
  - apply Math_max_not_below.
  - now rewrite mapM_length.
  - apply mapM_Forall. intros i w' _. unfold bind. cbn.
    apply Math_max_not_below.
  - now rewrite mapM_length.
  - apply mapM_Forall. intros i w' _. unfold bind. cbn.
    apply Math_min_not_above.
Qed.

(** X10: in the result of [analyzeSustainability] the recommendations
    follow the scores of the same result: one of category carbon exactly
    when the carbon score is below 70, then one of category renewable
    exactly when the renewable percentage is below 50, and none of the
    categories efficiency and waste; the renewable score is the renewable
    percentage and the efficiency score is 87.5 for every input. *)
Theorem analyzeSustainability_recommendations_follow_scores (tz : Zone)
        (data : list EnergyData) (w : World) :
  let m := fst (analyzeSustainability tz data w) in
  let r := sustainabilityScore m in
  map category (recommendations r)
  = (if carbonScore r <? 70 then [carbon] else [])
      ++ (if percentage (renewableEnergy m) <? 50 then [renewable] else [])
  /\ renewableScore r = percentage (renewableEnergy m)
  /\ efficiencyScore r = 87.5.
Proof.
  cbn zeta. unfold analyzeSustainability, bind. cbn zeta.
  cbn [fst snd ret sustainabilityScore renewableEnergy].
  unfold calculateSustainabilityScore, bind. cbn zeta.
  cbn [fst snd ret recommendations carbonScore renewableScore
       efficiencyScore].
  repeat split.
  unfold generateRecommendations, bind. cbn zeta.
  rewrite !(push_if_host _ _ category) by reflexivity.
  reflexivity.
Qed.

(** X11: the emissions are 0.4 times the total usage, so for every
    reading set whose total usage is a finite number not below 1e-300 the
    emissions per kWh are 0.4, the carbon intensity 400, the reduction
    from the baseline 20 and the renewable percentage 40, each up to the
    rounding of the operations, whatever the readings. *)
Theorem sustainability_ratios_constant (tz : Zone)
        (data : list EnergyData) (w : World) :
  (1e-300 <=? totalUsage data) = true ->
  (totalUsage data <? infinity) = true ->
  let c := fst (calculateCarbonFootprint tz data w) in
  let r := calculateRenewableMetrics data in
  ((0.399999999999999 <? emissionsPerKwh c) = true
   /\ (emissionsPerKwh c <? 0.400000000000001) = true)
  /\ ((399.999999999999 <? carbonIntensity c) = true
      /\ (carbonIntensity c <? 400.000000000001) = true)
  /\ ((19.9999999999999 <? reductionFromBaseline c) = true
      /\ (reductionFromBaseline c <? 20.0000000000001) = true)
  /\ ((39.9999999999998 <? percentage r) = true
      /\ (percentage r <? 40.0000000000002) = true).
Proof.
  intros Hlo Hhi.
  destruct (normal_pos_of_range _ Hlo Hhi) as (m & e & Ht).
  cbn zeta. unfold calculateCarbonFootprint, calculateRenewableMetrics, bind.
  cbn zeta.
  cbn [fst snd ret emissionsPerKwh carbonIntensity reductionFromBaseline
       percentage].
  unfold BASELINE_EMISSIONS.
  destruct (ratio_04 _ m e Ht) as (mq & Hq & Hb).
  destruct (ratio_renewable _ m e Ht) as (mr & Hr & Hbr).
  rewrite <- (SF2Prim_Prim2SF (totalUsage data * 0.4 / totalUsage data)), Hq.
  rewrite <- (SF2Prim_Prim2SF
                ((totalUsage data * 0.15 + totalUsage data * 0.25)
                   / totalUsage data)), Hr.
  pose proof (mantissa_range_check
                (fun p =>
                   let q := SF2Prim (S754_finite false p (-54)) in
                   (0.399999999999999 <? q) && (q <? 0.400000000000001)
                   && (399.999999999999 <? q * 1000)
                   && (q * 1000 <? 400.000000000001)
                   && (19.9999999999999 <? (0.5 - q) / 0.5 * 100)
                   && ((0.5 - q) / 0.5 * 100 <? 20.0000000000001))
                (7205759403792794 - 4) 9 ltac:(vm_compute; reflexivity)
                mq ltac:(lia)) as Hc.
  pose proof (mantissa_range_check
                (fun p =>
                   let q := SF2Prim (S754_finite false p (-54)) in
                   (39.9999999999998 <? q * 100)
                   && (q * 100 <? 40.0000000000002))
                (7205759403792794 - 16) 33 ltac:(vm_compute; reflexivity)
                mr ltac:(lia)) as Hp.
  cbv beta zeta in Hc, Hp.
  repeat (apply andb_prop in Hc; destruct Hc as [Hc ?]).
  apply andb_prop in Hp. destruct Hp as [Hp1 Hp2].
  repeat split; assumption.
Qed.

(** The readings of the tests have the total usage 400. *)
Lemma sustainability_ratios_constant_mockData :
  let c := fst (calculateCarbonFootprint UTC mockData sample_host) in
  let r := calculateRenewableMetrics mockData in
  ((0.399999999999999 <? emissionsPerKwh c) = true
   /\ (emissionsPerKwh c <? 0.400000000000001) = true)
  /\ ((399.999999999999 <? carbonIntensity c) = true
      /\ (carbonIntensity c <? 400.000000000001) = true)
  /\ ((19.9999999999999 <? reductionFromBaseline c) = true
      /\ (reductionFromBaseline c <? 20.0000000000001) = true)
  /\ ((39.9999999999998 <? percentage r) = true
      /\ (percentage r <? 40.0000000000002) = true).
Proof.
  apply sustainability_ratios_constant; reflexivity.
Defined.
End SustainabilityFurther.

(** ** Demand analyzer: what an update keeps *)

Section DemandUpdates.
Import DemandAnalyzer.
Local Open Scope Z_scope.

Lemma insert_by_time_Permutation (r : EnergyData) (l : list EnergyData) :
  Permutation (insert_by_time r l) (r :: l).
Proof.
  induction l as [|x l IH]; cbn; [reflexivity|].
  destruct (timestamp r <=? timestamp x); [reflexivity|].
  rewrite IH. apply perm_swap.
Qed.

Lemma sort_by_time_Permutation (l : list EnergyData) :
  Permutation (sort_by_time l) l.
Proof.
  unfold sort_by_time.
  induction l as [|r l IH]; cbn [fold_right]; [reflexivity|].
  rewrite insert_by_time_Permutation. now constructor.
Qed.

Lemma filter_Permutation {A} (f : A -> bool) (l l' : list A) :
  Permutation l l' -> Permutation (filter f l) (filter f l').
Proof.
  induction 1 as [|x l l' _ IH|x y l|l l' l'' _ IH1 _ IH2]; cbn.
  - constructor.
  - destruct (f x); [now constructor | exact IH].
  - destruct (f x), (f y); try reflexivity. apply perm_swap.
  - now transitivity (filter f l').
Qed.

(** X12: [updateHistoricalData] keeps, of the old history followed by the
    batch, exactly the readings that are not earlier than the cutoff of
    the call, each as often as it occurs: no reading of the window is
    dropped or merged with an equal one, and a batch given twice is kept
    twice.  The cutoff is the same local time of day thirty calendar days
    before the clock reading, in the zone of the host. *)
Theorem updateHistoricalData_keeps_window (tz : Zone)
        (data : list EnergyData) (self : State) (w : World) :
  let now := clock w (clock_reads w) in
  let wall := now + offsetAt tz now - 30 * msPerDay in
  Permutation
    (historicalData (fst (updateHistoricalData tz data self w)))
    (filter (fun reading =>
               wall - offsetOfLocal tz wall <=? timestamp reading)
            (historicalData self ++ data)).
Proof.
  cbn zeta. cbn [updateHistoricalData bind fst snd ret Date_now
                 historicalData].
  unfold thirtyDaysAgo, addDays, utcTime, localTime.
  replace (clock w (clock_reads w) + offsetAt tz (clock w (clock_reads w))
           + -30 * msPerDay)
    with (clock w (clock_reads w) + offsetAt tz (clock w (clock_reads w))
          - 30 * msPerDay) by lia.
  apply filter_Permutation, sort_by_time_Permutation.
Qed.

Lemma insert_by_time_first (r : EnergyData) (l : list EnergyData) :
  time_ordered (r :: l) -> insert_by_time r l = r :: l.
Proof.
  intros H. destruct l as [|x l]; [reflexivity|].
  apply StronglySorted_inv in H. destruct H as [_ H].
  apply Forall_inv in H. cbn.
  apply Z.leb_le in H. now rewrite H.
Qed.

Lemma sort_by_time_ordered_id (l : list EnergyData) :
  time_ordered l -> sort_by_time l = l.
Proof.
  unfold sort_by_time.
  induction l as [|r l IH]; intros H; [reflexivity|].
  cbn [fold_right]. rewrite IH.
  - now apply insert_by_time_first.
  - now apply StronglySorted_inv in H.
Qed.

Lemma reachable_time_ordered (tz : Zone) (self : State) (last : option Z) :
  reachable tz self last -> time_ordered (historicalData self).
Proof.
  intros H. destruct H as [|self last data w _].
  - constructor.
  - cbn. apply filter_time_ordered, sort_by_time_ordered.
Qed.

(** X13: a call of [updateHistoricalData] with the empty batch does not
    clear the history: in a state the analyzer can reach, when no retained
    reading is earlier than the cutoff of the call (the same local time of
    day thirty calendar days before the clock reading, in the zone of the
    host), the state after the call is the state before it. *)
Theorem updateHistoricalData_empty_batch (tz : Zone) (self : State)
        (last : option Z) (w : World) :
  reachable tz self last ->
  (forall reading,
      In reading (historicalData self) ->
      let now := clock w (clock_reads w) in
      let wall := now + offsetAt tz now - 30 * msPerDay in
      wall - offsetOfLocal tz wall <= timestamp reading) ->
  fst (updateHistoricalData tz [] self w) = self.
Proof.
  intros Hreach Hwindow. apply reachable_time_ordered in Hreach.
  destruct self as [l].
  cbn [updateHistoricalData bind fst snd ret Date_now historicalData] in *.
  f_equal.
  rewrite app_nil_r, sort_by_time_ordered_id by exact Hreach.
  apply forallb_filter_id. apply forallb_forall. intros r Hr.
  apply Z.leb_le. specialize (Hwindow r Hr). cbv zeta in Hwindow.
  unfold thirtyDaysAgo, addDays, utcTime, localTime.
  replace (clock w (clock_reads w) + offsetAt tz (clock w (clock_reads w))
           + -30 * msPerDay)
    with (clock w (clock_reads w) + offsetAt tz (clock w (clock_reads w))
          - 30 * msPerDay) by lia.
  exact Hwindow.
Qed.

(** On the host in New York, the reading of 2026-10-03T16:30Z given at
    2026-11-02T17:00Z is kept by a call with the empty batch a millisecond
    later: it is after the cutoff, 12:00 local time of 2026-10-03. *)
Lemma updateHistoricalData_empty_batch_new_york :
  let self :=
    fst (updateHistoricalData new_york_2026 [mkReading 1791045000000 1]
           initial new_york_host) in
  let w := snd (updateHistoricalData new_york_2026
                  [mkReading 1791045000000 1] initial new_york_host) in
  fst (updateHistoricalData new_york_2026 [] self w) = self.
Proof.
  cbv zeta.
  apply (updateHistoricalData_empty_batch _ _ (Some 1793638800000)).
  - exact (reachable_update _ _ [mkReading 1791045000000 1] new_york_host
             reachable_initial).
  - intros reading Hin. vm_compute in Hin.
    repeat (destruct Hin as [<- | Hin]; [vm_compute; discriminate|]).
    destruct Hin.
Defined.
End DemandUpdates.

(** ** Demand analyzer: the next peak *)

Section DemandNextPeak.
Import DemandAnalyzer DemandProfile.
Local Open Scope Z_scope.

Lemma fold_left_invariant {A B} (P : A -> Prop) (f : A -> B -> A)
      (l : list B) (a : A) :
  P a -> (forall a b, P a -> In b l -> P (f a b)) -> P (fold_left f l a).
Proof.
  revert a. induction l as [|b l IH]; intros a Ha Hf; [exact Ha|].
  cbn. apply IH.
  - apply Hf; [exact Ha | now left].
  - intros a' b' Ha' Hb'. apply Hf; [exact Ha' | now right].
Qed.

Lemma SFleb_ltb_trans (x y z : spec_float) :
  SFleb x y = true -> SFltb y z = true -> SFltb x z = true.
Proof.
  unfold SFltb, SFleb, SFcompare.
  destruct x as [[]|[]| |[] mx ex], y as [[]|[]| |[] my ey],
           z as [[]|[]| |[] mz ez];
    try discriminate; try reflexivity; intros H1 H2;
    cmp_cases; cbn in *; try discriminate; try reflexivity; try lia.
Qed.

Lemma leb_ltb_trans (x y z : float) :
  (x <=? y)%float = true -> (y <? z)%float = true -> (x <? z)%float = true.
Proof. rewrite !ltb_spec, leb_spec. apply SFleb_ltb_trans. Qed.

Lemma update_at_length (l : list float) (i : nat) (f : float -> float) :
  length (update_at l i f) = length l.
Proof.
  revert i. induction l as [|x l IH]; intros [|i]; cbn; auto.
Qed.

Lemma update_at_nth (l : list float) (i j : nat) (f : float -> float)
      (d : float) :
  (j < length l)%nat ->
  nth j (update_at l i f) d
  = if (j =? i)%nat then f (nth j l d) else nth j l d.
Proof.
  revert i j. induction l as [|x l IH]; intros i j Hj; cbn in Hj; [lia|].
  destruct i as [|i], j as [|j]; cbn; try reflexivity.
  apply IH. lia.
Qed.

(** The two arrays of [predictNextPeak] after the [forEach]: slot [j]
    holds the sum, and the count, of the readings of hour [j]. *)
Lemma hourly_totals_nth (tz : Zone) (data : list EnergyData)
      (totals counts : list float) (j : nat) :
  length totals = 24%nat -> length counts = 24%nat -> (j < 24)%nat ->
  let readings :=
    filter (fun reading => getHours tz (timestamp reading) =? Z.of_nat j)
           data in
  let result :=
    fold_left
      (fun acc reading =>
         let hour := Z.to_nat (getHours tz (timestamp reading)) in
         (update_at (fst acc) hour (fun total => (total + value reading)%float),
          update_at (snd acc) hour (fun count => (count + 1)%float)))
      data (totals, counts) in
  length (fst result) = 24%nat /\ length (snd result) = 24%nat
  /\ nth j (fst result) 0%float
     = fold_left (fun sum reading => (sum + value reading)%float) readings
                 (nth j totals 0%float)
  /\ nth j (snd result) 0%float
     = fold_left (fun count _ => (count + 1)%float) readings
                 (nth j counts 0%float).
Proof.
  intros Ht Hc Hj. cbn zeta. revert totals counts Ht Hc.
  induction data as [|r data IH]; intros totals counts Ht Hc.
  - cbn. auto.
  - cbn [fold_left filter fst snd].
    set (hour := Z.to_nat (getHours tz (timestamp r))).
    specialize (IH (update_at totals hour (fun total => (total + value r)%float))
                   (update_at counts hour (fun count => (count + 1)%float))).
    rewrite !update_at_length in IH. specialize (IH Ht Hc).
    destruct IH as (H1 & H2 & H3 & H4).
    rewrite !update_at_nth in H3, H4 by lia.
    assert (Hhour : (j =? hour)%nat
                    = (getHours tz (timestamp r) =? Z.of_nat j)).
    { subst hour. unfold getHours.
      pose proof (Z.mod_pos_bound (localTime tz (timestamp r) / msPerHour) 24
                    ltac:(lia)).
      destruct (Nat.eqb_spec j (Z.to_nat
                  ((localTime tz (timestamp r) / msPerHour) mod 24)));
        destruct (Z.eqb_spec ((localTime tz (timestamp r) / msPerHour) mod 24)
                             (Z.of_nat j)); try reflexivity; lia. }
    rewrite Hhour in H3, H4.
    repeat apply conj; try assumption.
    + rewrite H3. destruct (getHours tz (timestamp r) =? Z.of_nat j);
        reflexivity.
    + rewrite H4. destruct (getHours tz (timestamp r) =? Z.of_nat j);
        reflexivity.
Qed.

Lemma nth_repeat_zero (j n : nat) : nth j (repeat 0%float n) 0%float = 0%float.
Proof. apply nth_repeat. Qed.

(** The hourly averages of [predictNextPeak] are the averages of the
    readings of each hour. *)
Lemma normalizedAverages_eq (tz : Zone) (recentData : list EnergyData) :
  normalizedAverages tz recentData
  = map (fun h => (h, hourly_average tz recentData h)) (range 24).
Proof.
  unfold normalizedAverages, hourly_totals.
  pose proof (fun j => hourly_totals_nth tz recentData (repeat 0%float 24)
                         (repeat 0%float 24) j eq_refl eq_refl) as H.
  cbn zeta in H.
  destruct (fold_left _ recentData (repeat 0%float 24, repeat 0%float 24))
    as [totals counts].
  cbn [fst snd] in H.
  apply (nth_ext _ _ (0, 0%float) (0, 0%float)).
  - rewrite !length_map, !length_combine.
    destruct (H 0%nat ltac:(lia)) as (-> & -> & _).
    unfold range. rewrite length_map, length_seq. reflexivity.
  - intros j Hj.
    rewrite length_map, !length_combine in Hj.
    destruct (H 0%nat ltac:(lia)) as (Hlt & Hlc & _).
    rewrite Hlt, Hlc in Hj. unfold range in Hj |- *.
    rewrite length_map, length_seq in Hj. cbn in Hj.
    destruct (H j Hj) as (_ & _ & Ht & Hc).
    rewrite nth_repeat_zero in Ht, Hc.
    set (g := fun p : float * float * Z =>
                (snd p, (fst (fst p) / or_one (snd (fst p)))%float)).
    rewrite (nth_indep _ _ (g (0%float, 0%float, 0)))
      by (rewrite length_map, !length_combine, Hlt, Hlc, length_map,
            length_seq; cbn; lia).
    rewrite (map_nth g).
    rewrite !combine_nth
      by (rewrite ?length_combine, ?Hlt, ?Hlc, ?length_map, ?length_seq;
          reflexivity).
    subst g. cbn [fst snd]. rewrite Ht, Hc.
    set (k := fun h => (h, hourly_average tz recentData h)).
    rewrite (nth_indep _ _ (k 0)) by (rewrite !length_map, length_seq; lia).
    rewrite (map_nth k).
    change 0 with (Z.of_nat 0) at 1 2.
    rewrite !map_nth, !seq_nth by lia. cbn [Nat.add]. subst k.
    unfold hourly_average, or_one. reflexivity.
Qed.

(** The [reduce] that picks the peak hour: it ends on an hour whose
    average no hour exceeds, the first such hour unless a [NaN] comes
    before it. *)
Lemma peak_fold (f : Z -> float) (n : nat) :
  let r :=
    fold_left (fun max current : Z * float =>
                 if (snd max <? snd current)%float then current else max)
              (map (fun h => (h, f h)) (range n)) (0, f 0) in
  (0 <= fst r /\ (fst r < Z.of_nat n \/ fst r = 0))
  /\ snd r = f (fst r)
  /\ (forall j, 0 <= j < Z.of_nat n -> (f (fst r) <? f j)%float = false)
  /\ (forall j, 0 <= j < fst r ->
                (f j <? f (fst r))%float = true \/ is_nan (f j) = true).
Proof.
  induction n as [|n IH]; cbn zeta.
  - cbn. repeat apply conj; try reflexivity; try lia; intros; lia.
  - unfold range in *. rewrite seq_S, !map_app, fold_left_app.
    cbn [Nat.add map fold_left].
    cbn zeta in IH.
    set (r := fold_left _ (map _ (map Z.of_nat (seq 0 n))) (0, f 0)) in *.
    destruct IH as ((H0 & Hlt) & Hs & Hmax & Hfirst).
    cbn [snd]. destruct (snd r <? f (Z.of_nat n))%float eqn:E.
    + cbn [fst snd]. rewrite Hs in E.
      destruct (ltb_not_nan _ _ E) as [Hn1 Hn2].
      repeat apply conj; try reflexivity; try lia.
      * intros j Hj.
        destruct (Z.eq_dec j (Z.of_nat n)) as [-> | Hne];
          [apply ltb_irrefl|].
        destruct (f (Z.of_nat n) <? f j)%float eqn:E'; [|reflexivity].
        pose proof (ltb_trans _ _ _ E E') as Ht.
        rewrite Hmax in Ht by lia. discriminate.
      * intros j Hj.
        destruct (is_nan (f j)) eqn:Enan; [now right | left].
        apply (leb_ltb_trans _ (f (fst r))); [|exact E].
        apply leb_total; try assumption. apply Hmax. lia.
    + repeat apply conj; try assumption; try lia.
      intros j Hj.
      destruct (Z.eq_dec j (Z.of_nat n)) as [-> | Hne].
      * rewrite <- Hs. exact E.
      * apply Hmax. lia.
Qed.

Lemma peakHour_spec (tz : Zone) (recentData : list EnergyData) :
  let h := fst (peakHour tz recentData) in
  0 <= h < 24
  /\ snd (peakHour tz recentData) = hourly_average tz recentData h
  /\ (forall j, 0 <= j < 24 ->
                (hourly_average tz recentData h
                   <? hourly_average tz recentData j)%float = false)
  /\ (forall j, 0 <= j < h ->
                (hourly_average tz recentData j
                   <? hourly_average tz recentData h)%float = true
                \/ is_nan (hourly_average tz recentData j) = true).
Proof.
  cbn zeta. unfold peakHour. rewrite normalizedAverages_eq.
  change (hd (0, 0%float)
             (map (fun h => (h, hourly_average tz recentData h)) (range 24)))
    with (0, hourly_average tz recentData 0).
  destruct (peak_fold (hourly_average tz recentData) 24)
    as ((H0 & Hlt) & Hs & Hmax & Hfirst).
  repeat apply conj; try assumption; lia.
Qed.

Lemma predictNextPeak_time (minutes : Z) (recentData : list EnergyData)
      (w : World) :
  (24 <= length recentData)%nat ->
  let tz := fixed_offset minutes in
  let now := clock w (clock_reads w) in
  let prediction := fst (predictNextPeak tz recentData w) in
  let t := peak_timestamp prediction in
  now < t <= now + msPerDay
  /\ getHours tz t = fst (peakHour tz recentData)
  /\ localTime tz t mod msPerHour = 0
  /\ predictedDemand prediction
     = (snd (peakHour tz recentData) * (1 + 0.15 + 0.1 + 0.2))%float.
Proof.
  intros Hlen. cbn zeta. unfold predictNextPeak.
  destruct (length recentData <? 24)%nat eqn:E;
    [apply Nat.ltb_lt in E; lia|].
  unfold bind. cbn [fst snd Date_now ret peak_timestamp predictedDemand].
  pose proof (peakHour_spec (fixed_offset minutes) recentData) as (Hh & _).
  set (h := fst (peakHour (fixed_offset minutes) recentData)) in *.
  set (now := clock w (clock_reads w)).
  unfold getHours, setHours000, addDays, utcTime, localTime.
  cbn [offsetAt offsetOfLocal fixed_offset].
  unfold msPerDay, msPerHour, msPerMinute.
  set (L := now + minutes * 60000).
  pose proof (Z.div_mod L 3600000 ltac:(lia)) as HL1.
  pose proof (Z.mod_pos_bound L 3600000 ltac:(lia)) as HL2.
  pose proof (Z.div_mod (L / 3600000) 24 ltac:(lia)) as HL3.
  pose proof (Z.mod_pos_bound (L / 3600000) 24 ltac:(lia)) as HL4.
  set (hc := (L / 3600000) mod 24) in *.
  set (dq := L / 3600000 / 24) in *.
  assert (HLd : L mod 86400000 = hc * 3600000 + L mod 3600000).
  { symmetry. apply (Z.mod_unique_pos _ _ dq); lia. }
  destruct (h <=? hc) eqn:Ehc.
  - apply Z.leb_le in Ehc.
    replace (L + 1 * 86400000 - minutes * 60000 + minutes * 60000)
      with (L + 1 * 86400000) by lia.
    rewrite Z_mod_plus_full, HLd.
    set (T := L + 1 * 86400000 - (hc * 3600000 + L mod 3600000)
              + h * 3600000 - minutes * 60000).
    replace (T + minutes * 60000)
      with ((24 * (dq + 1) + h) * 3600000) by (subst T; lia).
    rewrite Z_mod_mult, Z_div_mult by lia.
    repeat apply conj; try reflexivity; try (subst T L; lia).
    rewrite Z.add_comm, Z.mul_comm, Z_mod_plus_full.
    apply Z.mod_small. lia.
  - apply Z.leb_gt in Ehc.
    fold L. rewrite HLd.
    set (T := L - (hc * 3600000 + L mod 3600000)
              + h * 3600000 - minutes * 60000).
    replace (T + minutes * 60000)
      with ((24 * dq + h) * 3600000) by (subst T; lia).
    rewrite Z_mod_mult, Z_div_mult by lia.
    repeat apply conj; try reflexivity; try (subst T L; lia).
    rewrite Z.add_comm, Z.mul_comm, Z_mod_plus_full.
    apply Z.mod_small. lia.
Qed.

(** X15: on a host whose zone keeps one UTC offset, with at least 24
    readings, the predicted peak is strictly after the clock reading of
    the call and at most 24 hours after it, at the start of an hour of the
    host's day (zero minutes, seconds and milliseconds).  No hour of the
    batch has an average above the average of that hour, and every earlier
    hour has a smaller average or an average that is [NaN]; the predicted
    demand is the average of that hour times [1 + 0.15 + 0.1 + 0.2].  The
    averages are those of the readings of the batch by hour of the host's
    day. *)
Theorem predictNextPeak_after_now (minutes : Z)
        (recentData : list EnergyData) (w : World) :
  (24 <= length recentData)%nat ->
  let tz := fixed_offset minutes in
  let now := clock w (clock_reads w) in
  let prediction := fst (predictNextPeak tz recentData w) in
  let t := peak_timestamp prediction in
  let h := getHours tz t in
  (now < t <= now + msPerDay /\ localTime tz t mod msPerHour = 0)
  /\ (forall j, 0 <= j < 24 ->
                (hourly_average tz recentData h
                   <? hourly_average tz recentData j)%float = false)
  /\ (forall j, 0 <= j < h ->
                (hourly_average tz recentData j
                   <? hourly_average tz recentData h)%float = true
                \/ is_nan (hourly_average tz recentData j) = true)
  /\ predictedDemand prediction
     = (hourly_average tz recentData h * (1 + 0.15 + 0.1 + 0.2))%float.
Proof.
  intros Hlen. cbn zeta.
  destruct (predictNextPeak_time minutes recentData w Hlen)
    as ((Hafter & Hday) & Hhour & Hmin & Hdemand).
  destruct (peakHour_spec (fixed_offset minutes) recentData)
    as (_ & Hs & Hmax & Hfirst).
  rewrite Hhour, Hdemand, Hs. repeat apply conj; assumption || reflexivity.
Qed.

(** Twenty-four readings, one per hour of 2024-03-01, the greatest at
    14:00; the clock of the sample host shows 10:00 UTC, and the peak is
    predicted for 14:00 of that day. *)
Lemma predictNextPeak_after_now_sample :
  let tz := fixed_offset 0 in
  let now := clock sample_host (clock_reads sample_host) in
  let prediction := fst (predictNextPeak tz day_readings sample_host) in
  let t := peak_timestamp prediction in
  let h := getHours tz t in
  (now < t <= now + msPerDay /\ localTime tz t mod msPerHour = 0)
  /\ (forall j, 0 <= j < 24 ->
                (hourly_average tz day_readings h
                   <? hourly_average tz day_readings j)%float = false)
  /\ (forall j, 0 <= j < h ->
                (hourly_average tz day_readings j
                   <? hourly_average tz day_readings h)%float = true
                \/ is_nan (hourly_average tz day_readings j) = true)
  /\ predictedDemand prediction
     = (hourly_average tz day_readings h * (1 + 0.15 + 0.1 + 0.2))%float.
Proof.
  apply predictNextPeak_after_now. vm_compute. apply le_n.
Defined.
End DemandNextPeak.

(** ** Demand analyzer: the profile *)

Section DemandProfiles.
Import DemandAnalyzer DemandProfile.
Local Open Scope float_scope.

Lemma ltb_neg_infinity (x : float) : (x <? neg_infinity) = false.
Proof.
  rewrite ltb_spec. change (Prim2SF neg_infinity) with (S754_infinity true).
  unfold SFltb, SFcompare. destruct (Prim2SF x) as [[]|[]| |[]]; reflexivity.
Qed.

Lemma Math_max_neg_infinity (x : float) :
  is_nan x = false -> Math_max neg_infinity x = x.
Proof.
  intros Hx. unfold Math_max. rewrite Hx.
  change (is_nan neg_infinity) with false. cbn [orb].
  destruct (neg_infinity <? x); [reflexivity|].
  rewrite ltb_neg_infinity. reflexivity.
Qed.

Lemma Math_max_cases (a b : float) :
  is_nan a = false -> is_nan b = false ->
  Math_max a b = a \/ Math_max a b = b.
Proof.
  intros Ha Hb. unfold Math_max. rewrite Ha, Hb. cbn [orb].
  destruct (a <? b); [now right|].
  destruct (b <? a); [now left|].
  destruct (get_sign a); [now right | now left].
Qed.

Lemma fold_Math_max (values : list float) (a : float) :
  is_nan a = false ->
  Forall (fun x => is_nan x = false) values ->
  let m := fold_left Math_max values a in
  is_nan m = false
  /\ (a <=? m) = true
  /\ Forall (fun x => (x <=? m) = true) values
  /\ (m = a \/ In m values).
Proof.
  revert a. induction values as [|x values IH]; intros a Ha Hall; cbn zeta.
  - cbn. auto using leb_refl.
  - apply Forall_cons_iff in Hall. destruct Hall as [Hx Hall].
    destruct (Math_max_upper a x Ha Hx) as (Hn & Hax & Hxx).
    destruct (IH (Math_max a x) Hn Hall) as (Hm & Hle & Hrest & Hin).
    cbn [fold_left]. repeat apply conj.
    + exact Hm.
    + eapply leb_trans; eassumption.
    + constructor; [eapply leb_trans; eassumption | exact Hrest].
    + destruct Hin as [-> | Hin]; [|right; now right].
      destruct (Math_max_cases a x Ha Hx) as [-> | ->];
        [now left | right; now left].
Qed.

(** X14: when no retained value is [NaN], the peak demand is the greatest
    retained value: it is the value of a retained reading and no retained
    value is above it. *)
Theorem calculatePeakDemand_greatest (self : State) :
  historicalData self <> [] ->
  Forall (fun reading => is_nan (value reading) = false)
         (historicalData self) ->
  (exists reading,
      In reading (historicalData self)
      /\ calculatePeakDemand self = value reading)
  /\ Forall (fun reading =>
               (value reading <=? calculatePeakDemand self) = true)
            (historicalData self).
Proof.
  intros Hne Hall. unfold calculatePeakDemand.
  destruct (historicalData self) as [|r l]; [congruence|]. clear Hne.
  apply Forall_cons_iff in Hall. destruct Hall as [Hr Hall].
  cbn [map fold_left]. rewrite (Math_max_neg_infinity _ Hr).
  assert (Hvalues : Forall (fun x => is_nan x = false) (map value l)).
  { apply Forall_map. exact Hall. }
  destruct (fold_Math_max (map value l) (value r) Hr Hvalues)
    as (_ & Hle & Hrest & Hin).
  split.
  - destruct Hin as [-> | Hin].
    + exists r. split; [now left | reflexivity].
    + apply in_map_iff in Hin. destruct Hin as (r' & Hr' & Hin).
      exists r'. split; [now right | now symmetry].
  - constructor; [exact Hle|]. apply Forall_map in Hrest. exact Hrest.
Qed.

(** The readings of the tests, given on the sample host. *)
Lemma calculatePeakDemand_greatest_mockData :
  let self := fst (updateHistoricalData UTC mockData initial sample_host) in
  (exists reading,
      In reading (historicalData self)
      /\ calculatePeakDemand self = value reading)
  /\ Forall (fun reading =>
               (value reading <=? calculatePeakDemand self) = true)
            (historicalData self).
Proof.
  apply calculatePeakDemand_greatest.
  - vm_compute. discriminate.
  - vm_compute. repeat constructor.
Defined.

(** X16: [generateRecommendations] never returns the empty list: the
    strategic recommendation of priority low is always the last.  Before
    it come the immediate one of priority high, when the current demand is
    above 0.8 times the peak demand, and then the scheduled one of
    priority medium, when the predicted peak is less than two hours after
    the clock reading that follows the immediate one's two readings. *)
Theorem generateRecommendations_types (currentDemand peakDemand : float)
        (prediction : PeakPrediction) (w : World) :
  let high_demand := peakDemand * PEAK_THRESHOLD <? currentDemand in
  let now := clock w ((if high_demand then 2 else 0) + clock_reads w) in
  let hoursUntilPeak :=
    of_Z (peak_timestamp prediction - now) / (1000 * 60 * 60) in
  map (fun r => (rec_type r, priority r))
      (fst (generateRecommendations currentDemand peakDemand prediction w))
  = (if high_demand then [(immediate, high)] else [])
      ++ (if hoursUntilPeak <? 2 then [(scheduled, medium)] else [])
      ++ [(strategic, low)].
Proof.
  cbn zeta. unfold generateRecommendations, bind.
  destruct (peakDemand * PEAK_THRESHOLD <? currentDemand);
    cbn [fst snd ret Date_now randomUUID clock clock_reads Nat.add];
    match goal with |- context [if ?c then _ else _] => destruct c end;
    reflexivity.
Qed.

Lemma generateRecommendations_last (currentDemand peakDemand : float)
      (prediction : PeakPrediction) (w : World) :
  exists rest,
    map rec_type
        (fst (generateRecommendations currentDemand peakDemand prediction w))
    = (if peakDemand * PEAK_THRESHOLD <? currentDemand
       then [immediate] else []) ++ rest ++ [strategic].
Proof.
  unfold generateRecommendations, bind.
  destruct (peakDemand * PEAK_THRESHOLD <? currentDemand);
    cbn [fst snd ret Date_now randomUUID clock clock_reads];
    match goal with |- context [if ?c then _ else _] => destruct c end;
    [exists [scheduled] | exists [] | exists [scheduled] | exists []];
    reflexivity.
Qed.

Lemma calculateCurrentDemand_last (rest : list EnergyData)
      (reading : EnergyData) :
  calculateCurrentDemand (rest ++ [reading]) = value reading.
Proof.
  unfold calculateCurrentDemand. rewrite last_last.
  destruct rest; reflexivity.
Qed.

Lemma analyzeDemand_eq (tz : Zone) (recentData : list EnergyData)
      (self : State) (w : World) :
  let self' := fst (updateHistoricalData tz recentData self w) in
  snd (fst (analyzeDemand tz recentData self w)) = self'
  /\ currentDemand (fst (fst (analyzeDemand tz recentData self w)))
     = calculateCurrentDemand recentData
  /\ peakDemand (fst (fst (analyzeDemand tz recentData self w)))
     = calculatePeakDemand self'
  /\ exists prediction w',
       recommendations (fst (fst (analyzeDemand tz recentData self w)))
       = fst (generateRecommendations
                (calculateCurrentDemand recentData)
                (calculatePeakDemand self') prediction w').
Proof.
  cbn zeta. unfold analyzeDemand, bind. cbn zeta.
  cbn [fst snd ret currentDemand peakDemand recommendations].
  repeat apply conj; try reflexivity.
  eexists. eexists. reflexivity.
Qed.

Lemma updateHistoricalData_history (tz : Zone) (data : list EnergyData)
      (self : State) (w : World) :
  let now := clock w (clock_reads w) in
  let wall := (now + offsetAt tz now - 30 * msPerDay)%Z in
  historicalData (fst (updateHistoricalData tz data self w))
  = filter (fun reading =>
              (wall - offsetOfLocal tz wall <=? timestamp reading)%Z)
           (sort_by_time (historicalData self ++ data)).
Proof.
  cbn zeta. cbn [updateHistoricalData bind fst snd ret Date_now
                 historicalData].
  unfold thirtyDaysAgo, addDays, utcTime, localTime.
  replace (clock w (clock_reads w) + offsetAt tz (clock w (clock_reads w))
           + -30 * msPerDay)%Z
    with (clock w (clock_reads w) + offsetAt tz (clock w (clock_reads w))
          - 30 * msPerDay)%Z by lia.
  reflexivity.
Qed.

(** X17: [analyzeDemand] with a batch keeps, of the old history followed
    by the batch, exactly the readings not earlier than the cutoff (the
    same local time of day thirty calendar days before the first clock
    reading of the call), in ascending order of time.  The current demand
    of the profile is the value of the last reading of the batch, and 0
    for the empty batch; the peak demand is 0 when nothing is retained and
    otherwise, when no retained value is [NaN], not below any retained
    value.  There is at least one recommendation, the last of them the
    strategic one: also for the empty batch in the initial state. *)
Theorem analyzeDemand_profile (tz : Zone) (recentData : list EnergyData)
        (self : State) (w : World) :
  let profile := fst (fst (analyzeDemand tz recentData self w)) in
  let self' := snd (fst (analyzeDemand tz recentData self w)) in
  let now := clock w (clock_reads w) in
  let wall := (now + offsetAt tz now - 30 * msPerDay)%Z in
  (Permutation
     (historicalData self')
     (filter (fun reading =>
                (wall - offsetOfLocal tz wall <=? timestamp reading)%Z)
             (historicalData self ++ recentData))
   /\ time_ordered (historicalData self'))
  /\ ((recentData = [] -> currentDemand profile = 0)
      /\ (forall rest reading,
             recentData = rest ++ [reading] ->
             currentDemand profile = value reading))
  /\ ((historicalData self' = [] -> peakDemand profile = 0)
      /\ (Forall (fun reading => is_nan (value reading) = false)
                 (historicalData self') ->
          Forall (fun reading =>
                    (value reading <=? peakDemand profile) = true)
                 (historicalData self')))
  /\ (exists rest,
         map rec_type (recommendations profile) = rest ++ [strategic]).
Proof.
  cbn zeta.
  destruct (analyzeDemand_eq tz recentData self w)
    as (Hs & Hc & Hp & prediction & w' & Hr).
  rewrite Hs, Hc, Hp, Hr.
  pose proof (updateHistoricalData_history tz recentData self w) as Hh.
  cbn zeta in Hh.
  repeat apply conj.
  - rewrite Hh. apply filter_Permutation, sort_by_time_Permutation.
  - rewrite Hh. apply filter_time_ordered, sort_by_time_ordered.
  - intros ->. reflexivity.
  - intros rest reading ->. apply calculateCurrentDemand_last.
  - intros Hempty. unfold calculatePeakDemand. now rewrite Hempty.
  - intros Hall. unfold calculatePeakDemand.
    destruct (historicalData (fst (updateHistoricalData tz recentData self w)))
      as [|r l]; [constructor|].
    apply Forall_cons_iff in Hall. destruct Hall as [Hr' Hall].
    cbn [map fold_left]. rewrite (Math_max_neg_infinity _ Hr').
    assert (Hvalues : Forall (fun x => is_nan x = false) (map value l))
      by (apply Forall_map; exact Hall).
    destruct (fold_Math_max (map value l) (value r) Hr' Hvalues)
      as (_ & Hle & Hrest & _).
    constructor; [exact Hle|]. apply Forall_map in Hrest. exact Hrest.
  - destruct (generateRecommendations_last
                (calculateCurrentDemand recentData)
                (calculatePeakDemand
                   (fst (updateHistoricalData tz recentData self w)))
                prediction w') as (rest & ->).
    eexists. rewrite app_assoc. reflexivity.
Qed.

(** X18: when every reading of the history and of the batch is earlier
    than the cutoff of the call (the same local time of day thirty
    calendar days before its first clock reading, in the zone of the
    host), [analyzeDemand] leaves the history empty and reports the peak
    demand 0, whatever the values; when the last value of the batch is
    above 0, the first recommendation is then the immediate one. *)
Theorem analyzeDemand_stale_readings (tz : Zone) (recentData : list EnergyData)
        (self : State) (w : World) :
  (forall reading,
      In reading (historicalData self ++ recentData) ->
      let now := clock w (clock_reads w) in
      let wall := (now + offsetAt tz now - 30 * msPerDay)%Z in
      (timestamp reading < wall - offsetOfLocal tz wall)%Z) ->
  let profile := fst (fst (analyzeDemand tz recentData self w)) in
  historicalData (snd (fst (analyzeDemand tz recentData self w))) = []
  /\ peakDemand profile = 0
  /\ (forall rest reading,
         recentData = rest ++ [reading] -> (0 <? value reading) = true ->
         exists others,
           map rec_type (recommendations profile) = immediate :: others).
Proof.
  intros Hold. cbn zeta.
  destruct (analyzeDemand_eq tz recentData self w)
    as (Hs & Hc & Hp & prediction & w' & Hr).
  pose proof (updateHistoricalData_history tz recentData self w) as Hh.
  cbn zeta in Hh.
  assert (Hempty : historicalData
                     (fst (updateHistoricalData tz recentData self w)) = []).
  { rewrite Hh.
    destruct (filter _ _) as [|r l] eqn:E; [reflexivity|].
    assert (Hin : In r (r :: l)) by now left.
    rewrite <- E in Hin. apply filter_In in Hin. destruct Hin as [Hin Hr'].
    apply Z.leb_le in Hr'.
    apply (Permutation_in _ (sort_by_time_Permutation _)) in Hin.
    specialize (Hold r Hin). cbv zeta in Hold. lia. }
  rewrite Hp, Hr, Hs. unfold calculatePeakDemand at 1. rewrite Hempty.
  repeat apply conj; try reflexivity.
  intros rest reading -> Hpos.
  destruct (generateRecommendations_last
              (calculateCurrentDemand (rest ++ [reading]))
              (calculatePeakDemand
                 (fst (updateHistoricalData tz (rest ++ [reading]) self w)))
              prediction w') as (others & ->).
  unfold calculatePeakDemand. rewrite Hempty.
  rewrite calculateCurrentDemand_last.
  change (0 * PEAK_THRESHOLD) with 0. rewrite Hpos.
  eexists. reflexivity.
Qed.

(** The readings of the tests, of 2024-03-01, analysed on 2024-06-01 in
    UTC: nothing is retained, the peak demand is 0, and since the last
    value, 25, is above 0 the first recommendation is the immediate
    one. *)
Lemma analyzeDemand_stale_readings_mockData :
  let profile := fst (fst (analyzeDemand UTC mockData initial later_host)) in
  historicalData (snd (fst (analyzeDemand UTC mockData initial later_host)))
  = []
  /\ peakDemand profile = 0
  /\ (exists others,
         map rec_type (recommendations profile) = immediate :: others).
Proof.
  assert (Hold : forall reading,
             In reading (historicalData initial ++ mockData) ->
             let now := clock later_host (clock_reads later_host) in
             let wall := (now + offsetAt UTC now - 30 * msPerDay)%Z in
             (timestamp reading < wall - offsetOfLocal UTC wall)%Z).
  { intros reading Hin. cbn in Hin.
    repeat (destruct Hin as [<- | Hin]; [vm_compute; reflexivity|]).
    destruct Hin. }
  destruct (analyzeDemand_stale_readings UTC mockData initial later_host Hold)
    as (Hhistory & Hpeak & Hfirst).
  repeat apply conj; [exact Hhistory | exact Hpeak |].
  apply (Hfirst [mkReading t_10 100; mkReading t_14 150; mkReading t_06 50;
                 mkReading t_20 75] (mkReading t_23 25) eq_refl).
  reflexivity.
Defined.

(** X19: the power factor is the constant 0.92, which is not below its
    threshold 0.9, so [calculateRealTimeMetrics] never raises the critical
    alert: there is at most one alert, a warning, and it is there exactly
    when the load factor is below 0.7. *)
Theorem calculateRealTimeMetrics_alerts (recentData : list EnergyData) :
  let m := calculateRealTimeMetrics recentData in
  powerFactor m = 0.92
  /\ map (fun a => (alert_type a, threshold a, currentValue a)) (alerts m)
     = if loadFactor m <? 0.7 then [(warning, 0.7, loadFactor m)] else [].
Proof.
  cbn zeta. unfold calculateRealTimeMetrics. cbn zeta.
  cbn [powerFactor alerts loadFactor].
  change (0.92 <? POWER_FACTOR_THRESHOLD) with false. cbv iota.
  unfold LOAD_FACTOR_THRESHOLD.
  split; [reflexivity|].
  match goal with |- context [if ?c then _ else _] => destruct c end;
    reflexivity.
Qed.
End DemandProfiles.

(** ** Demand analyzer: the patterns *)

Section DemandPatternsShared.
Import DemandAnalyzer DemandProfile.
Local Open Scope float_scope.

Lemma tally_store (tz : Zone) (peakThreshold : float)
      (data : list EnergyData) (b0 b1 b2 : PeakBucket) :
  let all b :=
    fold_left (fun b reading =>
                 mkPeakBucket (sum b + value reading) (count b + 1)
                              (if peakThreshold <? value reading
                               then peaks b + 1 else peaks b))
              data b in
  fold_left
    (fun s reading =>
       let t := timestamp reading in
       let s1 := tally (repeat 0%nat 24) (getHours tz t) (value reading)
                       peakThreshold s in
       let s2 := tally (repeat 1%nat 7) (getDay tz t) (value reading)
                       peakThreshold s1 in
       tally (repeat 2%nat 12) (getMonth tz t) (value reading)
             peakThreshold s2)
    data [b0; b1; b2]
  = [all b0; all b1; all b2].
Proof.
  cbn zeta.
  match goal with |- fold_left ?f _ _ = _ => set (step := f) end.
  revert b0 b1 b2.
  induction data as [|r data IH]; intros b0 b1 b2; [reflexivity|].
  cbn [fold_left].
  assert (Hs : step [b0; b1; b2] r
               = [mkPeakBucket (sum b0 + value r) (count b0 + 1)
                               (if peakThreshold <? value r
                                then peaks b0 + 1 else peaks b0);
                  mkPeakBucket (sum b1 + value r) (count b1 + 1)
                               (if peakThreshold <? value r
                                then peaks b1 + 1 else peaks b1);
                  mkPeakBucket (sum b2 + value r) (count b2 + 1)
                               (if peakThreshold <? value r
                                then peaks b2 + 1 else peaks b2)]).
  { subst step. cbv beta zeta. unfold tally.
    rewrite (nth_repeat_below 0%nat), (nth_repeat_below 1%nat),
      (nth_repeat_below 2%nat).
    - reflexivity.
    - pose proof (civil_month_range
                    (localTime tz (timestamp r) / msPerDay)) as Hm.
      unfold getMonth.
      destruct (civil_from_days _) as [[y m] d]. lia.
    - unfold getDay.
      pose proof (Z.mod_pos_bound
                    (localTime tz (timestamp r) / msPerDay + 4) 7). lia.
    - unfold getHours.
      pose proof (Z.mod_pos_bound
                    (localTime tz (timestamp r) / msPerHour) 24). lia. }
  rewrite Hs. apply IH.
Qed.

(** X20: the three arrays of [generateDemandPatterns] are each filled with
    one object, and every reading of the batch is added to each of the
    three.  So all 24 daily, all 7 weekly and all 12 monthly patterns carry
    the same average demand, the average of the whole batch, and the same
    peak probability, the share of the readings of the batch above 0.9
    times the peak demand; both are 0 for the empty batch. *)
Theorem generateDemandPatterns_one_bucket (tz : Zone) (self : State)
        (recentData : list EnergyData) :
  let b := demand_bucket (calculatePeakDemand self * 0.9) recentData in
  let avg := if 0 <? count b then sum b / count b else 0 in
  let prob := if 0 <? count b then peaks b / count b else 0 in
  daily (generateDemandPatterns tz self recentData)
  = map (fun hour => mkPattern hour avg prob) (range 24)
  /\ weekly (generateDemandPatterns tz self recentData)
     = map (fun day => mkPattern day avg prob) dayNames
  /\ monthly (generateDemandPatterns tz self recentData)
     = map (fun month => mkPattern month avg prob) monthNames.
Proof.
  cbn zeta. unfold generateDemandPatterns. cbn zeta.
  cbn [daily weekly monthly].
  change (repeat (mkPeakBucket 0 0 0) 3)
    with [mkPeakBucket 0 0 0; mkPeakBucket 0 0 0; mkPeakBucket 0 0 0].
  rewrite tally_store. fold (demand_bucket (calculatePeakDemand self * 0.9)
                                           recentData).
  repeat apply conj; reflexivity.
Qed.
End DemandPatternsShared.

(** ** Cost analyzer: the seasons *)

Section CostSeasons.
Import CostAnalyzer.
Local Open Scope Z_scope.

(** X21: the season of an anomaly follows the month of its date in the
    host's zone: Winter for January and February, Spring for March to May,
    Summer for June to September, Fall for October to December. *)
Theorem determineSeasonality_months (tz : Zone) (t : Z) :
  let month := getMonth tz t in
  0 <= month <= 11
  /\ determineSeasonality tz t
     = if month <=? 1 then "Winter"%string
       else if month <=? 4 then "Spring"%string
       else if month <=? 8 then "Summer"%string
       else "Fall"%string.
Proof.
  cbn zeta. unfold determineSeasonality.
  pose proof (civil_month_range (localTime tz t / msPerDay)) as Hm.
  unfold getMonth in *.
  destruct (civil_from_days (localTime tz t / msPerDay)) as [[y m] d].
  split; [lia|].
  destruct (m <=? 1) eqn:E1; destruct (m <=? 4) eqn:E4;
    destruct (m <=? 8) eqn:E8; destruct (5 <=? m) eqn:E5;
    destruct (9 <=? m) eqn:E9; destruct (m <=? 11) eqn:E11;
    destruct (2 <=? m) eqn:E2; cbn [andb]; try reflexivity; lia.
Qed.
End CostSeasons.

(** ** Demand analyzer: what the prediction reads *)

Section DemandPrediction.
Import DemandAnalyzer DemandProfile.
Local Open Scope float_scope.

Lemma analyzeDemand_predictedPeak (tz : Zone) (recentData : list EnergyData)
      (self : State) (w : World) :
  let profile := fst (fst (analyzeDemand tz recentData self w)) in
  predictedPeak profile
  = (if (length recentData <? 24)%nat then 0
     else snd (peakHour tz recentData) * (1 + 0.15 + 0.1 + 0.2))
  /\ predictedDemand (nextPeak (predictions profile))
     = predictedPeak profile.
Proof.
  cbn zeta. unfold analyzeDemand, bind. cbn zeta.
  cbn [fst snd ret predictedPeak predictions].
  unfold generateDemandPredictions, bind. cbn zeta.
  cbn [fst snd ret nextPeak].
  unfold predictNextPeak.
  destruct (length recentData <? 24)%nat; split; reflexivity.
Qed.

(** X22: the predicted peak of a profile is computed from the batch and
    the zone of the host alone: two calls of [analyzeDemand] with the same
    batch give the same predicted peak whatever the retained histories,
    the clock readings, the UUIDs and the random numbers.  It is 0 when
    the batch has fewer than 24 readings, however long the history.  With
    24 readings or more it is the average of one hour of the batch times
    [1 + 0.15 + 0.1 + 0.2], where no hour has an average above the average
    of that hour, and every earlier hour has a smaller average or an
    average that is [NaN]; the averages are those of the readings of the
    batch by hour of the host's day. *)
Theorem analyzeDemand_prediction_from_batch (tz : Zone)
        (recentData : list EnergyData) (self1 self2 : State)
        (w1 w2 : World) :
  let profile1 := fst (fst (analyzeDemand tz recentData self1 w1)) in
  let profile2 := fst (fst (analyzeDemand tz recentData self2 w2)) in
  (predictedPeak profile1 = predictedPeak profile2
   /\ predictedDemand (nextPeak (predictions profile1))
      = predictedPeak profile1)
  /\ ((length recentData < 24)%nat -> predictedPeak profile1 = 0)
  /\ ((24 <= length recentData)%nat ->
      exists h,
        (0 <= h < 24)%Z
        /\ predictedPeak profile1
           = hourly_average tz recentData h * (1 + 0.15 + 0.1 + 0.2)
        /\ (forall j, (0 <= j < 24)%Z ->
                      (hourly_average tz recentData h
                         <? hourly_average tz recentData j) = false)
        /\ (forall j, (0 <= j < h)%Z ->
                      (hourly_average tz recentData j
                         <? hourly_average tz recentData h) = true
                      \/ is_nan (hourly_average tz recentData j) = true)).
Proof.
  cbn zeta.
  destruct (analyzeDemand_predictedPeak tz recentData self1 w1) as [H1 Hn].
  destruct (analyzeDemand_predictedPeak tz recentData self2 w2) as [H2 _].
  rewrite Hn, H1, H2. repeat apply conj; try reflexivity.
  - intros Hlen. apply Nat.ltb_lt in Hlen. now rewrite Hlen.
  - intros Hlen.
    replace (length recentData <? 24)%nat with false
      by (symmetry; apply Nat.ltb_ge; exact Hlen).
    destruct (peakHour_spec tz recentData) as (Hh & Hs & Hmax & Hfirst).
    exists (fst (peakHour tz recentData)).
    rewrite Hs. repeat apply conj; assumption || reflexivity || lia.
Qed.
End DemandPrediction.
